(** * health-app: the appointment-request lifecycle and the voice pipeline

    A shallow embedding of [src/app/welcome/page.tsx] (patient page, doctor
    page, resubmission widget) and of the Firestore writes of
    [src/components/auth/AuthForm.tsx].

    Event handlers are asynchronous functions that read React state, call
    Firestore and OpenAI, and report through toasts.  They are embedded as
    computations in a state-and-exception monad over the component's state
    and an environment [Env] holding the document store, the signed-in user,
    the toast list and the scripted behaviour of the network. *)

From Stdlib Require Import List ZArith NArith Bool Lia String Ascii.
From Stdlib Require Import Permutation.
Import ListNotations.

Set Implicit Arguments.

(** ** JavaScript strings *)

(** A JavaScript string is a sequence of UTF-16 code units. *)
Definition jsstring := list N.

(** String literals of the source, written as Rocq strings. *)
Definition js (s : string) : jsstring :=
  map N_of_ascii (list_ascii_of_string s).

Fixpoint jsstring_eqb (a b : jsstring) : bool :=
  match a, b with
  | [], [] => true
  | x :: a', y :: b' => N.eqb x y && jsstring_eqb a' b'
  | _, _ => false
  end.

(** [!s] is false exactly for the non-empty string. *)
Definition truthy (s : jsstring) : bool :=
  match s with [] => false | _ :: _ => true end.

(** [!o] for a value of type [string | null]. *)
Definition truthy_opt (o : option jsstring) : bool :=
  match o with Some s => truthy s | None => false end.

(** [a || b] on [string | null] with a string default. *)
Definition or_default (o : option jsstring) (d : jsstring) : jsstring :=
  match o with
  | Some s => if truthy s then s else d
  | None => d
  end.

(** ECMAScript WhiteSpace and LineTerminator code points, the ones
    [String.prototype.trim] strips. *)
Definition isWhiteSpace (c : N) : bool :=
  existsb (N.eqb c)
    [9; 10; 11; 12; 13; 32; 160; 5760; 8232; 8233; 8239; 8287; 12288; 65279]%N
  || ((8192 <=? c) && (c <=? 8202))%N.

Fixpoint trimStart (s : jsstring) : jsstring :=
  match s with
  | c :: s' => if isWhiteSpace c then trimStart s' else s
  | [] => []
  end.

Definition trimEnd (s : jsstring) : jsstring := rev (trimStart (rev s)).

Definition trim (s : jsstring) : jsstring := trimEnd (trimStart s).

(** ** Data model (the interfaces at the top of page.tsx) *)

Definition DocId := jsstring.

(** A [Date] or Firestore [Timestamp]: milliseconds since the epoch. *)
Definition Instant := Z.

Inductive Status := pending | scheduled | completed.

Definition Status_eqb (a b : Status) : bool :=
  match a, b with
  | pending, pending | scheduled, scheduled | completed, completed => true
  | _, _ => false
  end.

Module Appointment.
Record t := mk {
  id : option DocId;
  appointmentDate : jsstring;
  appointmentTime : jsstring;
  assignedDoctor : jsstring;
  patientUsername : jsstring;
  diagnosis : option jsstring;
  medication : option jsstring;
  scheduledDate : option Instant
}.

Definition with_id (i : DocId) (a : t) : t :=
  mk (Some i) (appointmentDate a) (appointmentTime a) (assignedDoctor a)
     (patientUsername a) (diagnosis a) (medication a) (scheduledDate a).
End Appointment.

Module AppointmentRequest.
(** Optional fields are [None] when the property is absent; a stored
    [null] is not distinguished from an absent property. *)
Record t := mk {
  id : option DocId;
  patientId : jsstring;
  patientUsername : jsstring;
  symptoms : jsstring;
  diagnosis : jsstring;
  medication : option jsstring;
  status : Status;
  createdAt : Instant;
  scheduledDate : option Instant;
  scheduledTime : option jsstring;
  flaggedForReview : option bool;
  resubmissionComment : option jsstring
}.

Definition with_id (i : DocId) (r : t) : t :=
  mk (Some i) (patientId r) (patientUsername r) (symptoms r) (diagnosis r)
     (medication r) (status r) (createdAt r) (scheduledDate r)
     (scheduledTime r) (flaggedForReview r) (resubmissionComment r).

(** The field sets written by the three [updateDoc] calls. *)

(** [{ status: 'scheduled', scheduledDate, scheduledTime, medication }] *)
Definition schedule_patch (d : Instant) (slot med : jsstring) (r : t) : t :=
  mk (id r) (patientId r) (patientUsername r) (symptoms r) (diagnosis r)
     (Some med) scheduled (createdAt r) (Some d) (Some slot)
     (flaggedForReview r) (resubmissionComment r).

(** [{ flaggedForReview: true }] *)
Definition flag_patch (r : t) : t :=
  mk (id r) (patientId r) (patientUsername r) (symptoms r) (diagnosis r)
     (medication r) (status r) (createdAt r) (scheduledDate r)
     (scheduledTime r) (Some true) (resubmissionComment r).

(** [{ symptoms, flaggedForReview: false, resubmissionComment: comment }] *)
Definition resubmit_patch (sym comment : jsstring) (r : t) : t :=
  mk (id r) (patientId r) (patientUsername r) sym (diagnosis r)
     (medication r) (status r) (createdAt r) (scheduledDate r)
     (scheduledTime r) (Some false) (Some comment).

(** [!request.flaggedForReview] *)
Definition notFlagged (r : t) : bool :=
  match flaggedForReview r with Some true => false | _ => true end.
End AppointmentRequest.

Inductive UserType := patient | doctor.

Module UserProfile.
Record t := mk {
  username : option jsstring;
  email : jsstring;
  userType : UserType
}.
End UserProfile.

(** [auth.currentUser] *)
Record User := mkUser {
  uid : jsstring;
  displayName : option jsstring
}.

(** ** Firestore *)

Module Firestore.
(** A collection lists its documents in the order a query returns them. *)
Record t := mk {
  appointmentRequests : list (DocId * AppointmentRequest.t);
  appointments : list (DocId * Appointment.t);
  users : list (DocId * UserProfile.t)
}.

Definition empty : t := mk [] [] [].
End Firestore.

(** A collection reference: how to read and replace one collection. *)
Record Collection (T : Type) := mkCollection {
  col_name : jsstring;
  col_read : Firestore.t -> list (DocId * T);
  col_write : list (DocId * T) -> Firestore.t -> Firestore.t
}.

Definition col_appointmentRequests : Collection AppointmentRequest.t :=
  mkCollection (js "appointmentRequests") Firestore.appointmentRequests
    (fun l fs => Firestore.mk l (Firestore.appointments fs) (Firestore.users fs)).

Definition col_appointments : Collection Appointment.t :=
  mkCollection (js "appointments") Firestore.appointments
    (fun l fs => Firestore.mk (Firestore.appointmentRequests fs) l (Firestore.users fs)).

Definition col_users : Collection UserProfile.t :=
  mkCollection (js "users") Firestore.users
    (fun l fs => Firestore.mk (Firestore.appointmentRequests fs) (Firestore.appointments fs) l).

Definition has_doc {T} (i : DocId) (l : list (DocId * T)) : bool :=
  existsb (fun p => jsstring_eqb (fst p) i) l.

(** The documents after [updateDoc] on document [i]. *)
Definition update_docs {T} (i : DocId) (f : T -> T) (l : list (DocId * T))
  : list (DocId * T) :=
  map (fun p => if jsstring_eqb (fst p) i then (fst p, f (snd p)) else p) l.

(** The documents after [setDoc] on document [i]: replaced, or created. *)
Definition set_doc {T} (i : DocId) (d : T) (l : list (DocId * T))
  : list (DocId * T) :=
  if has_doc i l then update_docs i (fun _ => d) l else l ++ [(i, d)].

(** ** Toasts, errors, the network *)

Record Toast := mkToast {
  title : jsstring;
  description : jsstring;
  destructive : bool          (* variant: "destructive" *)
}.

Definition toast_of (t d : string) : Toast := mkToast (js t) (js d) false.

Definition isErrorToast (t : Toast) : bool := jsstring_eqb (title t) (js "Error").

Inductive Error :=
| NetworkError            (* a request was rejected *)
| NotFound                (* updateDoc on a missing document *)
| InvalidReference        (* doc() with an undefined id *)
| TranscriptionFailed     (* `Transcription failed: ...` *)
| DiagnosisFailed         (* `Diagnosis failed: ...` *)
| ConfigurationMissing.   (* the Firebase environment variables are not set *)

Definition Blob := list N.

(** The requests a handler sends, in order. *)
Inductive Request :=
| UpdateDoc (collection : jsstring) (i : DocId)
| AddDoc (collection : jsstring)
| SetDoc (collection : jsstring) (i : DocId)
| GetDocs (collection : jsstring)
| PostTranscription (audio : Blob)
| PostChatCompletion (transcript : jsstring)
| SignIn (email : jsstring)
| CreateUser (email : jsstring)
| UpdateProfile (name : jsstring).

Definition isWrite (r : Request) : bool :=
  match r with
  | UpdateDoc _ _ | AddDoc _ | SetDoc _ _ => true
  | _ => false
  end.

Record Env := mkEnv {
  db : Firestore.t;
  currentUser : option User;
  toasts : list Toast;                    (* oldest first *)
  console : list Error;                   (* console.error *)
  sent : list Request;                    (* oldest first *)
  (** Whether each of the next Firestore and Auth requests is rejected;
      past the end of the script requests are served. *)
  faults : list bool;
  (** The id Firestore generates for a document added by the n-th request. *)
  autoId : nat -> DocId;
  (** The transcription endpoint: the text, or [None] when the call fails. *)
  whisper : Blob -> option jsstring;
  (** The chat-completion endpoint: the message content, or [None]. *)
  chat : jsstring -> option jsstring;
  (** [new Date()] *)
  now : Instant
}.

Definition with_db (f : Firestore.t -> Firestore.t) (e : Env) : Env :=
  mkEnv (f (db e)) (currentUser e) (toasts e) (console e) (sent e) (faults e)
        (autoId e) (whisper e) (chat e) (now e).

Definition with_user (u : option User) (e : Env) : Env :=
  mkEnv (db e) u (toasts e) (console e) (sent e) (faults e)
        (autoId e) (whisper e) (chat e) (now e).

Definition add_toast (t : Toast) (e : Env) : Env :=
  mkEnv (db e) (currentUser e) (toasts e ++ [t]) (console e) (sent e) (faults e)
        (autoId e) (whisper e) (chat e) (now e).

Definition add_console (x : Error) (e : Env) : Env :=
  mkEnv (db e) (currentUser e) (toasts e) (console e ++ [x]) (sent e) (faults e)
        (autoId e) (whisper e) (chat e) (now e).

Definition add_sent (r : Request) (e : Env) : Env :=
  mkEnv (db e) (currentUser e) (toasts e) (console e) (sent e ++ [r]) (faults e)
        (autoId e) (whisper e) (chat e) (now e).

Definition with_faults (l : list bool) (e : Env) : Env :=
  mkEnv (db e) (currentUser e) (toasts e) (console e) (sent e) l
        (autoId e) (whisper e) (chat e) (now e).

(** ** The handler monad *)

Inductive Result (A : Type) :=
| Ok (a : A)
| Throw (e : Error).
Arguments Throw {A} e.

(** A handler of a component with state [U]. *)
Definition M (U A : Type) : Type := U * Env -> Result A * (U * Env).

Definition ret {U A} (a : A) : M U A := fun s => (Ok a, s).

Definition bind {U A B} (m : M U A) (k : A -> M U B) : M U B :=
  fun s =>
    match m s with
    | (Ok a, s') => k a s'
    | (Throw e, s') => (Throw e, s')
    end.

Definition throw {U A} (e : Error) : M U A := fun s => (Throw e, s).

(** [try { body } catch (error) { handler }] *)
Definition try_catch {U A} (body : M U A) (handler : Error -> M U A) : M U A :=
  fun s =>
    match body s with
    | (Ok a, s') => (Ok a, s')
    | (Throw e, s') => handler e s'
    end.

(** [try { body } finally { fin }] *)
Definition try_finally {U A} (body : M U A) (fin : M U unit) : M U A :=
  fun s =>
    match body s with
    | (r, s') =>
        match fin s' with
        | (Ok _, s'') => (r, s'')
        | (Throw e, s'') => (Throw e, s'')
        end
    end.

(** A call whose promise is not awaited: a rejection is not seen by the caller. *)
Definition detached {U A} (m : M U A) : M U unit :=
  fun s => (Ok tt, snd (m s)).

Declare Scope handler_scope.
Delimit Scope handler_scope with handler.
Notation "x <- c ;; k" := (bind c (fun x => k))
  (at level 61, c at next level, right associativity) : handler_scope.
Notation "c ;; k" := (bind c (fun _ => k))
  (at level 61, right associativity) : handler_scope.
Open Scope handler_scope.

Definition getState {U} : M U U := fun s => (Ok (fst s), s).
Definition getEnv {U} : M U Env := fun s => (Ok (snd s), s).
Definition modifyState {U} (f : U -> U) : M U unit :=
  fun s => (Ok tt, (f (fst s), snd s)).
Definition modifyEnv {U} (f : Env -> Env) : M U unit :=
  fun s => (Ok tt, (fst s, f (snd s))).

Definition toast {U} (t : Toast) : M U unit := modifyEnv (add_toast t).
Definition console_error {U} (e : Error) : M U unit := modifyEnv (add_console e).

(** Send a request to Firebase: it is logged, and rejected when the script
    says so. *)
Definition send {U} (r : Request) : M U unit :=
  fun s =>
    let e := snd s in
    match faults e with
    | true :: rest => (Throw NetworkError, (fst s, with_faults rest (add_sent r e)))
    | false :: rest => (Ok tt, (fst s, with_faults rest (add_sent r e)))
    | [] => (Ok tt, (fst s, add_sent r e))
    end.

(** [doc(db, name, id!)]: the id of a request object may be undefined. *)
Definition docRef {U} (i : option DocId) : M U DocId :=
  match i with
  | Some x => ret x
  | None => throw InvalidReference
  end.

(** [await updateDoc(doc(db, c, i), fields)] *)
Definition updateDoc {U T} (c : Collection T) (i : DocId) (f : T -> T) : M U unit :=
  send (UpdateDoc (col_name c) i) ;;
  e <- getEnv ;;
  if has_doc i (col_read c (db e))
  then modifyEnv (with_db (fun fs => col_write c (update_docs i f (col_read c fs)) fs))
  else throw NotFound.

(** [await addDoc(collection(db, c), d)] *)
Definition addDoc {U T} (c : Collection T) (d : T) : M U DocId :=
  e0 <- getEnv ;;
  let i := autoId e0 (List.length (sent e0)) in
  send (AddDoc (col_name c)) ;;
  modifyEnv (with_db (fun fs => col_write c (col_read c fs ++ [(i, d)]) fs)) ;;
  ret i.

(** [await setDoc(doc(collection(db, c), i), d)] *)
Definition setDoc {U T} (c : Collection T) (i : DocId) (d : T) : M U unit :=
  send (SetDoc (col_name c) i) ;;
  modifyEnv (with_db (fun fs => col_write c (set_doc i d (col_read c fs)) fs)).

(** [await getDocs(query(collection(db, c), where(...)))]: the matching
    documents, [querySnapshot.docs]. *)
Definition getDocs {U T} (c : Collection T) (where_ : T -> bool)
  : M U (list (DocId * T)) :=
  send (GetDocs (col_name c)) ;;
  e <- getEnv ;;
  ret (filter (fun p => where_ (snd p)) (col_read c (db e))).

(** An [axios.post] to an OpenAI endpoint: logged, and rejected when the
    endpoint gives no reply. *)
Definition post {U} (r : Request) (reply : option jsstring) : M U jsstring :=
  modifyEnv (add_sent r) ;;
  match reply with
  | Some body => ret body
  | None => throw NetworkError
  end.

(** ** The patient page (PatientWelcomePage) *)

Module MedicalReport.
Record t := mk {
  transcript : option jsstring;
  diagnosis : option jsstring
}.

Definition null : t := mk None None.
End MedicalReport.

(** A value of type [string | null] after a truthiness guard. *)
Definition narrowed (o : option jsstring) : jsstring :=
  match o with Some s => s | None => [] end.

Module Patient.
Record State := mkState {
  isRecording : bool;
  audioData : option Blob;
  isDialogOpen : bool;
  isProcessing : bool;
  reportReady : bool;
  medicalReport : MedicalReport.t;
  appointmentRequests : list AppointmentRequest.t
}.

(** The state a freshly mounted page starts from. *)
Definition initial : State :=
  mkState false None false false false MedicalReport.null [].

Definition setAudioData (x : option Blob) : M State unit :=
  modifyState (fun s => mkState (isRecording s) x (isDialogOpen s)
    (isProcessing s) (reportReady s) (medicalReport s) (appointmentRequests s)).

Definition setIsDialogOpen (x : bool) : M State unit :=
  modifyState (fun s => mkState (isRecording s) (audioData s) x
    (isProcessing s) (reportReady s) (medicalReport s) (appointmentRequests s)).

Definition setIsProcessing (x : bool) : M State unit :=
  modifyState (fun s => mkState (isRecording s) (audioData s) (isDialogOpen s)
    x (reportReady s) (medicalReport s) (appointmentRequests s)).

Definition setReportReady (x : bool) : M State unit :=
  modifyState (fun s => mkState (isRecording s) (audioData s) (isDialogOpen s)
    (isProcessing s) x (medicalReport s) (appointmentRequests s)).

Definition setMedicalReport (x : MedicalReport.t) : M State unit :=
  modifyState (fun s => mkState (isRecording s) (audioData s) (isDialogOpen s)
    (isProcessing s) (reportReady s) x (appointmentRequests s)).

Definition setAppointmentRequests (x : list AppointmentRequest.t) : M State unit :=
  modifyState (fun s => mkState (isRecording s) (audioData s) (isDialogOpen s)
    (isProcessing s) (reportReady s) (medicalReport s) x).

(** page.tsx 209-227 *)
Definition transcribeAudio {U} (audioBlob : Blob) : M U jsstring :=
  try_catch
    (e <- getEnv ;;
     post (PostTranscription audioBlob) (whisper e audioBlob))
    (fun error =>
       console_error error ;;
       throw TranscriptionFailed).

(** page.tsx 228-256; the reply's message content is trimmed. *)
Definition getDiagnosisFromTranscript {U} (transcript : jsstring) : M U jsstring :=
  try_catch
    (e <- getEnv ;;
     content <- post (PostChatCompletion transcript) (chat e transcript) ;;
     ret (trim content))
    (fun error =>
       console_error error ;;
       throw DiagnosisFailed).

(** page.tsx 259-308 *)
Definition handleContinue : M State unit :=
  st <- getState ;;
  let report := medicalReport st in
  if negb (truthy_opt (MedicalReport.transcript report))
     || negb (truthy_opt (MedicalReport.diagnosis report))
  then
    toast (toast_of "Error" "Please complete the voice recording and processing first.")
  else
    try_catch
      (e <- getEnv ;;
       match currentUser e with
       | None =>
           toast (toast_of "Error" "Please sign in to submit your request.")
       | Some user =>
           let appointmentRequest :=
             AppointmentRequest.mk None
               (uid user)
               (or_default (displayName user) (js "Anonymous"))
               (narrowed (MedicalReport.transcript report))
               (narrowed (MedicalReport.diagnosis report))
               None pending (now e) None None None None in
           addDoc col_appointmentRequests appointmentRequest ;;
           toast (toast_of "Success" "Your symptoms and diagnosis have been recorded. A doctor will review and schedule an appointment.") ;;
           setMedicalReport MedicalReport.null ;;
           setIsDialogOpen false ;;
           setReportReady false
       end)
      (fun error =>
         console_error error ;;
         toast (toast_of "Error" "Failed to submit request. Please try again.")).

(** page.tsx 310-353: the effect that runs whenever [audioData] changes. *)
Definition processAudio : M State unit :=
  st <- getState ;;
  match audioData st with
  | None => ret tt
  | Some audio =>
      setIsProcessing true ;;
      try_finally
        (try_catch
           (toast (toast_of "Processing" "Transcribing your recording...") ;;
            transcript <- transcribeAudio audio ;;
            toast (toast_of "Processing" "Generating diagnosis...") ;;
            diagnosis <- getDiagnosisFromTranscript transcript ;;
            setMedicalReport (MedicalReport.mk (Some transcript) (Some diagnosis)) ;;
            setReportReady true ;;
            toast (toast_of "Complete" "Your recording has been processed successfully."))
           (fun error =>
              console_error error ;;
              toast (mkToast (js "Error")
                       (js "Failed to process your recording. Please try again.")
                       true)))
        (setIsProcessing false)
  end.

(** The recorder's [onstop] stores the recording, which triggers the
    effect above. *)
Definition recorded (audio : Blob) : M State unit :=
  setAudioData (Some audio) ;;
  processAudio.

(** page.tsx 356-379 *)
Definition fetchAppointmentRequests : M State unit :=
  e <- getEnv ;;
  match currentUser e with
  | None => ret tt
  | Some user =>
      try_catch
        (docs <- getDocs col_appointmentRequests
                   (fun d => jsstring_eqb (AppointmentRequest.patientId d) (uid user)) ;;
         let requests := map (fun p => AppointmentRequest.with_id (fst p) (snd p)) docs in
         setAppointmentRequests requests)
        (fun error => console_error error)
  end.
End Patient.

(** ** The resubmission widget (FlaggedReviewResubmission) *)

Module Resubmission.
(** The widget's props and state; [onResubmitted] acts on the state of
    the page that renders the widget. *)
Record State := mkState {
  request : AppointmentRequest.t;
  symptoms : jsstring;
  comment : jsstring;
  loading : bool
}.

(** [useState(request.symptoms || '')], [useState('')], [useState(false)] *)
Definition mount (r : AppointmentRequest.t) : State :=
  mkState r (AppointmentRequest.symptoms r) [] false.

(** The patient page shows the widget for these requests (page.tsx 475). *)
Definition rendered (r : AppointmentRequest.t) : bool :=
  match AppointmentRequest.flaggedForReview r with
  | Some true => Status_eqb (AppointmentRequest.status r) pending
  | _ => false
  end.

Definition setLoading {P} (x : bool) : M (P * State) unit :=
  modifyState (fun s => (fst s, mkState (request (snd s)) (symptoms (snd s))
                                        (comment (snd s)) x)).

(** Run a handler of the parent page from inside the widget. *)
Definition inParent {P A} (m : M P A) : M (P * State) A :=
  fun s =>
    match m (fst (fst s), snd s) with
    | (r, (p', e')) => (r, ((p', snd (fst s)), e'))
    end.

(** page.tsx 866-888 *)
Definition handleResubmit {P} (onResubmitted : M P unit) : M (P * State) unit :=
  st <- getState ;;
  let w := snd st in
  setLoading true ;;
  try_finally
    (try_catch
       (requestRef <- docRef (AppointmentRequest.id (request w)) ;;
        updateDoc col_appointmentRequests requestRef
          (AppointmentRequest.resubmit_patch (symptoms w) (comment w)) ;;
        toast (toast_of "Resubmitted" "Your symptoms have been resubmitted for review.") ;;
        detached (inParent onResubmitted))
       (fun _ =>
          toast (toast_of "Error" "Failed to resubmit symptoms.")))
    (setLoading false).
End Resubmission.

(** ** Array.prototype.sort with a numeric comparator *)

(** What the comparator of the source returns: the difference of two
    [getTime()] values, an integer number of milliseconds, or NaN ([None])
    when one of the dates is invalid.  Time values stay below 8.64e15 in
    magnitude, so the floating-point difference has the sign of the exact
    one. *)
Definition number := option Z.

Definition minus (a b : number) : number :=
  match a, b with
  | Some x, Some y => Some (x - y)%Z
  | _, _ => None
  end.

(** [v > 0] on the comparator's result; ECMAScript's SortCompare reads a
    NaN result as +0, so the two elements count as equal. *)
Definition positive (v : number) : bool :=
  match v with
  | Some z => (0 <? z)%Z
  | None => false
  end.

(** The sort is stable (ECMAScript 2019): an element moves behind exactly
    the later elements it compares greater than, taken in order.  It is
    embedded as the stable insertion sort. *)
Fixpoint sort_insert {A} (compareFn : A -> A -> number) (x : A) (l : list A) : list A :=
  match l with
  | [] => [x]
  | y :: l' =>
      if positive (compareFn x y) then y :: sort_insert compareFn x l' else x :: l
  end.

Definition Array_sort {A} (compareFn : A -> A -> number) (l : list A) : list A :=
  fold_right (sort_insert compareFn) [] l.

(** ** The doctor page (DoctorWelcomePage) *)

Module Doctor.
Record State := mkState {
  appointmentRequests : list AppointmentRequest.t;
  assignedAppointments : list Appointment.t;
  selectedRequest : option AppointmentRequest.t;
  showCalendar : bool;
  date : option Instant;
  selectedTimeSlot : option jsstring;
  medication : jsstring
}.

(** The state of a freshly mounted page; [date] starts at [new Date()]. *)
Definition initial (today : Instant) : State :=
  mkState [] [] None false (Some today) None [].

Definition availableTimeSlots : list jsstring :=
  map js ["9:00 AM"; "10:00 AM"; "11:00 AM"; "2:00 PM"; "3:00 PM"; "4:00 PM"]%string.

Definition setAppointmentRequests (x : list AppointmentRequest.t) : M State unit :=
  modifyState (fun s => mkState x (assignedAppointments s) (selectedRequest s)
    (showCalendar s) (date s) (selectedTimeSlot s) (medication s)).

Definition setAssignedAppointments (x : list Appointment.t) : M State unit :=
  modifyState (fun s => mkState (appointmentRequests s) x (selectedRequest s)
    (showCalendar s) (date s) (selectedTimeSlot s) (medication s)).

Definition setSelectedRequest (x : option AppointmentRequest.t) : M State unit :=
  modifyState (fun s => mkState (appointmentRequests s) (assignedAppointments s) x
    (showCalendar s) (date s) (selectedTimeSlot s) (medication s)).

Definition setShowCalendar (x : bool) : M State unit :=
  modifyState (fun s => mkState (appointmentRequests s) (assignedAppointments s)
    (selectedRequest s) x (date s) (selectedTimeSlot s) (medication s)).

Definition setDate (x : option Instant) : M State unit :=
  modifyState (fun s => mkState (appointmentRequests s) (assignedAppointments s)
    (selectedRequest s) (showCalendar s) x (selectedTimeSlot s) (medication s)).

Definition setSelectedTimeSlot (x : option jsstring) : M State unit :=
  modifyState (fun s => mkState (appointmentRequests s) (assignedAppointments s)
    (selectedRequest s) (showCalendar s) (date s) x (medication s)).

Definition setMedication (x : jsstring) : M State unit :=
  modifyState (fun s => mkState (appointmentRequests s) (assignedAppointments s)
    (selectedRequest s) (showCalendar s) (date s) (selectedTimeSlot s) x).

Definition isPending (d : AppointmentRequest.t) : bool :=
  Status_eqb (AppointmentRequest.status d) pending.

(** [querySnapshot.docs.map(doc => ({ ...doc.data(), id: doc.id }))] *)
Definition withIds (docs : list (DocId * AppointmentRequest.t)) : list AppointmentRequest.t :=
  map (fun p => AppointmentRequest.with_id (fst p) (snd p)) docs.

(** The refresh the three handlers below each spell out: query the pending
    requests, drop the flagged ones, store the rest (page.tsx 501-517,
    638-649, 669-680).  The initial fetch also turns the stored Timestamps
    into Dates, which are the same [Instant] here. *)
Definition refreshAppointmentRequests : M State unit :=
  docs <- getDocs col_appointmentRequests isPending ;;
  let requests := withIds docs in
  let nonFlaggedRequests := filter AppointmentRequest.notFlagged requests in
  setAppointmentRequests nonFlaggedRequests.

(** page.tsx 499-525 *)
Definition fetchAppointmentRequests : M State unit :=
  try_catch
    refreshAppointmentRequests
    (fun error =>
       console_error error ;;
       toast (toast_of "Error" "Failed to fetch appointment requests.")).

(** [auth.currentUser?.displayName || 'Doctor'] *)
Definition currentDoctor (e : Env) : jsstring :=
  or_default (match currentUser e with Some u => displayName u | None => None end)
             (js "Doctor").

(** page.tsx 575-582 and the inline handlers of the scheduling modal *)
Definition handleScheduleAppointment (request : AppointmentRequest.t) : M State unit :=
  setSelectedRequest (Some request) ;;
  setShowCalendar true.

Definition handleTimeSlotClick (slot : jsstring) : M State unit :=
  setSelectedTimeSlot (Some slot).

Definition cancel : M State unit :=
  setShowCalendar false ;;
  setSelectedRequest None ;;
  setSelectedTimeSlot None ;;
  setDate None ;;
  setMedication [].

(** page.tsx 660-688 *)
Definition handleFlagForReview (request : AppointmentRequest.t) : M State unit :=
  try_catch
    (requestRef <- docRef (AppointmentRequest.id request) ;;
     updateDoc col_appointmentRequests requestRef AppointmentRequest.flag_patch ;;
     toast (mkToast (js "Flagged for Review")
              (js "Patient " ++ AppointmentRequest.patientUsername request
               ++ js " has been flagged for review.") false) ;;
     refreshAppointmentRequests)
    (fun error =>
       console_error error ;;
       toast (toast_of "Error" "Failed to flag for review.")).

Section WithDates.
(** date-fns [format(d, "PPP")] *)
Variable format_PPP : Instant -> jsstring.
(** [new Date(s).getTime()]; [None] is the NaN of an invalid date.  How
    a string that is not in the ISO format parses is left to the
    JavaScript engine. *)
Variable Date_getTime : jsstring -> number.

(** [new Date(`${a.appointmentDate} ${a.appointmentTime}`).getTime()] *)
Definition instant (a : Appointment.t) : number :=
  Date_getTime (Appointment.appointmentDate a ++ js " " ++ Appointment.appointmentTime a).

(** The comparator of page.tsx 556-560. *)
Definition byDateAndTime (a b : Appointment.t) : number :=
  minus (instant a) (instant b).

(** page.tsx 532-570 *)
Definition fetchAssignedAppointments : M State unit :=
  try_catch
    (e <- getEnv ;;
     let doctorName := currentDoctor e in
     docs <- getDocs col_appointments
               (fun d => jsstring_eqb (Appointment.assignedDoctor d) doctorName) ;;
     let appointments := map (fun p => Appointment.with_id (fst p) (snd p)) docs in
     setAssignedAppointments (Array_sort byDateAndTime appointments))
    (fun error =>
       console_error error ;;
       toast (toast_of "Error" "Failed to fetch assigned appointments.")).

(** page.tsx 584-658 *)
Definition confirmScheduling : M State unit :=
  st <- getState ;;
  match selectedRequest st, date st, selectedTimeSlot st with
  | Some request, Some date, Some slot =>
      if negb (truthy slot) then
        toast (toast_of "Error" "Please select a date and time slot.")
      else if negb (truthy (trim (medication st))) then
        toast (toast_of "Error" "Please enter basic medication details.")
      else
        try_catch
          (let firestoreDate := date in
           requestRef <- docRef (AppointmentRequest.id request) ;;
           updateDoc col_appointmentRequests requestRef
             (AppointmentRequest.schedule_patch firestoreDate slot
                (trim (medication st))) ;;
           e <- getEnv ;;
           let newAppointment :=
             Appointment.mk None
               (format_PPP firestoreDate)
               slot
               (currentDoctor e)
               (AppointmentRequest.patientUsername request)
               (Some (AppointmentRequest.diagnosis request))
               (Some (trim (medication st)))
               None in
           addDoc col_appointments newAppointment ;;
           toast (mkToast (js "Success")
                    (js "Appointment scheduled for " ++ format_PPP firestoreDate
                     ++ js " at " ++ slot) false) ;;
           setShowCalendar false ;;
           setSelectedTimeSlot None ;;
           setDate None ;;
           setSelectedRequest None ;;
           setMedication [] ;;
           refreshAppointmentRequests)
          (fun error =>
             console_error error ;;
             toast (toast_of "Error" "Failed to schedule appointment."))
  | _, _, _ =>
      toast (toast_of "Error" "Please select a date and time slot.")
  end.
End WithDates.
End Doctor.

(** ** The sign-in and sign-up form (AuthForm) *)

Module AuthForm.
Record Values := mkValues {
  email : jsstring;
  password : jsstring;
  username : option jsstring;
  userType : UserType
}.

Record State := mkState {
  isLoading : bool;
  route : option jsstring         (* the last [router.push] *)
}.

Definition setIsLoading (x : bool) : M State unit :=
  modifyState (fun s => mkState x (route s)).

Definition router_push (r : string) : M State unit :=
  modifyState (fun s => mkState (isLoading s) (Some (js r))).

(** AuthForm.tsx 59-116.  [configured] says whether the Firebase
    environment variables are set; [account] is the user the identity
    provider answers with when it serves the request.  The provider's
    error text is not modelled: the toast carries the fallback text. *)
Definition onSubmit (isLogin configured : bool) (account : User) (values : Values)
  : M State unit :=
  setIsLoading true ;;
  try_finally
    (try_catch
       ((if configured then ret tt else throw ConfigurationMissing) ;;
        if isLogin then
          send (SignIn (email values)) ;;
          modifyEnv (with_user (Some account)) ;;
          toast (toast_of "Login Successful" "Welcome back!") ;;
          router_push "/welcome"
        else
          send (CreateUser (email values)) ;;
          let user := mkUser (uid account) None in
          modifyEnv (with_user (Some user)) ;;
          (if truthy_opt (username values) then
             send (UpdateProfile (narrowed (username values))) ;;
             modifyEnv (with_user (Some (mkUser (uid user) (username values))))
           else ret tt) ;;
          setDoc col_users (uid user)
            (UserProfile.mk
               (if truthy_opt (username values) then username values else None)
               (email values) (userType values)) ;;
          toast (toast_of "Signup Successful" "Please check your email for verification.") ;;
          router_push "/login")
       (fun error =>
          console_error error ;;
          toast (toast_of "Authentication Failed" "An error occurred during authentication.")))
    (setIsLoading false).
End AuthForm.

(** ** Running handlers *)

(** The component state and environment a handler leaves behind. *)
Definition after {U A} (m : M U A) (u : U) (e : Env) : U * Env := snd (m (u, e)).

Definition state_after {U A} (m : M U A) (u : U) (e : Env) : U := fst (after m u e).
Definition env_after {U A} (m : M U A) (u : U) (e : Env) : Env := snd (after m u e).
Definition result_of {U A} (m : M U A) (u : U) (e : Env) : Result A := fst (m (u, e)).

(** The patient page wires the widget's [onResubmitted] to its own fetch
    (page.tsx 476). *)
Definition resubmit : M (Patient.State * Resubmission.State) unit :=
  Resubmission.handleResubmit Patient.fetchAppointmentRequests.

(** Whether the [n]-th of the next Firebase requests is served. *)
Definition served (n : nat) (e : Env) : bool := negb (nth n (faults e) false).

(** *** Every operation of the code base that talks to Firestore

    An operation is a handler together with the state of the component it
    runs in; the state is arbitrary, so that the runs of any number of
    clients, in any order, are sequences of operations.  [Outside] is the
    world moving between two handlers: a user signs in or out, the network
    and the endpoints change their behaviour, time passes. *)

Inductive Op :=
| PatientProcessAudio (st : Patient.State)
| PatientHandleContinue (st : Patient.State)
| PatientFetchAppointmentRequests (st : Patient.State)
| PatientResubmit (st : Patient.State) (w : Resubmission.State)
| DoctorFetchAppointmentRequests (st : Doctor.State)
| DoctorFetchAssignedAppointments (st : Doctor.State)
| DoctorConfirmScheduling (st : Doctor.State)
| DoctorFlagForReview (st : Doctor.State) (request : AppointmentRequest.t)
| AuthSubmit (st : AuthForm.State) (isLogin configured : bool) (account : User)
             (values : AuthForm.Values)
| Outside (user : option User) (script : list bool) (ids : nat -> DocId)
          (transcription : Blob -> option jsstring)
          (completion : jsstring -> option jsstring) (time : Instant).

Section Operations.
Variable format_PPP : Instant -> jsstring.
Variable Date_getTime : jsstring -> number.

Definition run (o : Op) (e : Env) : Env :=
  match o with
  | PatientProcessAudio st => env_after Patient.processAudio st e
  | PatientHandleContinue st => env_after Patient.handleContinue st e
  | PatientFetchAppointmentRequests st => env_after Patient.fetchAppointmentRequests st e
  | PatientResubmit st w => env_after resubmit (st, w) e
  | DoctorFetchAppointmentRequests st => env_after Doctor.fetchAppointmentRequests st e
  | DoctorFetchAssignedAppointments st =>
      env_after (Doctor.fetchAssignedAppointments Date_getTime) st e
  | DoctorConfirmScheduling st => env_after (Doctor.confirmScheduling format_PPP) st e
  | DoctorFlagForReview st request => env_after (Doctor.handleFlagForReview request) st e
  | AuthSubmit st isLogin configured account values =>
      env_after (AuthForm.onSubmit isLogin configured account values) st e
  | Outside user script ids transcription completion time =>
      mkEnv (db e) user (toasts e) (console e) (sent e) script ids
            transcription completion time
  end.

Definition run_all (ops : list Op) (e : Env) : Env :=
  fold_left (fun e' o => run o e') ops e.

(** *** The events of one doctor page *)

Inductive DoctorEvent :=
| Mounted                                         (* both fetch effects *)
| ClickSchedule (request : AppointmentRequest.t)
| SelectDate (d : option Instant)
| ClickTimeSlot (slot : jsstring)
| TypeMedication (text : jsstring)
| ClickCancel
| ClickConfirm
| ClickFlag (request : AppointmentRequest.t).

Definition handle (ev : DoctorEvent) : M Doctor.State unit :=
  match ev with
  | Mounted =>
      Doctor.fetchAppointmentRequests ;;
      Doctor.fetchAssignedAppointments Date_getTime
  | ClickSchedule request => Doctor.handleScheduleAppointment request
  | SelectDate d => Doctor.setDate d
  | ClickTimeSlot slot => Doctor.handleTimeSlotClick slot
  | TypeMedication text => Doctor.setMedication text
  | ClickCancel => Doctor.cancel
  | ClickConfirm => Doctor.confirmScheduling format_PPP
  | ClickFlag request => Doctor.handleFlagForReview request
  end.

(** The page after a sequence of events; each event meets the
    environment of its moment, which other clients may have changed. *)
Definition doctor_session (evs : list (DoctorEvent * Env)) (st : Doctor.State)
  : Doctor.State :=
  fold_left (fun s p => state_after (handle (fst p)) s (snd p)) evs st.
End Operations.

(** A request is hidden from the queue when its flag is set. *)
Definition flagged (r : AppointmentRequest.t) : Prop :=
  AppointmentRequest.flaggedForReview r = Some true.

(** What the pending query followed by the client-side filter yields on a
    store. *)
Definition pendingQueue (fs : Firestore.t) : list AppointmentRequest.t :=
  filter AppointmentRequest.notFlagged
    (Doctor.withIds (filter (fun p => Doctor.isPending (snd p))
                            (Firestore.appointmentRequests fs))).


(** ** Reading one document *)

(** [await getDoc(doc(db, c, i))]: the snapshot's data, [None] when the
    document does not exist.  The request log records it as a read of the
    collection. *)
Definition getDoc {U T} (c : Collection T) (i : DocId) : M U (option T) :=
  send (GetDocs (col_name c)) ;;
  e <- getEnv ;;
  ret (option_map snd (find (fun p => jsstring_eqb (fst p) i) (col_read c (db e)))).

(** ** What the pages render *)


(** The scheduling modal is rendered (page.tsx 786). *)
Definition modalShown (st : Doctor.State) : bool :=
  Doctor.showCalendar st
  && match Doctor.selectedRequest st with Some _ => true | None => false end.

(** The Resubmit Symptoms button is disabled (page.tsx 911). *)
Definition resubmitDisabled (w : Resubmission.State) : bool :=
  Resubmission.loading w || negb (truthy (trim (Resubmission.symptoms w))).

(** ** The welcome page (WelcomePage, page.tsx 918-945) *)

Module Welcome.
(** [userType], [null] until the profile is read. *)
Definition State := option UserType.

Inductive View := PatientPage | DoctorPage | Loading.

Definition setUserType (x : option UserType) : M State unit :=
  modifyState (fun _ => x).

(** page.tsx 922-934; the effect has no [try], a rejected read leaves the
    promise rejected. *)
Definition fetchUserType : M State unit :=
  e <- getEnv ;;
  match currentUser e with
  | Some user =>
      docSnap <- getDoc col_users (uid user) ;;
      match docSnap with
      | Some data => setUserType (Some (UserProfile.userType data))
      | None => setUserType None
      end
  | None => ret tt
  end.

(** page.tsx 941 *)
Definition render (userType : State) : View :=
  match userType with
  | Some patient => PatientPage
  | Some doctor => DoctorPage
  | None => Loading
  end.
End Welcome.

(** ** The landing page (Home) *)

Module Home.
Record State := mkState {
  userType : option UserType;
  route : option jsstring         (* the last [router.push] *)
}.

Definition initial : State := mkState None None.

Definition setUserType (x : option UserType) : M State unit :=
  modifyState (fun s => mkState x (route s)).

Definition router_push (r : string) : M State unit :=
  modifyState (fun s => mkState (userType s) (Some (js r))).

(** The callback given to [auth.onAuthStateChanged]; [user] is the new
    authentication state. *)
Definition onAuthStateChanged (user : option User) : M State unit :=
  match user with
  | Some u =>
      docSnap <- getDoc col_users (uid u) ;;
      match docSnap with
      | Some data =>
          let fetchedUserType := UserProfile.userType data in
          setUserType (Some fetchedUserType) ;;
          match fetchedUserType with
          | patient => router_push "/welcome"
          | doctor => router_push "/welcome"
          end
      | None => router_push "/login"
      end
  | None => router_push "/login"
  end.
End Home.

(** ** The navigation bar (Navbar.tsx) *)

Module Navbar.
Record State := mkState {
  loggedIn : bool;
  username : option jsstring;
  userType : option UserType
}.

Definition initial : State := mkState false None None.

Definition setLoggedIn (x : bool) : M State unit :=
  modifyState (fun s => mkState x (username s) (userType s)).

Definition setUsername (x : option jsstring) : M State unit :=
  modifyState (fun s => mkState (loggedIn s) x (userType s)).

Definition setUserType (x : option UserType) : M State unit :=
  modifyState (fun s => mkState (loggedIn s) (username s) x).

(** [email.split('@')[0]]: the text before the first '@'. *)
Fixpoint beforeAt (email : jsstring) : jsstring :=
  match email with
  | [] => []
  | c :: rest => if N.eqb c 64 then [] else c :: beforeAt rest
  end.

(** [user.displayName || user.email?.split('@')[0] || 'User'] *)
Definition shownName (user : User) (email : option jsstring) : jsstring :=
  or_default (Some (or_default (displayName user)
                               (narrowed (option_map beforeAt email))))
             (js "User").

(** Navbar.tsx 17-35, the callback given to [auth.onAuthStateChanged];
    [email] is [user.email]. *)
Definition onAuthStateChanged (user : option User) (email : option jsstring)
  : M State unit :=
  setLoggedIn (match user with Some _ => true | None => false end) ;;
  match user with
  | Some u =>
      setUsername (Some (shownName u email)) ;;
      docSnap <- getDoc col_users (uid u) ;;
      match docSnap with
      | Some data => setUserType (Some (UserProfile.userType data))
      | None => setUserType None
      end
  | None =>
      setUsername None ;;
      setUserType None
  end.
End Navbar.

(** ** Sample inputs *)

Module Sample.
(** An environment with nobody signed in, a working network and
    endpoints that do not answer. *)
Definition env (fs : Firestore.t) : Env :=
  mkEnv fs None [] [] [] []
    (fun n => js "auto" ++ [N.of_nat n])
    (fun _ => None) (fun _ => None) 1750000000000%Z.

Definition drSmith : User := mkUser (js "uid-d1") (Some (js "Dr Smith")).
Definition alice : User := mkUser (js "uid-p1") (Some (js "alice")).

(** A stored request as [handleContinue] writes it. *)
Definition stored (s : Status) (flag : option bool) : AppointmentRequest.t :=
  AppointmentRequest.mk None (js "uid-p1") (js "alice") (js "cough and fever")
    (js "Likely viral infection") None s 1740000000000%Z None None flag None.

Definition store (s : Status) (flag : option bool) : Firestore.t :=
  Firestore.mk [(js "req1", stored s flag)] [] [].

(** The same request as a page holds it after a fetch. *)
Definition fetched (s : Status) (flag : option bool) : AppointmentRequest.t :=
  AppointmentRequest.with_id (js "req1") (stored s flag).

(** A doctor page with the scheduling modal filled in. *)
Definition modalOn (d : Instant) (med : string) : Doctor.State :=
  Doctor.mkState [fetched pending None] [] (Some (fetched pending None)) true
    (Some d) (Some (js "9:00 AM")) (js med).

Definition modal (med : string) : Doctor.State := modalOn 1760000000000%Z med.

(** A rendering of [format(d, "PPP")] on three days of 2025. *)
Definition format_PPP (d : Instant) : jsstring :=
  if (d <? 1746000000000)%Z then js "April 29th, 2025"
  else if (d <? 1750000000000)%Z then js "April 30th, 2025"
  else js "October 9th, 2025".

(** Two appointments as [confirmScheduling] writes them, the later day
    stored first. *)
Definition april30 : Appointment.t :=
  Appointment.mk None (js "April 30th, 2025") (js "9:00 AM") (js "Dr Smith")
    (js "alice") (Some (js "Likely viral infection")) (Some (js "aspirin")) None.

Definition april29 : Appointment.t :=
  Appointment.mk None (js "April 29th, 2025") (js "9:00 AM") (js "Dr Smith")
    (js "bob") (Some (js "Sprained ankle")) (Some (js "ibuprofen")) None.

Definition on (day : string) : Appointment.t :=
  Appointment.mk None (js day) (js "9:00 AM") (js "Dr Smith") (js "alice")
    None None None.

Definition agenda : Firestore.t :=
  Firestore.mk [] [(js "apt1", april30); (js "apt2", april29)] [].

(** An engine that cannot read any of the stored dates. *)
Definition unreadable (s : jsstring) : number := None.

(** An engine that reads the texts of a table and nothing else. *)
Definition reads (table : list (jsstring * Z)) (s : jsstring) : number :=
  match find (fun p => jsstring_eqb (fst p) s) table with
  | Some p => Some (snd p)
  | None => None
  end.
End Sample.

(** ** Vocabulary of the properties *)

Definition unflagged (l : list AppointmentRequest.t) : Prop :=
  Forall (fun r => ~ flagged r) l.

(** The one toast [processAudio] shows for any failure. *)
Definition processingFailed : Toast :=
  mkToast (js "Error") (js "Failed to process your recording. Please try again.") true.

(** The two guards of [handleContinue]: a transcript and a diagnosis are
    there, and somebody is signed in. *)
Definition canSubmit (st : Patient.State) (e : Env) : bool :=
  truthy_opt (MedicalReport.transcript (Patient.medicalReport st))
  && truthy_opt (MedicalReport.diagnosis (Patient.medicalReport st))
  && match currentUser e with Some _ => true | None => false end.

Definition notCompleted (p : DocId * AppointmentRequest.t) : Prop :=
  AppointmentRequest.status (snd p) <> completed.

(** How the requests collection may differ after an operation: documents
    keep their place and id, none turns completed, and the documents added
    at the end are not completed. *)
Definition evolves (l l' : list (DocId * AppointmentRequest.t)) : Prop :=
  exists kept added,
    l' = kept ++ added
    /\ Forall2 (fun p p' => fst p' = fst p /\ (notCompleted p -> notCompleted p')) l kept
    /\ Forall notCompleted added.

(** How the appointments collection may differ after operation [o]: at most
    one document more, at the end, and only after a scheduling
    confirmation. *)
Definition grows_by (o : Op) (l l' : list (DocId * Appointment.t)) : Prop :=
  exists added,
    l' = l ++ added
    /\ List.length added <= 1
    /\ (added <> [] -> exists st, o = DoctorConfirmScheduling st).

(** [a] is not later than [b]; false when either date is invalid, as [<=]
    is on NaN. *)
Definition notLater (Date_getTime : jsstring -> number) (a b : Appointment.t) : Prop :=
  match Doctor.instant Date_getTime a, Doctor.instant Date_getTime b with
  | Some x, Some y => (x <= y)%Z
  | _, _ => False
  end.

(** Every pair of adjacent appointments is in chronological order. *)
Fixpoint chronological (Date_getTime : jsstring -> number) (l : list Appointment.t) : Prop :=
  match l with
  | a :: ((b :: _) as rest) =>
      notLater Date_getTime a b /\ chronological Date_getTime rest
  | _ => True
  end.

(** [querySnapshot.docs] of the assigned-appointments query, with ids. *)
Definition assignedDocs (e : Env) : list Appointment.t :=
  map (fun p => Appointment.with_id (fst p) (snd p))
    (filter (fun p => jsstring_eqb (Appointment.assignedDoctor (snd p))
                                   (Doctor.currentDoctor e))
            (Firestore.appointments (db e))).

(** ** Vocabulary of the further properties *)

(** The toast of [handleContinue]'s first guard. *)
Definition pleaseComplete : Toast :=
  toast_of "Error" "Please complete the voice recording and processing first.".

(** The Appointment [confirmScheduling] builds (page.tsx 614-621). *)
Definition newAppointment (format_PPP : Instant -> jsstring) (st : Doctor.State)
    (e : Env) (request : AppointmentRequest.t) (d : Instant) (slot : jsstring)
  : Appointment.t :=
  Appointment.mk None (format_PPP d) slot (Doctor.currentDoctor e)
    (AppointmentRequest.patientUsername request)
    (Some (AppointmentRequest.diagnosis request))
    (Some (trim (Doctor.medication st))) None.

(** The doctor page after the resets of page.tsx 631-635, with queue [q]. *)
Definition modalClosed (st : Doctor.State) (q : list AppointmentRequest.t)
  : Doctor.State :=
  Doctor.mkState q (Doctor.assignedAppointments st) None false None None [].

Definition scheduledToast (format_PPP : Instant -> jsstring) (d : Instant)
    (slot : jsstring) : Toast :=
  mkToast (js "Success")
    (js "Appointment scheduled for " ++ format_PPP d ++ js " at " ++ slot) false.

Definition schedulingFailed : Toast :=
  toast_of "Error" "Failed to schedule appointment.".

Definition selectDateAndSlot : Toast :=
  toast_of "Error" "Please select a date and time slot.".

(** The guard of [confirmScheduling] is passed with request [request], whose
    document id is [i], date [d] and slot [slot]. *)
Definition readyToSchedule (st : Doctor.State) (request : AppointmentRequest.t)
    (i : DocId) (d : Instant) (slot : jsstring) : Prop :=
  Doctor.selectedRequest st = Some request
  /\ AppointmentRequest.id request = Some i
  /\ Doctor.date st = Some d
  /\ Doctor.selectedTimeSlot st = Some slot
  /\ slot <> []
  /\ trim (Doctor.medication st) <> [].



Definition flaggingFailed : Toast := toast_of "Error" "Failed to flag for review.".

Definition resubmitFailed : Toast := toast_of "Error" "Failed to resubmit symptoms.".

(** The requests of the user with uid [u], as the patient page lists them. *)
Definition ownRequests (u : jsstring) (fs : Firestore.t) : list AppointmentRequest.t :=
  map (fun p => AppointmentRequest.with_id (fst p) (snd p))
    (filter (fun p => jsstring_eqb (AppointmentRequest.patientId (snd p)) u)
            (Firestore.appointmentRequests fs)).

Definition fetchAssignedFailed : Toast :=
  toast_of "Error" "Failed to fetch assigned appointments.".

(** What sign-up stores for [values] (AuthForm.tsx 92-96). *)
Definition profileOf (values : AuthForm.Values) : UserProfile.t :=
  UserProfile.mk
    (if truthy_opt (AuthForm.username values) then AuthForm.username values else None)
    (AuthForm.email values) (AuthForm.userType values).

(** The position of sign-up's [setDoc] among the requests it sends: after
    the account creation and, when a username was given, the profile
    update. *)
Definition profileWrite (values : AuthForm.Values) : nat :=
  if truthy_opt (AuthForm.username values) then 2 else 1.

Definition pageOf (t : UserType) : Welcome.View :=
  match t with
  | patient => Welcome.PatientPage
  | doctor => Welcome.DoctorPage
  end.
(** * Properties *)

(** ** Strings *)

Lemma jsstring_eqb_eq (a b : jsstring) : jsstring_eqb a b = true <-> a = b.
Proof.
  revert b; induction a as [|x a IH]; intros [|y b]; simpl; split;
    try congruence; try reflexivity.
  - intros H. apply andb_true_iff in H as [Hx Hab].
    apply N.eqb_eq in Hx. apply IH in Hab. congruence.
  - intros H. injection H as -> ->. rewrite N.eqb_refl. simpl. now apply IH.
Qed.

Lemma jsstring_eqb_refl (a : jsstring) : jsstring_eqb a a = true.
Proof. now apply jsstring_eqb_eq. Qed.

Lemma trimStart_empty (s : jsstring) :
  trimStart s = [] <-> forallb isWhiteSpace s = true.
Proof.
  induction s as [|c s IH]; simpl.
  - tauto.
  - destruct (isWhiteSpace c); simpl; [exact IH | split; discriminate].
Qed.

Lemma trimStart_all_white (s : jsstring) :
  forallb isWhiteSpace s = true -> trimStart s = [].
Proof. apply trimStart_empty. Qed.

(** [trim] returns the empty string exactly on the strings made of white
    space only (the empty one among them). *)
Lemma trim_empty (s : jsstring) :
  trim s = [] <-> forallb isWhiteSpace s = true.
Proof.
  unfold trim, trimEnd. split.
  - intros H. apply trimStart_empty.
    destruct (trimStart s) as [|c t] eqn:E; [reflexivity|].
    exfalso.
    assert (Hr : trimStart (rev (c :: t)) = []).
    { destruct (trimStart (rev (c :: t))); [reflexivity|].
      apply (f_equal (@List.length N)) in H. rewrite length_rev in H. discriminate. }
    apply trimStart_empty in Hr.
    rewrite forallb_forall in Hr.
    assert (Hc : isWhiteSpace c = true) by (apply Hr, in_rev; rewrite rev_involutive; now left).
    destruct s as [|x s']; [discriminate|]. simpl in E.
    destruct (isWhiteSpace x) eqn:Hx.
    + clear - E Hc. induction s' as [|y s' IH]; simpl in E; [discriminate|].
      destruct (isWhiteSpace y) eqn:Hy; [auto|]. congruence.
    + congruence.
  - intros H. rewrite (trimStart_all_white _ H). reflexivity.
Qed.

Lemma truthy_false (s : jsstring) : truthy s = false <-> s = [].
Proof. destruct s; simpl; split; congruence. Qed.

Lemma notFlagged_true (r : AppointmentRequest.t) :
  AppointmentRequest.notFlagged r = true <-> ~ flagged r.
Proof.
  unfold AppointmentRequest.notFlagged, flagged.
  destruct (AppointmentRequest.flaggedForReview r) as [[|]|]; split; congruence.
Qed.

(** ** Stepping through a handler *)

#[local] Arguments js : simpl never.

Ltac unfold_monad :=
  cbv beta iota zeta delta
    [after state_after env_after result_of updateDoc addDoc setDoc getDocs
     post toast console_error docRef send bind ret throw try_catch
     try_finally detached getState getEnv modifyState modifyEnv fst snd] in *.

(** Split on the next test the handler makes. *)
Ltac next_case :=
  match goal with
  | |- context [match faults ?e with _ => _ end] =>
      let b := fresh "rejected" in
      let rest := fresh "script" in
      destruct (faults e) as [|b rest]; [|destruct b]
  | |- context [match ?l with [] => _ | _ :: _ => _ end] =>
      let b := fresh "rejected" in
      destruct l as [|b ?]; [|destruct b]
  | |- context [if ?b then _ else _] => destruct b eqn:?
  | |- context [match ?o with Some _ => _ | None => _ end] => destruct o eqn:?
  end.

Ltac run_handler := unfold_monad; repeat (simpl in *; try next_case).

(** ** The guard of [confirmScheduling] *)

(** C9. When no request is selected, or no date or no time slot is chosen,
    or the medication text is empty or made of white space only,
    [confirmScheduling] sends nothing: the page state, the store and the
    request log are as before, and exactly one toast, an error, is added. *)
Theorem confirmScheduling_guard_blocks_writes
    (format_PPP : Instant -> jsstring) (st : Doctor.State) (e : Env) :
  Doctor.selectedRequest st = None \/ Doctor.date st = None
  \/ truthy_opt (Doctor.selectedTimeSlot st) = false
  \/ forallb isWhiteSpace (Doctor.medication st) = true ->
  exists t,
    isErrorToast t = true
    /\ Doctor.confirmScheduling format_PPP (st, e) = (Ok tt, (st, add_toast t e))
    /\ db (add_toast t e) = db e
    /\ sent (add_toast t e) = sent e
    /\ toasts (add_toast t e) = toasts e ++ [t].
Proof.
  intros H.
  assert (G : exists t, isErrorToast t = true
              /\ Doctor.confirmScheduling format_PPP (st, e) = (Ok tt, (st, add_toast t e))).
  { unfold Doctor.confirmScheduling. unfold_monad. simpl.
    destruct (Doctor.selectedRequest st) as [request|];
      [|eexists; split; [|reflexivity]; reflexivity].
    destruct (Doctor.date st) as [d|];
      [|eexists; split; [|reflexivity]; reflexivity].
    destruct (Doctor.selectedTimeSlot st) as [slot|];
      [|eexists; split; [|reflexivity]; reflexivity].
    destruct (truthy slot) eqn:Hslot; simpl;
      [|eexists; split; [|reflexivity]; reflexivity].
    destruct H as [H|[H|[H|H]]]; try discriminate.
    - simpl in H. congruence.
    - apply trim_empty in H. rewrite H. simpl.
      eexists; split; [|reflexivity]; reflexivity. }
  destruct G as [t [Ht Hrun]]. exists t. repeat split; assumption || reflexivity.
Qed.

Lemma confirmScheduling_guard_blocks_writes_witness :
  let st := Sample.modal "  " in
  let e := Sample.env (Sample.store pending None) in
  forallb isWhiteSpace (Doctor.medication st) = true
  /\ exists t,
       isErrorToast t = true
       /\ Doctor.confirmScheduling Sample.format_PPP (st, e) = (Ok tt, (st, add_toast t e))
       /\ db (add_toast t e) = db e
       /\ sent (add_toast t e) = sent e
       /\ toasts (add_toast t e) = toasts e ++ [t].
Proof.
  intros st e. split; [reflexivity|].
  apply (confirmScheduling_guard_blocks_writes Sample.format_PPP st e).
  right; right; right. reflexivity.
Defined.

(** ** The doctor's pending queue *)

Lemma pendingQueue_unflagged (fs : Firestore.t) : unflagged (pendingQueue fs).
Proof.
  unfold unflagged, pendingQueue. apply Forall_forall. intros r Hr.
  apply filter_In in Hr as [_ Hr]. now apply notFlagged_true.
Qed.

(** A refresh either fails before touching the page, or replaces the queue
    by the filtered result of the pending query. *)
Lemma refresh_cases (st : Doctor.State) (e : Env) :
  let st' := state_after Doctor.refreshAppointmentRequests st e in
  let e' := env_after Doctor.refreshAppointmentRequests st e in
  db e' = db e
  /\ ((result_of Doctor.refreshAppointmentRequests st e = Throw NetworkError /\ st' = st)
      \/ (result_of Doctor.refreshAppointmentRequests st e = Ok tt
          /\ Doctor.appointmentRequests st' = pendingQueue (db e))).
Proof.
  unfold Doctor.refreshAppointmentRequests. run_handler; auto.
Qed.

Ltac queue_kept_or_refreshed :=
  run_handler; unfold pendingQueue; simpl; auto.

Lemma fetch_queue (st : Doctor.State) (e : Env) :
  let st' := state_after Doctor.fetchAppointmentRequests st e in
  let e' := env_after Doctor.fetchAppointmentRequests st e in
  Doctor.appointmentRequests st' = Doctor.appointmentRequests st
  \/ Doctor.appointmentRequests st' = pendingQueue (db e').
Proof.
  unfold Doctor.fetchAppointmentRequests, Doctor.refreshAppointmentRequests,
    Doctor.setAppointmentRequests.
  queue_kept_or_refreshed.
Qed.

Lemma confirm_queue (format_PPP : Instant -> jsstring) (st : Doctor.State) (e : Env) :
  let st' := state_after (Doctor.confirmScheduling format_PPP) st e in
  let e' := env_after (Doctor.confirmScheduling format_PPP) st e in
  Doctor.appointmentRequests st' = Doctor.appointmentRequests st
  \/ Doctor.appointmentRequests st' = pendingQueue (db e').
Proof.
  unfold Doctor.confirmScheduling, Doctor.refreshAppointmentRequests,
    Doctor.setAppointmentRequests, Doctor.setShowCalendar, Doctor.setDate,
    Doctor.setSelectedTimeSlot, Doctor.setSelectedRequest, Doctor.setMedication.
  queue_kept_or_refreshed.
Qed.

Lemma flag_queue (request : AppointmentRequest.t) (st : Doctor.State) (e : Env) :
  let st' := state_after (Doctor.handleFlagForReview request) st e in
  let e' := env_after (Doctor.handleFlagForReview request) st e in
  Doctor.appointmentRequests st' = Doctor.appointmentRequests st
  \/ Doctor.appointmentRequests st' = pendingQueue (db e').
Proof.
  unfold Doctor.handleFlagForReview, Doctor.refreshAppointmentRequests,
    Doctor.setAppointmentRequests.
  queue_kept_or_refreshed.
Qed.

Lemma fetchAssigned_queue (Date_getTime : jsstring -> number)
    (st : Doctor.State) (e : Env) :
  Doctor.appointmentRequests
    (state_after (Doctor.fetchAssignedAppointments Date_getTime) st e)
  = Doctor.appointmentRequests st.
Proof.
  unfold Doctor.fetchAssignedAppointments, Doctor.setAssignedAppointments.
  run_handler; reflexivity.
Qed.

Lemma handle_keeps_unflagged (format_PPP : Instant -> jsstring)
    (Date_getTime : jsstring -> number) (ev : DoctorEvent)
    (st : Doctor.State) (e : Env) :
  unflagged (Doctor.appointmentRequests st) ->
  unflagged (Doctor.appointmentRequests
               (state_after (handle format_PPP Date_getTime ev) st e)).
Proof.
  intros Hst. destruct ev; simpl.
  - (* Mounted *)
    assert (H1 := fetch_queue st e).
    assert (H2 := fetchAssigned_queue Date_getTime
                    (state_after Doctor.fetchAppointmentRequests st e)
                    (env_after Doctor.fetchAppointmentRequests st e)).
    assert (E : Doctor.appointmentRequests
                  (state_after (Doctor.fetchAppointmentRequests ;;
                                Doctor.fetchAssignedAppointments Date_getTime) st e)
                = Doctor.appointmentRequests st
                \/ exists fs, Doctor.appointmentRequests
                  (state_after (Doctor.fetchAppointmentRequests ;;
                                Doctor.fetchAssignedAppointments Date_getTime) st e)
                = pendingQueue fs).
    { revert H1 H2. unfold state_after, env_after, after, bind. simpl.
      destruct (Doctor.fetchAppointmentRequests (st, e)) as [[a|err] [st1 e1]]; simpl.
      - intros [H1|H1] H2; rewrite H2, H1; eauto.
      - intros [H1|H1] _; rewrite H1; eauto. }
    destruct E as [E|[fs E]]; rewrite E; auto using pendingQueue_unflagged.
  - unfold Doctor.handleScheduleAppointment, Doctor.setSelectedRequest,
      Doctor.setShowCalendar. run_handler. assumption.
  - unfold Doctor.setDate. run_handler. assumption.
  - unfold Doctor.handleTimeSlotClick, Doctor.setSelectedTimeSlot. run_handler. assumption.
  - unfold Doctor.setMedication. run_handler. assumption.
  - unfold Doctor.cancel, Doctor.setSelectedRequest, Doctor.setShowCalendar,
      Doctor.setSelectedTimeSlot, Doctor.setDate, Doctor.setMedication.
    run_handler. assumption.
  - destruct (confirm_queue format_PPP st e) as [E|E]; rewrite E;
      auto using pendingQueue_unflagged.
  - destruct (flag_queue request st e) as [E|E]; rewrite E;
      auto using pendingQueue_unflagged.
Qed.

Lemma session_keeps_unflagged (format_PPP : Instant -> jsstring)
    (Date_getTime : jsstring -> number) (evs : list (DoctorEvent * Env))
    (st : Doctor.State) :
  unflagged (Doctor.appointmentRequests st) ->
  unflagged (Doctor.appointmentRequests
               (doctor_session format_PPP Date_getTime evs st)).
Proof.
  revert st. induction evs as [|[ev e] evs IH]; intros st Hst; simpl.
  - assumption.
  - apply IH. now apply handle_keeps_unflagged.
Qed.

(** C1. Each of the three operations that refresh the doctor's queue (the
    initial fetch, the refresh after scheduling, the refresh after
    flagging) either leaves the queue as it was or replaces it by the
    pending query's result with the flagged requests filtered out; so on a
    doctor page, after any sequence of events, against any environments,
    no request in the displayed queue has flaggedForReview = true. *)
Theorem pending_queue_excludes_flagged
    (format_PPP : Instant -> jsstring) (Date_getTime : jsstring -> number) :
  (forall st e,
      let st' := state_after Doctor.fetchAppointmentRequests st e in
      Doctor.appointmentRequests st' = Doctor.appointmentRequests st
      \/ Doctor.appointmentRequests st'
         = pendingQueue (db (env_after Doctor.fetchAppointmentRequests st e)))
  /\ (forall st e,
      let st' := state_after (Doctor.confirmScheduling format_PPP) st e in
      Doctor.appointmentRequests st' = Doctor.appointmentRequests st
      \/ Doctor.appointmentRequests st'
         = pendingQueue (db (env_after (Doctor.confirmScheduling format_PPP) st e)))
  /\ (forall request st e,
      let st' := state_after (Doctor.handleFlagForReview request) st e in
      Doctor.appointmentRequests st' = Doctor.appointmentRequests st
      \/ Doctor.appointmentRequests st'
         = pendingQueue (db (env_after (Doctor.handleFlagForReview request) st e)))
  /\ (forall fs,
      Forall (fun r => AppointmentRequest.flaggedForReview r <> Some true)
             (pendingQueue fs))
  /\ (forall today evs,
      Forall (fun r => AppointmentRequest.flaggedForReview r <> Some true)
             (Doctor.appointmentRequests
                (doctor_session format_PPP Date_getTime evs (Doctor.initial today)))).
Proof.
  repeat split.
  - intros st e. apply fetch_queue.
  - intros st e. apply confirm_queue.
  - intros request st e. apply flag_queue.
  - intros fs. apply pendingQueue_unflagged.
  - intros today evs.
    apply (session_keeps_unflagged format_PPP Date_getTime evs (Doctor.initial today)).
    constructor.
Qed.

(** ** Scheduling *)

Lemma has_doc_In {T} (i : DocId) (d : T) (l : list (DocId * T)) :
  In (i, d) l -> has_doc i l = true.
Proof.
  intros H. unfold has_doc. apply existsb_exists.
  exists (i, d). split; [assumption|]. apply jsstring_eqb_refl.
Qed.

Lemma update_docs_In {T} (i : DocId) (f : T -> T) (d : T) (l : list (DocId * T)) :
  In (i, d) l -> In (i, f d) (update_docs i f l).
Proof.
  intros H. unfold update_docs.
  apply in_map_iff. exists (i, d). simpl. rewrite jsstring_eqb_refl. auto.
Qed.

Lemma update_docs_ids {T} (i : DocId) (f : T -> T) (l : list (DocId * T)) :
  map fst (update_docs i f l) = map fst l.
Proof.
  unfold update_docs. rewrite map_map. apply map_ext.
  intros [j d]. simpl. now destruct (jsstring_eqb j i).
Qed.

Lemma update_docs_length {T} (i : DocId) (f : T -> T) (l : list (DocId * T)) :
  List.length (update_docs i f l) = List.length l.
Proof. unfold update_docs. apply length_map. Qed.

(** The document at each position after an update. *)
Lemma update_docs_nth {T} (i : DocId) (f : T -> T) (l : list (DocId * T))
    (n : nat) (j : DocId) (d : T) :
  nth_error l n = Some (j, d) ->
  nth_error (update_docs i f l) n
  = Some (j, if jsstring_eqb j i then f d else d).
Proof.
  unfold update_docs. revert n. induction l as [|p l IH]; intros [|n] H; simpl in *;
    try discriminate.
  - injection H as ->. simpl. now destruct (jsstring_eqb j i).
  - now apply IH.
Qed.

Lemma served_cons (n : nat) (e : Env) :
  served 0 e = true -> served 1 e = true ->
  faults e = [] \/ faults e = [false]
  \/ exists rest, faults e = false :: false :: rest.
Proof.
  unfold served. destruct (faults e) as [|[] [|[] rest]]; simpl; try discriminate; eauto.
Qed.

Lemma bind_getState {U B} (k : U -> M U B) (u : U) (e : Env) :
  (x <- getState ;; k x) (u, e) = k u (u, e).
Proof. reflexivity. Qed.

(** What a run of [confirmScheduling] does once its guard is passed, the
    request's document exists and the two writes are served. *)
Lemma confirm_success (format_PPP : Instant -> jsstring)
    (st : Doctor.State) (e : Env) (request : AppointmentRequest.t)
    (d : Instant) (slot : jsstring) (i : DocId) :
  Doctor.selectedRequest st = Some request ->
  Doctor.date st = Some d ->
  Doctor.selectedTimeSlot st = Some slot ->
  slot <> [] ->
  trim (Doctor.medication st) <> [] ->
  AppointmentRequest.id request = Some i ->
  has_doc i (Firestore.appointmentRequests (db e)) = true ->
  served 0 e = true -> served 1 e = true ->
  let e' := env_after (Doctor.confirmScheduling format_PPP) st e in
  let med := trim (Doctor.medication st) in
  Firestore.appointmentRequests (db e')
  = update_docs i (AppointmentRequest.schedule_patch d slot med)
      (Firestore.appointmentRequests (db e))
  /\ Firestore.appointments (db e')
     = Firestore.appointments (db e)
       ++ [(autoId e (List.length (sent e ++ [UpdateDoc (js "appointmentRequests") i])),
            Appointment.mk None (format_PPP d) slot (Doctor.currentDoctor e)
              (AppointmentRequest.patientUsername request)
              (Some (AppointmentRequest.diagnosis request)) (Some med) None)]
  /\ Firestore.users (db e') = Firestore.users (db e)
  /\ sent e' = sent e ++ [UpdateDoc (js "appointmentRequests") i;
                          AddDoc (js "appointments");
                          GetDocs (js "appointmentRequests")].
Proof.
  intros Hreq Hdate Hslot Hne Hmed Hid Hdoc H0 H1.
  unfold env_after, after, Doctor.confirmScheduling.
  rewrite bind_getState.
  rewrite Hreq, Hdate, Hslot.
  destruct slot as [|c slot]; [congruence|].
  destruct (trim (Doctor.medication st)) as [|m med'] eqn:Etrim; [congruence|].
  simpl truthy. cbv iota. simpl negb. cbv iota.
  unfold Doctor.refreshAppointmentRequests,
    Doctor.setAppointmentRequests, Doctor.setShowCalendar, Doctor.setDate,
    Doctor.setSelectedTimeSlot, Doctor.setSelectedRequest, Doctor.setMedication.
  rewrite Hid. unfold_monad.
  destruct (served_cons 0 e H0 H1) as [F|[F|[rest F]]];
    repeat (rewrite ?F, ?Hdoc; simpl).
  - repeat split; rewrite <- ?app_assoc; reflexivity.
  - repeat split; rewrite <- ?app_assoc; reflexivity.
  - destruct rest as [|[] rest']; simpl;
      repeat split; rewrite <- ?app_assoc; reflexivity.
Qed.

(** C2 (as amended). For a selected request, a chosen date, a chosen time
    slot and a medication text that is not blank, a run of
    [confirmScheduling] whose two writes are served sets the request's
    status to scheduled together with scheduledDate, scheduledTime and
    medication, leaves every other document as it was, and appends exactly
    one Appointment: patientUsername and diagnosis copied from the selected
    request, the time equal to the chosen slot, the date the chosen date
    rendered by format "PPP", and the medication the typed text with its
    leading and trailing white space removed. *)
Theorem scheduling_updates_request_and_adds_one_appointment
    (format_PPP : Instant -> jsstring)
    (st : Doctor.State) (e : Env) (request : AppointmentRequest.t)
    (d : Instant) (slot : jsstring) (i : DocId) :
  Doctor.selectedRequest st = Some request ->
  Doctor.date st = Some d ->
  Doctor.selectedTimeSlot st = Some slot ->
  slot <> [] ->
  trim (Doctor.medication st) <> [] ->
  AppointmentRequest.id request = Some i ->
  has_doc i (Firestore.appointmentRequests (db e)) = true ->
  served 0 e = true -> served 1 e = true ->
  let e' := env_after (Doctor.confirmScheduling format_PPP) st e in
  let med := trim (Doctor.medication st) in
  (forall n j r, nth_error (Firestore.appointmentRequests (db e)) n = Some (j, r) ->
     exists r', nth_error (Firestore.appointmentRequests (db e')) n = Some (j, r')
       /\ (j <> i -> r' = r)
       /\ (j = i ->
           AppointmentRequest.status r' = scheduled
           /\ AppointmentRequest.scheduledDate r' = Some d
           /\ AppointmentRequest.scheduledTime r' = Some slot
           /\ AppointmentRequest.medication r' = Some med))
  /\ List.length (Firestore.appointmentRequests (db e'))
     = List.length (Firestore.appointmentRequests (db e))
  /\ exists newId a,
       Firestore.appointments (db e') = Firestore.appointments (db e) ++ [(newId, a)]
       /\ Appointment.patientUsername a = AppointmentRequest.patientUsername request
       /\ Appointment.diagnosis a = Some (AppointmentRequest.diagnosis request)
       /\ Appointment.appointmentDate a = format_PPP d
       /\ Appointment.appointmentTime a = slot
       /\ Appointment.medication a = Some med.
Proof.
  intros Hreq Hdate Hslot Hne Hmed Hid Hdoc H0 H1 e' med.
  destruct (confirm_success format_PPP st e Hreq Hdate Hslot Hne Hmed Hid Hdoc H0 H1)
    as (Hr & Ha & _ & _).
  fold e' in Hr, Ha. fold med in Hr, Ha.
  split; [|split].
  - intros n j r Hn. rewrite Hr.
    rewrite (update_docs_nth i _ _ _ Hn).
    eexists; split; [reflexivity|].
    destruct (jsstring_eqb j i) eqn:E; split.
    + intros Hji. apply jsstring_eqb_eq in E. contradiction.
    + intros _. simpl. auto.
    + reflexivity.
    + intros Hji. apply jsstring_eqb_eq in Hji. congruence.
  - rewrite Hr. apply update_docs_length.
  - do 2 eexists. split; [exact Ha|]. simpl. auto 6.
Qed.

Lemma scheduling_updates_request_and_adds_one_appointment_witness :
  let st := Sample.modal " aspirin 100mg " in
  let e := with_user (Some Sample.drSmith) (Sample.env (Sample.store pending None)) in
  let e' := env_after (Doctor.confirmScheduling Sample.format_PPP) st e in
  (trim (Doctor.medication st) <> [] /\ served 0 e = true /\ served 1 e = true)
  /\ (forall n j r, nth_error (Firestore.appointmentRequests (db e)) n = Some (j, r) ->
     exists r', nth_error (Firestore.appointmentRequests (db e')) n = Some (j, r')
       /\ (j <> js "req1" -> r' = r)
       /\ (j = js "req1" ->
           AppointmentRequest.status r' = scheduled
           /\ AppointmentRequest.scheduledDate r' = Some 1760000000000%Z
           /\ AppointmentRequest.scheduledTime r' = Some (js "9:00 AM")
           /\ AppointmentRequest.medication r' = Some (trim (Doctor.medication st))))
  /\ List.length (Firestore.appointmentRequests (db e'))
     = List.length (Firestore.appointmentRequests (db e))
  /\ exists newId a,
       Firestore.appointments (db e') = Firestore.appointments (db e) ++ [(newId, a)]
       /\ Appointment.patientUsername a = js "alice"
       /\ Appointment.diagnosis a = Some (js "Likely viral infection")
       /\ Appointment.appointmentDate a = Sample.format_PPP 1760000000000%Z
       /\ Appointment.appointmentTime a = js "9:00 AM"
       /\ Appointment.medication a = Some (trim (Doctor.medication st)).
Proof.
  intros st e e'.
  split; [repeat split; vm_compute; congruence|].
  apply (@scheduling_updates_request_and_adds_one_appointment Sample.format_PPP
           st e (Sample.fetched pending None) 1760000000000%Z (js "9:00 AM") (js "req1"));
    try reflexivity; vm_compute; congruence.
Defined.

(** C2 as stated does not hold: with the medication typed as " aspirin"
    the run succeeds, the request becomes scheduled and one Appointment is
    created, but the medication it carries is "aspirin", not the text that
    was chosen. *)
Lemma scheduling_medication_not_as_typed_counterexample :
  let st := Sample.modal " aspirin" in
  let e := with_user (Some Sample.drSmith) (Sample.env (Sample.store pending None)) in
  let e' := env_after (Doctor.confirmScheduling Sample.format_PPP) st e in
  Doctor.medication st <> []
  /\ result_of (Doctor.confirmScheduling Sample.format_PPP) st e = Ok tt
  /\ map (fun p => AppointmentRequest.status (snd p))
         (Firestore.appointmentRequests (db e')) = [scheduled]
  /\ exists newId a,
       Firestore.appointments (db e') = [(newId, a)]
       /\ Appointment.medication a = Some (js "aspirin")
       /\ Appointment.medication a <> Some (Doctor.medication st).
Proof.
  intros st e e'. split; [vm_compute; congruence|].
  split; [vm_compute; reflexivity|].
  split; [vm_compute; reflexivity|].
  do 2 eexists. split; [vm_compute; reflexivity|].
  split; [vm_compute; reflexivity|]. vm_compute. congruence.
Qed.

(** C4. [confirmScheduling] sends its two writes first and reads nothing
    before them: whatever the stored request's status [s] (pending,
    scheduled or completed) and flag [f], the same run goes through, the
    stored request ends with status scheduled (its flag untouched) and one
    Appointment is appended. *)
Theorem scheduling_ignores_stored_status
    (format_PPP : Instant -> jsstring)
    (st : Doctor.State) (e : Env) (request stored : AppointmentRequest.t)
    (d : Instant) (slot : jsstring) (i : DocId)
    (s : Status) (f : option bool) :
  Doctor.selectedRequest st = Some request ->
  Doctor.date st = Some d ->
  Doctor.selectedTimeSlot st = Some slot ->
  slot <> [] ->
  trim (Doctor.medication st) <> [] ->
  AppointmentRequest.id request = Some i ->
  In (i, stored) (Firestore.appointmentRequests (db e)) ->
  AppointmentRequest.status stored = s ->
  AppointmentRequest.flaggedForReview stored = f ->
  served 0 e = true -> served 1 e = true ->
  let e' := env_after (Doctor.confirmScheduling format_PPP) st e in
  sent e' = sent e ++ [UpdateDoc (js "appointmentRequests") i;
                       AddDoc (js "appointments");
                       GetDocs (js "appointmentRequests")]
  /\ (exists stored',
        In (i, stored') (Firestore.appointmentRequests (db e'))
        /\ stored' = AppointmentRequest.schedule_patch d slot
                       (trim (Doctor.medication st)) stored
        /\ AppointmentRequest.status stored' = scheduled
        /\ AppointmentRequest.flaggedForReview stored' = f)
  /\ exists newId a,
       Firestore.appointments (db e') = Firestore.appointments (db e) ++ [(newId, a)].
Proof.
  intros Hreq Hdate Hslot Hne Hmed Hid Hin Hs Hf H0 H1 e'.
  destruct (confirm_success format_PPP st e Hreq Hdate Hslot Hne Hmed Hid
              (has_doc_In _ _ _ Hin) H0 H1) as (Hr & Ha & _ & Hsent).
  fold e' in Hr, Ha, Hsent.
  split; [exact Hsent|]. split.
  - eexists. split; [|split; [reflexivity|split; [reflexivity|exact Hf]]].
    rewrite Hr. now apply update_docs_In.
  - do 2 eexists. exact Ha.
Qed.

Lemma scheduling_ignores_stored_status_witness :
  let st := Sample.modal "aspirin" in
  let e := Sample.env (Sample.store completed (Some true)) in
  let e' := env_after (Doctor.confirmScheduling Sample.format_PPP) st e in
  (In (js "req1", Sample.stored completed (Some true))
      (Firestore.appointmentRequests (db e))
   /\ served 0 e = true /\ served 1 e = true)
  /\ sent e' = sent e ++ [UpdateDoc (js "appointmentRequests") (js "req1");
                          AddDoc (js "appointments");
                          GetDocs (js "appointmentRequests")]
  /\ (exists stored',
        In (js "req1", stored') (Firestore.appointmentRequests (db e'))
        /\ stored' = AppointmentRequest.schedule_patch 1760000000000%Z (js "9:00 AM")
                       (trim (Doctor.medication st))
                       (Sample.stored completed (Some true))
        /\ AppointmentRequest.status stored' = scheduled
        /\ AppointmentRequest.flaggedForReview stored' = Some true)
  /\ exists newId a,
       Firestore.appointments (db e') = Firestore.appointments (db e) ++ [(newId, a)].
Proof.
  intros st e e'.
  split; [split; [left; reflexivity | split; reflexivity]|].
  apply (@scheduling_ignores_stored_status Sample.format_PPP st e
           (Sample.fetched pending None) (Sample.stored completed (Some true))
           1760000000000%Z (js "9:00 AM") (js "req1") completed (Some true));
    try reflexivity; try (left; reflexivity); vm_compute; congruence.
Defined.

(** ** Resubmission *)

Lemma served_first (e : Env) :
  served 0 e = true -> faults e = [] \/ exists rest, faults e = false :: rest.
Proof.
  unfold served. destruct (faults e) as [|[] rest]; simpl; try discriminate; eauto.
Qed.

(** What a served resubmission writes. *)
Lemma resubmit_success (pst : Patient.State) (w : Resubmission.State) (e : Env)
    (i : DocId) :
  AppointmentRequest.id (Resubmission.request w) = Some i ->
  has_doc i (Firestore.appointmentRequests (db e)) = true ->
  served 0 e = true ->
  let e' := env_after resubmit (pst, w) e in
  Firestore.appointmentRequests (db e')
  = update_docs i
      (AppointmentRequest.resubmit_patch (Resubmission.symptoms w) (Resubmission.comment w))
      (Firestore.appointmentRequests (db e))
  /\ Firestore.appointments (db e') = Firestore.appointments (db e)
  /\ Firestore.users (db e') = Firestore.users (db e).
Proof.
  intros Hid Hdoc H0.
  unfold resubmit, Resubmission.handleResubmit, Resubmission.setLoading,
    Resubmission.inParent, Patient.fetchAppointmentRequests,
    Patient.setAppointmentRequests.
  unfold_monad. rewrite Hid.
  destruct (served_first e H0) as [F|[rest F]];
    repeat (rewrite ?F, ?Hdoc; simpl).
  - destruct (currentUser e); repeat (rewrite ?F; simpl); auto.
  - destruct (currentUser e); repeat (rewrite ?F; simpl); auto.
    destruct rest as [|[] rest']; simpl; auto.
Qed.

(** C3. A served resubmission on the request with id [i] sets
    flaggedForReview to false, overwrites symptoms and resubmissionComment
    with the widget's texts and changes nothing else: every document keeps
    its id and its place, the resubmitted one keeps its status (a pending
    request stays pending), patientId, patientUsername, diagnosis,
    createdAt and its scheduling fields, and every other document and the
    appointments are untouched. *)
Theorem resubmission_clears_flag_and_keeps_the_rest
    (pst : Patient.State) (w : Resubmission.State) (e : Env) (i : DocId) :
  AppointmentRequest.id (Resubmission.request w) = Some i ->
  has_doc i (Firestore.appointmentRequests (db e)) = true ->
  served 0 e = true ->
  let e' := env_after resubmit (pst, w) e in
  (forall n j r, nth_error (Firestore.appointmentRequests (db e)) n = Some (j, r) ->
     exists r', nth_error (Firestore.appointmentRequests (db e')) n = Some (j, r')
       /\ (j <> i -> r' = r)
       /\ (j = i ->
           AppointmentRequest.flaggedForReview r' = Some false
           /\ AppointmentRequest.symptoms r' = Resubmission.symptoms w
           /\ AppointmentRequest.resubmissionComment r' = Some (Resubmission.comment w)
           /\ AppointmentRequest.status r' = AppointmentRequest.status r
           /\ (AppointmentRequest.status r = pending ->
               AppointmentRequest.status r' = pending)
           /\ AppointmentRequest.patientId r' = AppointmentRequest.patientId r
           /\ AppointmentRequest.patientUsername r' = AppointmentRequest.patientUsername r
           /\ AppointmentRequest.diagnosis r' = AppointmentRequest.diagnosis r
           /\ AppointmentRequest.createdAt r' = AppointmentRequest.createdAt r
           /\ AppointmentRequest.medication r' = AppointmentRequest.medication r
           /\ AppointmentRequest.scheduledDate r' = AppointmentRequest.scheduledDate r
           /\ AppointmentRequest.scheduledTime r' = AppointmentRequest.scheduledTime r
           /\ AppointmentRequest.id r' = AppointmentRequest.id r))
  /\ List.length (Firestore.appointmentRequests (db e'))
     = List.length (Firestore.appointmentRequests (db e))
  /\ Firestore.appointments (db e') = Firestore.appointments (db e).
Proof.
  intros Hid Hdoc H0 e'.
  destruct (resubmit_success pst w e Hid Hdoc H0) as (Hr & Ha & _).
  fold e' in Hr, Ha.
  split; [|split].
  - intros n j r Hn. rewrite Hr, (update_docs_nth i _ _ _ Hn).
    eexists; split; [reflexivity|].
    destruct (jsstring_eqb j i) eqn:E; split.
    + intros Hji. apply jsstring_eqb_eq in E. contradiction.
    + intros _. simpl. repeat split; auto.
    + reflexivity.
    + intros Hji. apply jsstring_eqb_eq in Hji. congruence.
  - rewrite Hr. apply update_docs_length.
  - exact Ha.
Qed.

Lemma resubmission_clears_flag_and_keeps_the_rest_witness :
  let w := Resubmission.mkState (Sample.fetched pending (Some true))
             (js "cough, fever and headache") (js "headache since monday") false in
  let e := with_user (Some Sample.alice) (Sample.env (Sample.store pending (Some true))) in
  let e' := env_after resubmit (Patient.initial, w) e in
  (has_doc (js "req1") (Firestore.appointmentRequests (db e)) = true
   /\ served 0 e = true)
  /\ (forall n j r, nth_error (Firestore.appointmentRequests (db e)) n = Some (j, r) ->
     exists r', nth_error (Firestore.appointmentRequests (db e')) n = Some (j, r')
       /\ (j <> js "req1" -> r' = r)
       /\ (j = js "req1" ->
           AppointmentRequest.flaggedForReview r' = Some false
           /\ AppointmentRequest.symptoms r' = js "cough, fever and headache"
           /\ AppointmentRequest.resubmissionComment r' = Some (js "headache since monday")
           /\ AppointmentRequest.status r' = AppointmentRequest.status r
           /\ (AppointmentRequest.status r = pending ->
               AppointmentRequest.status r' = pending)
           /\ AppointmentRequest.patientId r' = AppointmentRequest.patientId r
           /\ AppointmentRequest.patientUsername r' = AppointmentRequest.patientUsername r
           /\ AppointmentRequest.diagnosis r' = AppointmentRequest.diagnosis r
           /\ AppointmentRequest.createdAt r' = AppointmentRequest.createdAt r
           /\ AppointmentRequest.medication r' = AppointmentRequest.medication r
           /\ AppointmentRequest.scheduledDate r' = AppointmentRequest.scheduledDate r
           /\ AppointmentRequest.scheduledTime r' = AppointmentRequest.scheduledTime r
           /\ AppointmentRequest.id r' = AppointmentRequest.id r))
  /\ List.length (Firestore.appointmentRequests (db e'))
     = List.length (Firestore.appointmentRequests (db e))
  /\ Firestore.appointments (db e') = Firestore.appointments (db e).
Proof.
  intros w e e'.
  split; [split; reflexivity|].
  apply (@resubmission_clears_flag_and_keeps_the_rest Patient.initial w e (js "req1"));
    reflexivity.
Defined.

(** ** The voice pipeline *)

(** C5. When the transcription fails, or the transcription succeeds and the
    diagnosis fails, [processAudio] stops there and returns normally: the
    step after the failed one is not run (no chat-completion request after
    a failed transcription; the report is not stored after a failed
    diagnosis), each endpoint is called at most once, medicalReport and
    reportReady are as before (a null report stays null), the store is
    untouched and no write is sent, and the toasts added are the progress
    messages followed by one error toast. *)
Theorem processAudio_failure_aborts_pipeline
    (st : Patient.State) (e : Env) (audio : Blob) :
  Patient.audioData st = Some audio ->
  (whisper e audio = None
   \/ exists t, whisper e audio = Some t /\ chat e t = None) ->
  let st' := state_after Patient.processAudio st e in
  let e' := env_after Patient.processAudio st e in
  result_of Patient.processAudio st e = Ok tt
  /\ Patient.medicalReport st' = Patient.medicalReport st
  /\ (Patient.medicalReport st = MedicalReport.null ->
      Patient.medicalReport st' = MedicalReport.null)
  /\ Patient.reportReady st' = Patient.reportReady st
  /\ Patient.isProcessing st' = false
  /\ db e' = db e
  /\ (exists progress,
        toasts e' = toasts e ++ progress ++ [processingFailed]
        /\ filter isErrorToast (progress ++ [processingFailed]) = [processingFailed])
  /\ (whisper e audio = None ->
      sent e' = sent e ++ [PostTranscription audio])
  /\ (forall t, whisper e audio = Some t ->
      sent e' = sent e ++ [PostTranscription audio; PostChatCompletion t])
  /\ filter isWrite (sent e') = filter isWrite (sent e).
Proof.
  intros Haudio Hfail.
  unfold Patient.processAudio, Patient.transcribeAudio,
    Patient.getDiagnosisFromTranscript, Patient.setIsProcessing,
    Patient.setMedicalReport, Patient.setReportReady, processingFailed.
  unfold_monad. rewrite Haudio.
  destruct Hfail as [Hw|[t [Hw Hc]]].
  - simpl. rewrite Hw. simpl. repeat split; try congruence.
    + exists [toast_of "Processing" "Transcribing your recording..."].
      split; [|reflexivity]. rewrite <- !app_assoc. reflexivity.
    + rewrite filter_app. simpl. apply app_nil_r.
  - simpl. rewrite Hw. simpl. rewrite Hc. simpl. repeat split; try congruence.
    + exists [toast_of "Processing" "Transcribing your recording...";
              toast_of "Processing" "Generating diagnosis..."].
      split; [|reflexivity]. rewrite <- !app_assoc. reflexivity.
    + intros t' Ht'. injection Ht' as <-. rewrite <- app_assoc. reflexivity.
    + rewrite !filter_app. simpl. rewrite !app_nil_r. reflexivity.
Qed.

Lemma processAudio_failure_aborts_pipeline_witness :
  let st := Patient.mkState false (Some [73; 68; 51]%N) true false false
              MedicalReport.null [] in
  let e := mkEnv Firestore.empty (Some Sample.alice) [] [] [] []
             (fun _ => js "auto") (fun _ => Some (js "I have a cough"))
             (fun _ => None) 0%Z in
  let st' := state_after Patient.processAudio st e in
  let e' := env_after Patient.processAudio st e in
  (exists t, whisper e [73; 68; 51]%N = Some t /\ chat e t = None)
  /\ result_of Patient.processAudio st e = Ok tt
  /\ Patient.medicalReport st' = Patient.medicalReport st
  /\ (Patient.medicalReport st = MedicalReport.null ->
      Patient.medicalReport st' = MedicalReport.null)
  /\ Patient.reportReady st' = Patient.reportReady st
  /\ Patient.isProcessing st' = false
  /\ db e' = db e
  /\ (exists progress,
        toasts e' = toasts e ++ progress ++ [processingFailed]
        /\ filter isErrorToast (progress ++ [processingFailed]) = [processingFailed])
  /\ (whisper e [73; 68; 51]%N = None ->
      sent e' = sent e ++ [PostTranscription [73; 68; 51]%N])
  /\ (forall t, whisper e [73; 68; 51]%N = Some t ->
      sent e' = sent e ++ [PostTranscription [73; 68; 51]%N; PostChatCompletion t])
  /\ filter isWrite (sent e') = filter isWrite (sent e).
Proof.
  intros st e st' e'.
  split; [exists (js "I have a cough"); split; reflexivity|].
  apply (@processAudio_failure_aborts_pipeline st e [73; 68; 51]%N).
  - reflexivity.
  - right. exists (js "I have a cough"). split; reflexivity.
Defined.

(** ** The appointments collection is append-only *)

Lemma grows_by_same (o : Op) (l : list (DocId * Appointment.t)) : grows_by o l l.
Proof.
  exists []. rewrite app_nil_r. repeat split; [simpl; lia | congruence].
Qed.

Lemma grows_by_one (st : Doctor.State) (l : list (DocId * Appointment.t))
    (p : DocId * Appointment.t) :
  grows_by (DoctorConfirmScheduling st) l (l ++ [p]).
Proof.
  exists [p]. repeat split; [simpl; lia | eauto].
Qed.

Ltac unfold_handlers :=
  unfold resubmit, Resubmission.handleResubmit, Resubmission.setLoading,
    Resubmission.inParent,
    Patient.processAudio, Patient.recorded, Patient.handleContinue,
    Patient.fetchAppointmentRequests, Patient.transcribeAudio,
    Patient.getDiagnosisFromTranscript,
    Doctor.fetchAppointmentRequests, Doctor.fetchAssignedAppointments,
    Doctor.confirmScheduling, Doctor.handleFlagForReview,
    Doctor.refreshAppointmentRequests,
    AuthForm.onSubmit;
  unfold Patient.setAudioData, Patient.setIsDialogOpen, Patient.setIsProcessing,
    Patient.setReportReady, Patient.setMedicalReport, Patient.setAppointmentRequests,
    Doctor.setAppointmentRequests, Doctor.setAssignedAppointments,
    Doctor.setSelectedRequest, Doctor.setShowCalendar, Doctor.setDate,
    Doctor.setSelectedTimeSlot, Doctor.setMedication,
    AuthForm.setIsLoading, AuthForm.router_push.

Lemma run_appointments (format_PPP : Instant -> jsstring)
    (Date_getTime : jsstring -> number) (o : Op) (e : Env) :
  grows_by o (Firestore.appointments (db e))
             (Firestore.appointments (db (run format_PPP Date_getTime o e))).
Proof.
  destruct o; simpl; unfold_handlers; run_handler;
    solve [apply grows_by_same | apply grows_by_one].
Qed.

Lemma run_all_appointments (format_PPP : Instant -> jsstring)
    (Date_getTime : jsstring -> number) (ops : list Op) (e : Env) :
  exists added,
    Firestore.appointments (db (run_all format_PPP Date_getTime ops e))
    = Firestore.appointments (db e) ++ added.
Proof.
  revert e. induction ops as [|o ops IH]; intros e; simpl.
  - exists []. now rewrite app_nil_r.
  - destruct (IH (run format_PPP Date_getTime o e)) as [added2 H2].
    destruct (run_appointments format_PPP Date_getTime o e) as (added1 & H1 & _).
    exists (added1 ++ added2). rewrite H2, H1. now rewrite app_assoc.
Qed.

(** C6. An Appointment is created only by [confirmScheduling], one per
    run, and nothing updates or deletes it: every operation leaves the
    appointments collection as it was or, for a scheduling confirmation,
    with one document appended; hence after any sequence of operations
    every appointment is where it was, with the fields it was created
    with. *)
Theorem appointments_created_once_and_never_mutated
    (format_PPP : Instant -> jsstring) (Date_getTime : jsstring -> number) :
  (forall o e,
      exists added,
        Firestore.appointments (db (run format_PPP Date_getTime o e))
        = Firestore.appointments (db e) ++ added
        /\ List.length added <= 1
        /\ (added <> [] -> exists st, o = DoctorConfirmScheduling st))
  /\ (forall ops e n i a,
      nth_error (Firestore.appointments (db e)) n = Some (i, a) ->
      nth_error (Firestore.appointments (db (run_all format_PPP Date_getTime ops e))) n
      = Some (i, a)).
Proof.
  split.
  - intros o e. apply run_appointments.
  - intros ops e n i a Hn.
    destruct (run_all_appointments format_PPP Date_getTime ops e) as [added ->].
    rewrite nth_error_app1; [assumption|].
    apply nth_error_Some. congruence.
Qed.

(** ** Submitting a request *)

(** C7. [handleContinue] adds a document only when a transcript and a
    diagnosis are present and a user is signed in; otherwise it sends
    nothing and the store is unchanged.  When the guards hold and the write
    is served, exactly one request is appended: status pending, symptoms
    the transcript, diagnosis the generated diagnosis, patientId the
    signed-in user's uid, and no medication, scheduledDate, scheduledTime,
    flaggedForReview or resubmissionComment field. *)
Theorem handleContinue_creates_pending_request (st : Patient.State) (e : Env) :
  let e' := env_after Patient.handleContinue st e in
  Firestore.appointments (db e') = Firestore.appointments (db e)
  /\ if canSubmit st e then
       if served 0 e then
         exists newId r user,
           Firestore.appointmentRequests (db e')
           = Firestore.appointmentRequests (db e) ++ [(newId, r)]
           /\ currentUser e = Some user
           /\ AppointmentRequest.status r = pending
           /\ Some (AppointmentRequest.symptoms r)
              = MedicalReport.transcript (Patient.medicalReport st)
           /\ Some (AppointmentRequest.diagnosis r)
              = MedicalReport.diagnosis (Patient.medicalReport st)
           /\ AppointmentRequest.patientId r = uid user
           /\ AppointmentRequest.patientUsername r
              = or_default (displayName user) (js "Anonymous")
           /\ AppointmentRequest.createdAt r = now e
           /\ AppointmentRequest.medication r = None
           /\ AppointmentRequest.scheduledDate r = None
           /\ AppointmentRequest.scheduledTime r = None
           /\ AppointmentRequest.flaggedForReview r = None
           /\ AppointmentRequest.resubmissionComment r = None
       else
         Firestore.appointmentRequests (db e') = Firestore.appointmentRequests (db e)
     else
       Firestore.appointmentRequests (db e') = Firestore.appointmentRequests (db e)
       /\ sent e' = sent e.
Proof.
  unfold canSubmit, served, Patient.handleContinue, Patient.setMedicalReport,
    Patient.setIsDialogOpen, Patient.setReportReady.
  unfold_monad.
  destruct (MedicalReport.transcript (Patient.medicalReport st)) as [t|];
    [|simpl; auto].
  destruct (MedicalReport.diagnosis (Patient.medicalReport st)) as [d|];
    [|simpl; rewrite ?andb_false_r, ?orb_true_r; simpl; auto].
  simpl.
  destruct (truthy t); [|simpl; auto].
  destruct (truthy d); [|simpl; auto].
  simpl.
  destruct (currentUser e) as [user|] eqn:Huser; [|simpl; auto].
  destruct (faults e) as [|[] rest]; simpl; split; try reflexivity.
  - do 3 eexists. split; [reflexivity|]. simpl. repeat split; reflexivity.
  - do 3 eexists. split; [reflexivity|]. simpl. repeat split; reflexivity.
Qed.

(** A run of the patient page: the recording is processed, the patient
    submits, and the store holds one pending request. *)
Example handleContinue_after_processAudio :
  let e := mkEnv Firestore.empty (Some Sample.alice) [] [] [] []
             (fun _ => js "auto") (fun _ => Some (js "I have a cough"))
             (fun _ => Some (js " Likely viral infection ")) 5%Z in
  let s1 := after (Patient.recorded [73; 68; 51]%N) Patient.initial e in
  let s2 := after Patient.handleContinue (fst s1) (snd s1) in
  Patient.medicalReport (fst s1)
  = MedicalReport.mk (Some (js "I have a cough")) (Some (js "Likely viral infection"))
  /\ Firestore.appointmentRequests (db (snd s2))
     = [(js "auto",
         AppointmentRequest.mk None (js "uid-p1") (js "alice") (js "I have a cough")
           (js "Likely viral infection") None pending 5%Z None None None None)]
  /\ Patient.medicalReport (fst s2) = MedicalReport.null.
Proof. repeat split; vm_compute; reflexivity. Qed.

(** ** The completed status is never written *)

Lemma evolves_refl (l : list (DocId * AppointmentRequest.t)) : evolves l l.
Proof.
  exists l, []. rewrite app_nil_r. repeat split; [|constructor].
  induction l; constructor; auto.
Qed.

Lemma evolves_add (l : list (DocId * AppointmentRequest.t)) (i : DocId)
    (r : AppointmentRequest.t) :
  AppointmentRequest.status r = pending -> evolves l (l ++ [(i, r)]).
Proof.
  intros Hr. exists l, [(i, r)]. repeat split.
  - induction l; constructor; auto.
  - constructor; [|constructor]. unfold notCompleted. simpl. congruence.
Qed.

Lemma evolves_update (l : list (DocId * AppointmentRequest.t)) (i : DocId)
    (f : AppointmentRequest.t -> AppointmentRequest.t) :
  (forall r, AppointmentRequest.status (f r) = scheduled
             \/ AppointmentRequest.status (f r) = AppointmentRequest.status r) ->
  evolves l (update_docs i f l).
Proof.
  intros Hf. exists (update_docs i f l), []. rewrite app_nil_r.
  repeat split; [|constructor].
  unfold update_docs. induction l as [|[j r] l IH]; simpl; constructor; auto.
  simpl. destruct (jsstring_eqb j i); simpl; split; auto.
  unfold notCompleted. simpl. destruct (Hf r) as [H|H]; rewrite H; congruence.
Qed.

Lemma evolves_trans (l1 l2 l3 : list (DocId * AppointmentRequest.t)) :
  evolves l1 l2 -> evolves l2 l3 -> evolves l1 l3.
Proof.
  intros (k1 & a1 & -> & H1 & A1) (k2 & a2 & -> & H2 & A2).
  apply Forall2_app_inv_l in H2 as (k2a & k2b & Ha & Hb & ->).
  exists k2a, (k2b ++ a2). split; [now rewrite app_assoc|]. split.
  - clear - H1 Ha. revert k2a Ha.
    induction H1 as [|p p' l k Hp H1 IH]; intros k2a Ha; inversion Ha; subst;
      constructor; auto.
    destruct Hp as [Hp1 Hp2].
    match goal with H : _ /\ _ |- _ => destruct H as [Hq1 Hq2] end.
    split; [congruence | auto].
  - apply Forall_app. split; [|assumption].
    clear - A1 Hb. revert k2b Hb.
    induction A1 as [|p a Hp A1 IH]; intros k2b Hb; inversion Hb; subst;
      constructor; auto.
    match goal with H : _ /\ _ |- _ => destruct H as [_ Hq2] end. auto.
Qed.

Lemma run_requests (format_PPP : Instant -> jsstring)
    (Date_getTime : jsstring -> number) (o : Op) (e : Env) :
  evolves (Firestore.appointmentRequests (db e))
          (Firestore.appointmentRequests (db (run format_PPP Date_getTime o e))).
Proof.
  destruct o; simpl; unfold_handlers; run_handler;
    solve [ apply evolves_refl
          | apply evolves_add; reflexivity
          | apply evolves_update; intros r; simpl; auto ].
Qed.

Lemma run_all_requests (format_PPP : Instant -> jsstring)
    (Date_getTime : jsstring -> number) (ops : list Op) (e : Env) :
  evolves (Firestore.appointmentRequests (db e))
          (Firestore.appointmentRequests (db (run_all format_PPP Date_getTime ops e))).
Proof.
  revert e. induction ops as [|o ops IH]; intros e; simpl.
  - apply evolves_refl.
  - eapply evolves_trans; [apply run_requests | apply IH].
Qed.

Lemma evolves_nth_kept (l l' : list (DocId * AppointmentRequest.t)) (n : nat)
    (p : DocId * AppointmentRequest.t) :
  evolves l l' -> nth_error l n = Some p ->
  exists p', nth_error l' n = Some p' /\ fst p' = fst p
             /\ (notCompleted p -> notCompleted p').
Proof.
  intros (kept & added & -> & H & _). revert n.
  induction H as [|q q' l k Hq H IH]; intros [|n] Hn; simpl in *; try discriminate.
  - injection Hn as ->. exists q'. destruct Hq. auto.
  - apply IH. assumption.
Qed.

Lemma evolves_nth_added (l l' : list (DocId * AppointmentRequest.t)) (n : nat)
    (p' : DocId * AppointmentRequest.t) :
  evolves l l' -> List.length l <= n -> nth_error l' n = Some p' -> notCompleted p'.
Proof.
  intros (kept & added & -> & H & A) Hlen Hn.
  assert (Hk : List.length kept = List.length l) by (symmetry; eapply Forall2_length; eauto).
  rewrite nth_error_app2 in Hn by lia.
  rewrite Forall_forall in A. apply A. eapply nth_error_In; eauto.
Qed.

(** C8. No operation writes the status completed.  After any sequence of
    operations, by any clients, every request that was stored keeps its
    place and id and, unless it was completed already, is not completed;
    and every request the operations created is not completed. *)
Theorem completed_is_never_written
    (format_PPP : Instant -> jsstring) (Date_getTime : jsstring -> number)
    (ops : list Op) (e : Env) :
  let e' := run_all format_PPP Date_getTime ops e in
  (forall n i r,
      nth_error (Firestore.appointmentRequests (db e)) n = Some (i, r) ->
      exists r',
        nth_error (Firestore.appointmentRequests (db e')) n = Some (i, r')
        /\ (AppointmentRequest.status r <> completed ->
            AppointmentRequest.status r' <> completed))
  /\ (forall n i r',
      List.length (Firestore.appointmentRequests (db e)) <= n ->
      nth_error (Firestore.appointmentRequests (db e')) n = Some (i, r') ->
      AppointmentRequest.status r' <> completed)
  /\ (Forall (fun p => AppointmentRequest.status (snd p) <> completed)
             (Firestore.appointmentRequests (db e)) ->
      Forall (fun p => AppointmentRequest.status (snd p) <> completed)
             (Firestore.appointmentRequests (db e'))).
Proof.
  intros e'. pose proof (run_all_requests format_PPP Date_getTime ops e) as Hev.
  fold e' in Hev. split; [|split].
  - intros n i r Hn.
    destruct (evolves_nth_kept n Hev Hn) as ([i' r'] & Hn' & Hi & Hc).
    simpl in Hi. subst i'. exists r'. split; [assumption|]. exact Hc.
  - intros n i r' Hlen Hn. exact (evolves_nth_added Hev Hlen Hn).
  - intros Hall. destruct Hev as (kept & added & -> & H & A).
    apply Forall_app. split; [|exact A].
    clear - Hall H. induction H as [|p p' l k Hp H IH]; constructor.
    + inversion Hall; subst. destruct Hp as [_ Hp]. apply Hp. assumption.
    + apply IH. inversion Hall; assumption.
Qed.

(** A request goes through every implemented transition (created, flagged,
    resubmitted, scheduled, scheduled again) and ends scheduled. *)
Example lifecycle_ends_scheduled :
  let patientPage :=
    Patient.mkState false None true false true
      (MedicalReport.mk (Some (js "cough")) (Some (js "Likely viral infection"))) [] in
  let e0 := mkEnv Firestore.empty (Some Sample.alice) [] [] [] []
              (fun _ => js "req1") (fun _ => None) (fun _ => None) 1740000000000%Z in
  let r := AppointmentRequest.mk (Some (js "req1")) (js "uid-p1") (js "alice")
             (js "cough") (js "Likely viral infection") None pending
             1740000000000%Z None None None None in
  let widget := Resubmission.mkState (AppointmentRequest.flag_patch r)
                  (js "cough and fever") (js "fever too") false in
  let ops := [PatientHandleContinue patientPage;
              DoctorFlagForReview (Doctor.initial 0%Z) r;
              PatientResubmit patientPage widget;
              DoctorConfirmScheduling (Sample.modal "aspirin");
              DoctorConfirmScheduling (Sample.modal "ibuprofen")] in
  let e' := run_all Sample.format_PPP Sample.unreadable ops e0 in
  map (fun p => (AppointmentRequest.status (snd p),
                 AppointmentRequest.flaggedForReview (snd p),
                 AppointmentRequest.symptoms (snd p),
                 AppointmentRequest.medication (snd p)))
      (Firestore.appointmentRequests (db e'))
  = [(scheduled, Some false, js "cough and fever", Some (js "ibuprofen"))]
  /\ List.length (Firestore.appointments (db e')) = 2.
Proof. split; vm_compute; reflexivity. Qed.

(** ** The order of the assigned appointments *)

Lemma sort_insert_perm {A} (compareFn : A -> A -> number) (x : A) (l : list A) :
  Permutation (sort_insert compareFn x l) (x :: l).
Proof.
  induction l as [|y l IH]; simpl.
  - reflexivity.
  - destruct (positive (compareFn x y)).
    + rewrite IH. apply perm_swap.
    + reflexivity.
Qed.

(** The sort only reorders. *)
Lemma Array_sort_perm {A} (compareFn : A -> A -> number) (l : list A) :
  Permutation (Array_sort compareFn l) l.
Proof.
  induction l as [|x l IH]; simpl.
  - reflexivity.
  - fold (Array_sort compareFn l). rewrite sort_insert_perm. now constructor.
Qed.

(** When the comparator never answers with a positive number the sort
    leaves the array as it is. *)
Lemma Array_sort_never_positive {A} (compareFn : A -> A -> number) (l : list A) :
  (forall a b, In a l -> In b l -> positive (compareFn a b) = false) ->
  Array_sort compareFn l = l.
Proof.
  induction l as [|x l IH]; intros H; simpl.
  - reflexivity.
  - fold (Array_sort compareFn l). rewrite IH by (intros; apply H; now right).
    destruct l as [|y l']; simpl; [reflexivity|].
    rewrite H; [reflexivity | now left | right; now left].
Qed.

Section Chronology.
Variable Date_getTime : jsstring -> number.

Let first_after (y : Appointment.t) (l : list Appointment.t) : Prop :=
  match l with
  | [] => True
  | b :: _ => notLater Date_getTime y b
  end.

Lemma chronological_cons (a : Appointment.t) (l : list Appointment.t) :
  chronological Date_getTime (a :: l)
  <-> first_after a l /\ chronological Date_getTime l.
Proof. destruct l; simpl; tauto. Qed.

Lemma insert_first_after (y x : Appointment.t) (l : list Appointment.t) :
  notLater Date_getTime y x -> first_after y l ->
  first_after y (sort_insert (Doctor.byDateAndTime Date_getTime) x l).
Proof.
  intros Hyx Hyl. destruct l as [|b l]; simpl; [assumption|].
  destruct (positive _); simpl; assumption.
Qed.

(** Inserting into a chronological list keeps it so, when the dates
    involved are valid. *)
Lemma insert_chronological (x : Appointment.t) (l : list Appointment.t) :
  Doctor.instant Date_getTime x <> None ->
  (forall a, In a l -> Doctor.instant Date_getTime a <> None) ->
  chronological Date_getTime l ->
  chronological Date_getTime (sort_insert (Doctor.byDateAndTime Date_getTime) x l).
Proof.
  intros Hx. induction l as [|y l IH]; intros Hl Hc.
  - exact I.
  - cbn [sort_insert].
    assert (Hy : Doctor.instant Date_getTime y <> None) by (apply Hl; now left).
    apply chronological_cons in Hc as [Hyl Hc].
    unfold Doctor.byDateAndTime, minus.
    destruct (Doctor.instant Date_getTime x) as [tx|] eqn:Ex; [|congruence].
    destruct (Doctor.instant Date_getTime y) as [ty|] eqn:Ey; [|congruence].
    simpl. destruct (0 <? tx - ty)%Z eqn:Hcmp.
    + apply chronological_cons. split.
      * apply insert_first_after; [|assumption].
        unfold notLater. rewrite Ex, Ey. apply Z.ltb_lt in Hcmp. lia.
      * apply IH; [|assumption]. intros a Ha. apply Hl. now right.
    + apply chronological_cons. split.
      * simpl. unfold notLater. rewrite Ex, Ey. apply Z.ltb_ge in Hcmp. lia.
      * apply chronological_cons. split; assumption.
Qed.

(** With valid dates throughout, the sort puts the appointments in
    ascending chronological order. *)
Lemma Array_sort_chronological (l : list Appointment.t) :
  (forall a, In a l -> Doctor.instant Date_getTime a <> None) ->
  chronological Date_getTime (Array_sort (Doctor.byDateAndTime Date_getTime) l).
Proof.
  induction l as [|x l IH]; intros Hl.
  - exact I.
  - simpl. fold (Array_sort (Doctor.byDateAndTime Date_getTime) l).
    apply insert_chronological.
    + apply Hl. now left.
    + intros a Ha. apply Hl. right.
      eapply Permutation_in; [apply Array_sort_perm | exact Ha].
    + apply IH. intros a Ha. apply Hl. now right.
Qed.

(** What a served fetch stores. *)
Lemma fetchAssigned_result (st : Doctor.State) (e : Env) :
  served 0 e = true ->
  Doctor.assignedAppointments
    (state_after (Doctor.fetchAssignedAppointments Date_getTime) st e)
  = Array_sort (Doctor.byDateAndTime Date_getTime) (assignedDocs e).
Proof.
  intros H0. unfold Doctor.fetchAssignedAppointments,
    Doctor.setAssignedAppointments, assignedDocs.
  unfold_monad.
  destruct (served_first e H0) as [F|[rest F]]; rewrite F; reflexivity.
Qed.

Lemma assigned_list_chronological_when_dates_parse (st : Doctor.State) (e : Env) :
  served 0 e = true ->
  (forall a, In a (assignedDocs e) -> Doctor.instant Date_getTime a <> None) ->
  chronological Date_getTime
    (Doctor.assignedAppointments
       (state_after (Doctor.fetchAssignedAppointments Date_getTime) st e)).
Proof.
  intros H0 Hvalid. rewrite fetchAssigned_result by assumption.
  now apply Array_sort_chronological.
Qed.
End Chronology.

(** C10 fails on the code.  When the engine's [Date] cannot read the stored
    texts (every [getTime()] is NaN) the comparator answers NaN for every
    pair, the sort moves nothing, and a served fetch shows the appointments
    in the order the query returned them; with two or more of them the list
    is not in chronological order. *)
Theorem assigned_list_keeps_query_order_when_dates_do_not_parse
    (Date_getTime : jsstring -> number) (st : Doctor.State) (e : Env) :
  served 0 e = true ->
  (forall a, In a (assignedDocs e) -> Doctor.instant Date_getTime a = None) ->
  let shown := Doctor.assignedAppointments
                 (state_after (Doctor.fetchAssignedAppointments Date_getTime) st e) in
  shown = assignedDocs e
  /\ (2 <= List.length (assignedDocs e) -> ~ chronological Date_getTime shown).
Proof.
  intros H0 Hnan shown. unfold shown.
  rewrite fetchAssigned_result by assumption.
  rewrite Array_sort_never_positive.
  - split; [reflexivity|].
    intros Hlen Hc. destruct (assignedDocs e) as [|a [|b l]] eqn:E;
      simpl in Hlen; try lia.
    destruct Hc as [Hab _]. unfold notLater in Hab.
    rewrite (Hnan a) in Hab by now left. exact Hab.
  - intros a b Ha Hb. unfold Doctor.byDateAndTime.
    rewrite (Hnan a Ha). reflexivity.
Qed.

Lemma assigned_list_keeps_query_order_when_dates_do_not_parse_witness :
  let e := with_user (Some Sample.drSmith) (Sample.env Sample.agenda) in
  let shown := Doctor.assignedAppointments
                 (state_after (Doctor.fetchAssignedAppointments Sample.unreadable)
                              (Doctor.initial 0%Z) e) in
  (served 0 e = true /\ 2 <= List.length (assignedDocs e))
  /\ shown = assignedDocs e
  /\ (2 <= List.length (assignedDocs e) -> ~ chronological Sample.unreadable shown).
Proof.
  intros e shown.
  split; [split; [reflexivity | vm_compute; lia]|].
  apply (@assigned_list_keeps_query_order_when_dates_do_not_parse
           Sample.unreadable (Doctor.initial 0%Z) e).
  - reflexivity.
  - intros a _. reflexivity.
Defined.

(** The appointment of April 30th is shown before the one of April 29th. *)
Example april30_shown_before_april29 :
  let e := with_user (Some Sample.drSmith) (Sample.env Sample.agenda) in
  map Appointment.appointmentDate
    (Doctor.assignedAppointments
       (state_after (Doctor.fetchAssignedAppointments Sample.unreadable)
                    (Doctor.initial 0%Z) e))
  = [js "April 30th, 2025"; js "April 29th, 2025"].
Proof. vm_compute. reflexivity. Qed.

(** The same from the page's own writes: the doctor schedules one request
    for April 30th, then one for April 29th, and the page is mounted
    again. *)
Example scheduled_later_day_first_stays_first :
  let requests := Firestore.mk [(js "req1", Sample.stored pending None)] [] [] in
  let e0 := with_user (Some Sample.drSmith) (Sample.env requests) in
  let ops := [DoctorConfirmScheduling (Sample.modalOn 1746003600000%Z "aspirin");
              DoctorConfirmScheduling (Sample.modalOn 1745917200000%Z "aspirin")] in
  let e1 := run_all Sample.format_PPP Sample.unreadable ops e0 in
  map Appointment.appointmentDate
    (Doctor.assignedAppointments
       (state_after (Doctor.fetchAssignedAppointments Sample.unreadable)
                    (Doctor.initial 0%Z) e1))
  = [js "April 30th, 2025"; js "April 29th, 2025"].
Proof. vm_compute. reflexivity. Qed.

(** One unreadable date between two readable ones is enough to leave the
    readable ones out of order. *)
Example one_invalid_date_breaks_the_order :
  let engine := Sample.reads [(js "2025-04-30 9:00 AM", 1746003600000%Z);
                              (js "2025-04-29 9:00 AM", 1745917200000%Z)] in
  Array_sort (Doctor.byDateAndTime engine)
    [Sample.on "2025-04-30"; Sample.on "April 29th, 2025"; Sample.on "2025-04-29"]
  = [Sample.on "2025-04-30"; Sample.on "April 29th, 2025"; Sample.on "2025-04-29"].
Proof. vm_compute. reflexivity. Qed.

(** With readable dates the sort does its work. *)
Example readable_dates_are_sorted :
  let engine := Sample.reads [(js "2025-04-30 9:00 AM", 1746003600000%Z);
                              (js "2025-04-29 9:00 AM", 1745917200000%Z)] in
  Array_sort (Doctor.byDateAndTime engine) [Sample.on "2025-04-30"; Sample.on "2025-04-29"]
  = [Sample.on "2025-04-29"; Sample.on "2025-04-30"].
Proof. vm_compute. reflexivity. Qed.

(** * Further properties *)

(** ** The voice pipeline, when it goes through *)

(** X1. When both endpoints answer, [processAudio] stores the transcript
    and the trimmed diagnosis, marks the report ready, ends with
    isProcessing false, shows the two progress toasts and the completion
    toast, sends exactly the two posts and leaves the store alone. *)
Theorem processAudio_success_stores_report
    (st : Patient.State) (e : Env) (audio : Blob) (t c : jsstring) :
  Patient.audioData st = Some audio ->
  whisper e audio = Some t ->
  chat e t = Some c ->
  let st' := state_after Patient.processAudio st e in
  let e' := env_after Patient.processAudio st e in
  result_of Patient.processAudio st e = Ok tt
  /\ Patient.medicalReport st' = MedicalReport.mk (Some t) (Some (trim c))
  /\ Patient.reportReady st' = true
  /\ Patient.isProcessing st' = false
  /\ toasts e' = toasts e
       ++ [toast_of "Processing" "Transcribing your recording...";
           toast_of "Processing" "Generating diagnosis...";
           toast_of "Complete" "Your recording has been processed successfully."]
  /\ sent e' = sent e ++ [PostTranscription audio; PostChatCompletion t]
  /\ db e' = db e.
Proof.
  intros Haudio Hw Hc.
  unfold Patient.processAudio, Patient.transcribeAudio,
    Patient.getDiagnosisFromTranscript, Patient.setIsProcessing,
    Patient.setMedicalReport, Patient.setReportReady.
  unfold_monad. rewrite Haudio. simpl. rewrite Hw. simpl. rewrite Hc. simpl.
  repeat split; rewrite <- ?app_assoc; reflexivity.
Qed.

Lemma processAudio_success_stores_report_witness :
  let st := Patient.mkState false (Some [73; 68; 51]%N) true false false
              MedicalReport.null [] in
  let e := mkEnv Firestore.empty (Some Sample.alice) [] [] [] []
             (fun _ => js "auto") (fun _ => Some (js "I have a cough"))
             (fun _ => Some (js " Likely viral infection ")) 0%Z in
  let st' := state_after Patient.processAudio st e in
  let e' := env_after Patient.processAudio st e in
  (whisper e [73; 68; 51]%N = Some (js "I have a cough")
   /\ chat e (js "I have a cough") = Some (js " Likely viral infection "))
  /\ result_of Patient.processAudio st e = Ok tt
  /\ Patient.medicalReport st'
     = MedicalReport.mk (Some (js "I have a cough"))
         (Some (trim (js " Likely viral infection ")))
  /\ Patient.reportReady st' = true
  /\ Patient.isProcessing st' = false
  /\ toasts e' = toasts e
       ++ [toast_of "Processing" "Transcribing your recording...";
           toast_of "Processing" "Generating diagnosis...";
           toast_of "Complete" "Your recording has been processed successfully."]
  /\ sent e' = sent e ++ [PostTranscription [73; 68; 51]%N;
                          PostChatCompletion (js "I have a cough")]
  /\ db e' = db e.
Proof.
  intros st e st' e'. split; [split; reflexivity|].
  apply (@processAudio_success_stores_report st e [73; 68; 51]%N
           (js "I have a cough") (js " Likely viral infection ")); reflexivity.
Defined.

(** X2. Whatever the endpoints do, [processAudio] returns normally, never
    touches the store, sends no write, and leaves isProcessing false once
    there was a recording to process; without a recording it changes
    nothing at all. *)
Theorem processAudio_never_writes_never_throws (st : Patient.State) (e : Env) :
  let st' := state_after Patient.processAudio st e in
  let e' := env_after Patient.processAudio st e in
  result_of Patient.processAudio st e = Ok tt
  /\ db e' = db e
  /\ filter isWrite (sent e') = filter isWrite (sent e)
  /\ faults e' = faults e
  /\ match Patient.audioData st with
     | Some _ => Patient.isProcessing st' = false
     | None => st' = st /\ e' = e
     end.
Proof.
  unfold Patient.processAudio, Patient.transcribeAudio,
    Patient.getDiagnosisFromTranscript, Patient.setIsProcessing,
    Patient.setMedicalReport, Patient.setReportReady.
  unfold_monad.
  destruct (Patient.audioData st) as [audio|]; simpl.
  - destruct (whisper e audio) as [t|]; simpl.
    + destruct (chat e t) as [c|]; simpl; repeat split;
        rewrite ?filter_app; simpl; rewrite ?app_nil_r; reflexivity.
    + repeat split. rewrite ?filter_app; simpl; rewrite ?app_nil_r; reflexivity.
  - destruct e; repeat split.
Qed.

(** The run of [processAudio] when both endpoints answer, spelled out. *)
Lemma processAudio_run (st : Patient.State) (e : Env) (audio : Blob)
    (t c : jsstring) :
  Patient.audioData st = Some audio ->
  whisper e audio = Some t ->
  chat e t = Some c ->
  Patient.processAudio (st, e)
  = (Ok tt,
     (Patient.mkState (Patient.isRecording st) (Patient.audioData st)
        (Patient.isDialogOpen st) false true
        (MedicalReport.mk (Some t) (Some (trim c)))
        (Patient.appointmentRequests st),
      add_toast (toast_of "Complete" "Your recording has been processed successfully.")
        (add_sent (PostChatCompletion t)
           (add_toast (toast_of "Processing" "Generating diagnosis...")
              (add_sent (PostTranscription audio)
                 (add_toast (toast_of "Processing" "Transcribing your recording...") e)))))).
Proof.
  intros Haudio Hw Hc.
  unfold Patient.processAudio, Patient.transcribeAudio,
    Patient.getDiagnosisFromTranscript, Patient.setIsProcessing,
    Patient.setMedicalReport, Patient.setReportReady.
  unfold_monad. rewrite Haudio. simpl. rewrite Hw. simpl. rewrite Hc. simpl.
  rewrite <- Haudio. reflexivity.
Qed.

(** [handleContinue] on a report with an empty or missing part. *)
Lemma handleContinue_refused (st : Patient.State) (e : Env) :
  truthy_opt (MedicalReport.transcript (Patient.medicalReport st))
  && truthy_opt (MedicalReport.diagnosis (Patient.medicalReport st)) = false ->
  Patient.handleContinue (st, e) = (Ok tt, (st, add_toast pleaseComplete e)).
Proof.
  intros H. unfold Patient.handleContinue. rewrite bind_getState.
  rewrite <- negb_andb, H. reflexivity.
Qed.

(** [handleContinue] when the guards hold and the write is served. *)
Lemma handleContinue_served (st : Patient.State) (e : Env) (t d : jsstring)
    (user : User) :
  Patient.medicalReport st = MedicalReport.mk (Some t) (Some d) ->
  t <> [] -> d <> [] ->
  currentUser e = Some user ->
  served 0 e = true ->
  exists e',
    Patient.handleContinue (st, e)
    = (Ok tt,
       (Patient.mkState (Patient.isRecording st) (Patient.audioData st) false
          (Patient.isProcessing st) false MedicalReport.null
          (Patient.appointmentRequests st), e'))
    /\ Firestore.appointmentRequests (db e')
       = Firestore.appointmentRequests (db e)
         ++ [(autoId e (List.length (sent e)),
              AppointmentRequest.mk None (uid user)
                (or_default (displayName user) (js "Anonymous")) t d
                None pending (now e) None None None None)]
    /\ Firestore.appointments (db e') = Firestore.appointments (db e)
    /\ sent e' = sent e ++ [AddDoc (js "appointmentRequests")]
    /\ toasts e' = toasts e
         ++ [toast_of "Success" "Your symptoms and diagnosis have been recorded. A doctor will review and schedule an appointment."]
    /\ faults e' = skipn 1 (faults e).
Proof.
  intros Hr Ht Hd Hu H0.
  unfold Patient.handleContinue, Patient.setMedicalReport,
    Patient.setIsDialogOpen, Patient.setReportReady.
  rewrite bind_getState. rewrite Hr.
  destruct t as [|x t]; [congruence|]. destruct d as [|y d]; [congruence|].
  unfold_monad. simpl. rewrite Hu.
  destruct (served_first e H0) as [F|[rest F]]; rewrite F; simpl;
    eexists; (split; [reflexivity|]); simpl; auto 6.
Qed.

(** X3. A recording that transcribes to the empty string, or whose
    diagnosis is blank, still ends [processAudio] with the completion
    toast and the report marked ready; the submission that follows is
    refused with the "please complete" toast, sends nothing, and leaves
    the page and the store as they were. *)
Theorem empty_transcript_is_ready_but_cannot_be_submitted
    (st : Patient.State) (e : Env) (audio : Blob) (t c : jsstring) :
  Patient.audioData st = Some audio ->
  whisper e audio = Some t ->
  chat e t = Some c ->
  t = [] \/ trim c = [] ->
  let s1 := after Patient.processAudio st e in
  let s2 := after Patient.handleContinue (fst s1) (snd s1) in
  Patient.reportReady (fst s1) = true
  /\ fst s2 = fst s1
  /\ db (snd s2) = db e
  /\ sent (snd s2) = sent (snd s1)
  /\ toasts (snd s2) = toasts (snd s1) ++ [pleaseComplete].
Proof.
  intros Haudio Hw Hc Hblank s1 s2.
  unfold s2, s1, after. rewrite (processAudio_run st e Haudio Hw Hc). simpl.
  rewrite handleContinue_refused.
  - simpl. repeat split.
  - simpl. destruct Hblank as [-> | ->]; simpl; [reflexivity | apply andb_false_r].
Qed.

Lemma empty_transcript_is_ready_but_cannot_be_submitted_witness :
  let st := Patient.mkState false (Some []) true false false MedicalReport.null [] in
  let e := mkEnv Firestore.empty (Some Sample.alice) [] [] [] []
             (fun _ => js "auto") (fun _ => Some [])
             (fun _ => Some (js "No symptoms were described.")) 0%Z in
  let s1 := after Patient.processAudio st e in
  let s2 := after Patient.handleContinue (fst s1) (snd s1) in
  (whisper e [] = Some [] /\ chat e [] = Some (js "No symptoms were described."))
  /\ Patient.reportReady (fst s1) = true
  /\ fst s2 = fst s1
  /\ db (snd s2) = db e
  /\ sent (snd s2) = sent (snd s1)
  /\ toasts (snd s2) = toasts (snd s1) ++ [pleaseComplete].
Proof.
  intros st e s1 s2. split; [split; reflexivity|].
  apply (@empty_transcript_is_ready_but_cannot_be_submitted st e []
           [] (js "No symptoms were described.")); try reflexivity.
  left. reflexivity.
Defined.

(** X4. From a recording to a stored request: when the transcript and the
    trimmed diagnosis are not empty, a user is signed in and the write is
    served, [processAudio] followed by [handleContinue] appends one
    pending request carrying the transcript as symptoms and the trimmed
    diagnosis, and the page ends with a null report, not ready, dialog
    closed. *)
Theorem recording_then_submit_stores_the_request
    (st : Patient.State) (e : Env) (audio : Blob) (t c : jsstring) (user : User) :
  Patient.audioData st = Some audio ->
  whisper e audio = Some t ->
  chat e t = Some c ->
  t <> [] -> trim c <> [] ->
  currentUser e = Some user ->
  served 0 e = true ->
  let s1 := after Patient.processAudio st e in
  let s2 := after Patient.handleContinue (fst s1) (snd s1) in
  (exists newId,
     Firestore.appointmentRequests (db (snd s2))
     = Firestore.appointmentRequests (db e)
       ++ [(newId,
            AppointmentRequest.mk None (uid user)
              (or_default (displayName user) (js "Anonymous")) t (trim c)
              None pending (now e) None None None None)])
  /\ Patient.medicalReport (fst s2) = MedicalReport.null
  /\ Patient.reportReady (fst s2) = false
  /\ Patient.isDialogOpen (fst s2) = false.
Proof.
  intros Haudio Hw Hc Ht Hd Hu H0 s1 s2.
  unfold s2, s1, after. rewrite (processAudio_run st e Haudio Hw Hc). simpl.
  match goal with
  | |- context [Patient.handleContinue (?st1, ?e1)] =>
      destruct (@handleContinue_served st1 e1 t (trim c) user eq_refl Ht Hd Hu H0)
        as (e' & Hrun & Hreq & _)
  end.
  rewrite Hrun. simpl. split; [|repeat split].
  eexists. rewrite Hreq. reflexivity.
Qed.

Lemma recording_then_submit_stores_the_request_witness :
  let st := Patient.mkState false (Some [73; 68; 51]%N) true false false
              MedicalReport.null [] in
  let e := mkEnv Firestore.empty (Some Sample.alice) [] [] [] []
             (fun _ => js "req1") (fun _ => Some (js "I have a cough"))
             (fun _ => Some (js " Likely viral infection ")) 5%Z in
  let s1 := after Patient.processAudio st e in
  let s2 := after Patient.handleContinue (fst s1) (snd s1) in
  (js "I have a cough" <> [] /\ trim (js " Likely viral infection ") <> []
   /\ served 0 e = true)
  /\ (exists newId,
     Firestore.appointmentRequests (db (snd s2))
     = Firestore.appointmentRequests (db e)
       ++ [(newId,
            AppointmentRequest.mk None (uid Sample.alice)
              (or_default (displayName Sample.alice) (js "Anonymous"))
              (js "I have a cough") (trim (js " Likely viral infection "))
              None pending (now e) None None None None)])
  /\ Patient.medicalReport (fst s2) = MedicalReport.null
  /\ Patient.reportReady (fst s2) = false
  /\ Patient.isDialogOpen (fst s2) = false.
Proof.
  intros st e s1 s2.
  split; [repeat split; vm_compute; congruence|].
  apply (@recording_then_submit_stores_the_request st e [73; 68; 51]%N
           (js "I have a cough") (js " Likely viral infection ") Sample.alice);
    try reflexivity; vm_compute; congruence.
Defined.

(** ** Submitting, when it does not go through *)

(** X5. [handleContinue] resets the page only after a served write.  When
    a guard fails or the write is rejected, the page state (the report
    included, so that the patient can try again) and the store are
    unchanged and exactly one toast, an error, is added. *)
Theorem handleContinue_failure_keeps_the_report (st : Patient.State) (e : Env) :
  canSubmit st e && served 0 e = false ->
  let st' := state_after Patient.handleContinue st e in
  let e' := env_after Patient.handleContinue st e in
  result_of Patient.handleContinue st e = Ok tt
  /\ st' = st
  /\ db e' = db e
  /\ exists t, toasts e' = toasts e ++ [t] /\ isErrorToast t = true.
Proof.
  unfold canSubmit, served, Patient.handleContinue, Patient.setMedicalReport,
    Patient.setIsDialogOpen, Patient.setReportReady.
  unfold_monad. intros H.
  destruct (truthy_opt (MedicalReport.transcript (Patient.medicalReport st)));
    simpl in *; [|repeat split; eexists; split; reflexivity].
  destruct (truthy_opt (MedicalReport.diagnosis (Patient.medicalReport st)));
    simpl in *; [|repeat split; eexists; split; reflexivity].
  destruct (currentUser e) as [user|];
    simpl in *; [|repeat split; eexists; split; reflexivity].
  destruct (faults e) as [|[] rest]; simpl in *; try discriminate.
  repeat split; eexists; split; reflexivity.
Qed.

Lemma handleContinue_failure_keeps_the_report_witness :
  let st := Patient.mkState false None true false true
              (MedicalReport.mk (Some (js "cough")) (Some (js "Likely viral infection")))
              [] in
  let e := with_faults [true] (with_user (Some Sample.alice) (Sample.env Firestore.empty)) in
  let st' := state_after Patient.handleContinue st e in
  let e' := env_after Patient.handleContinue st e in
  (canSubmit st e = true /\ served 0 e = false)
  /\ result_of Patient.handleContinue st e = Ok tt
  /\ st' = st
  /\ db e' = db e
  /\ exists t, toasts e' = toasts e ++ [t] /\ isErrorToast t = true.
Proof.
  intros st e st' e'. split; [split; reflexivity|].
  apply (@handleContinue_failure_keeps_the_report st e). reflexivity.
Defined.

(** X6. After a served submission the report is gone, so a second
    [handleContinue] on the page as it now is refused: it sends nothing
    and the store keeps the single new request. *)
Theorem handleContinue_cannot_submit_twice
    (st : Patient.State) (e : Env) (t d : jsstring) (user : User) :
  Patient.medicalReport st = MedicalReport.mk (Some t) (Some d) ->
  t <> [] -> d <> [] ->
  currentUser e = Some user ->
  served 0 e = true ->
  let s1 := after Patient.handleContinue st e in
  let s2 := after Patient.handleContinue (fst s1) (snd s1) in
  List.length (Firestore.appointmentRequests (db (snd s1)))
  = S (List.length (Firestore.appointmentRequests (db e)))
  /\ db (snd s2) = db (snd s1)
  /\ sent (snd s2) = sent (snd s1)
  /\ toasts (snd s2) = toasts (snd s1) ++ [pleaseComplete].
Proof.
  intros Hr Ht Hd Hu H0 s1 s2.
  destruct (handleContinue_served st e Hr Ht Hd Hu H0) as (e' & Hrun & Hreq & _).
  unfold s2, s1, after. rewrite Hrun. cbn [fst snd].
  rewrite handleContinue_refused by reflexivity. cbn [fst snd].
  repeat split. rewrite Hreq, length_app. simpl. lia.
Qed.

Lemma handleContinue_cannot_submit_twice_witness :
  let st := Patient.mkState false None true false true
              (MedicalReport.mk (Some (js "cough")) (Some (js "Likely viral infection")))
              [] in
  let e := with_user (Some Sample.alice) (Sample.env Firestore.empty) in
  let s1 := after Patient.handleContinue st e in
  let s2 := after Patient.handleContinue (fst s1) (snd s1) in
  (js "cough" <> [] /\ js "Likely viral infection" <> [] /\ served 0 e = true)
  /\ List.length (Firestore.appointmentRequests (db (snd s1)))
     = S (List.length (Firestore.appointmentRequests (db e)))
  /\ db (snd s2) = db (snd s1)
  /\ sent (snd s2) = sent (snd s1)
  /\ toasts (snd s2) = toasts (snd s1) ++ [pleaseComplete].
Proof.
  intros st e s1 s2.
  split; [repeat split; vm_compute; congruence|].
  apply (@handleContinue_cannot_submit_twice st e (js "cough")
           (js "Likely viral infection") Sample.alice);
    try reflexivity; vm_compute; congruence.
Defined.

(** ** The patient's own requests *)

(** X7. A served fetch on the patient page lists, in store order and each
    with its document id, exactly the stored requests whose patientId is
    the signed-in user's uid; it does not change the store.  With nobody
    signed in it sends nothing, and when the query is rejected the list
    stays as it was and no toast is shown. *)
Theorem patient_fetch_lists_own_requests (st : Patient.State) (e : Env) :
  let st' := state_after Patient.fetchAppointmentRequests st e in
  let e' := env_after Patient.fetchAppointmentRequests st e in
  db e' = db e
  /\ toasts e' = toasts e
  /\ match currentUser e with
     | None => st' = st /\ sent e' = sent e
     | Some user =>
         if served 0 e then
           Patient.appointmentRequests st'
           = map (fun p => AppointmentRequest.with_id (fst p) (snd p))
               (filter (fun p => jsstring_eqb (AppointmentRequest.patientId (snd p))
                                              (uid user))
                       (Firestore.appointmentRequests (db e)))
           /\ Forall (fun r => AppointmentRequest.patientId r = uid user
                               /\ AppointmentRequest.id r <> None)
                     (Patient.appointmentRequests st')
         else st' = st
     end.
Proof.
  unfold served, Patient.fetchAppointmentRequests, Patient.setAppointmentRequests.
  unfold_monad.
  assert (Hall : forall user,
    Forall (fun r => AppointmentRequest.patientId r = uid user
                     /\ AppointmentRequest.id r <> None)
      (map (fun p => AppointmentRequest.with_id (fst p) (snd p))
         (filter (fun p : DocId * AppointmentRequest.t =>
                    jsstring_eqb (AppointmentRequest.patientId (snd p)) (uid user))
                 (Firestore.appointmentRequests (db e))))).
  { intros user. apply Forall_forall. intros r Hr.
    apply in_map_iff in Hr as ([i d] & <- & Hin).
    apply filter_In in Hin as [_ Hp]. simpl in *.
    apply jsstring_eqb_eq in Hp. split; [assumption | discriminate]. }
  destruct (currentUser e) as [user|]; simpl; [|auto].
  destruct (faults e) as [|[] rest]; simpl; repeat split; auto.
Qed.

(** ** Scheduling, run by run *)

Lemma has_doc_update {T} (i j : DocId) (f : T -> T) (l : list (DocId * T)) :
  has_doc j (update_docs i f l) = has_doc j l.
Proof.
  unfold has_doc, update_docs. induction l as [|[k d] l IH]; simpl; [reflexivity|].
  rewrite IH. now destruct (jsstring_eqb k i).
Qed.

Lemma update_docs_inv {T} (i j : DocId) (f : T -> T) (d : T) (l : list (DocId * T)) :
  In (j, d) (update_docs i f l) -> j = i -> exists d0, In (i, d0) l /\ d = f d0.
Proof.
  unfold update_docs. intros H Hj. apply in_map_iff in H as ([k d0] & Hk & Hin).
  simpl in Hk. destruct (jsstring_eqb k i) eqn:E.
  - apply jsstring_eqb_eq in E. injection Hk as <- <-. subst k. eauto.
  - injection Hk as -> ->. subst j. rewrite jsstring_eqb_refl in E. discriminate.
Qed.

(** A document that is not pending, or is flagged, is not in the queue
    under its id. *)
Lemma pendingQueue_excludes_id (fs : Firestore.t) (i : DocId) :
  (forall d, In (i, d) (Firestore.appointmentRequests fs) ->
             Doctor.isPending d = false \/ AppointmentRequest.notFlagged d = false) ->
  forall r, In r (pendingQueue fs) -> AppointmentRequest.id r <> Some i.
Proof.
  intros H r Hr Hid. unfold pendingQueue, Doctor.withIds in Hr.
  apply filter_In in Hr as [Hr Hflag].
  apply in_map_iff in Hr as ([j d] & <- & Hin).
  apply filter_In in Hin as [Hin Hpend]. simpl in *.
  injection Hid as ->.
  destruct (H d Hin) as [E|E]; [congruence|].
  unfold AppointmentRequest.notFlagged in *. simpl in Hflag. congruence.
Qed.

Lemma served_three (e : Env) :
  served 0 e = true -> served 1 e = true -> served 2 e = true ->
  faults e = [] \/ faults e = [false] \/ faults e = [false; false]
  \/ exists rest, faults e = false :: false :: false :: rest.
Proof.
  unfold served.
  destruct (faults e) as [|[] [|[] [|[] rest]]]; simpl; try discriminate; eauto 6.
Qed.

Ltac pass_guard H :=
  destruct H as (Hreq & Hid & Hdate & Hslot & Hne & Hmed);
  unfold newAppointment, modalClosed, scheduledToast, schedulingFailed;
  unfold Doctor.confirmScheduling; rewrite bind_getState;
  rewrite Hreq, Hdate, Hslot;
  match type of Hne with
  | ?slot <> [] => destruct slot; [congruence|]
  end;
  match type of Hmed with
  | ?m <> [] => destruct m eqn:Etrim; [congruence|]
  end;
  simpl truthy; cbv iota; simpl negb; cbv iota;
  unfold Doctor.refreshAppointmentRequests,
    Doctor.setAppointmentRequests, Doctor.setShowCalendar, Doctor.setDate,
    Doctor.setSelectedTimeSlot, Doctor.setSelectedRequest, Doctor.setMedication;
  rewrite Hid; unfold_monad.

(** Both writes and the refresh are served. *)
Lemma confirm_all_served (format_PPP : Instant -> jsstring)
    (st : Doctor.State) (e : Env) (request : AppointmentRequest.t)
    (i : DocId) (d : Instant) (slot : jsstring) :
  readyToSchedule st request i d slot ->
  has_doc i (Firestore.appointmentRequests (db e)) = true ->
  served 0 e = true -> served 1 e = true -> served 2 e = true ->
  exists e' newId q,
    Doctor.confirmScheduling format_PPP (st, e) = (Ok tt, (modalClosed st q, e'))
    /\ q = pendingQueue (db e')
    /\ db e' = Firestore.mk
         (update_docs i (AppointmentRequest.schedule_patch d slot
                           (trim (Doctor.medication st)))
            (Firestore.appointmentRequests (db e)))
         (Firestore.appointments (db e)
          ++ [(newId, newAppointment format_PPP st e request d slot)])
         (Firestore.users (db e))
    /\ toasts e' = toasts e ++ [scheduledToast format_PPP d slot]
    /\ currentUser e' = currentUser e
    /\ faults e' = skipn 3 (faults e).
Proof.
  intros H Hdoc H0 H1 H2. pass_guard H.
  destruct (served_three e H0 H1 H2) as [F|[F|[F|[rest F]]]];
    repeat (rewrite ?F, ?Hdoc; simpl);
    do 3 eexists; (split; [reflexivity|]); simpl; auto 6.
Qed.

(** Both writes are served, the refresh is rejected. *)
Lemma confirm_refresh_rejected (format_PPP : Instant -> jsstring)
    (st : Doctor.State) (e : Env) (request : AppointmentRequest.t)
    (i : DocId) (d : Instant) (slot : jsstring) :
  readyToSchedule st request i d slot ->
  has_doc i (Firestore.appointmentRequests (db e)) = true ->
  served 0 e = true -> served 1 e = true -> served 2 e = false ->
  exists e' newId,
    Doctor.confirmScheduling format_PPP (st, e)
    = (Ok tt, (modalClosed st (Doctor.appointmentRequests st), e'))
    /\ db e' = Firestore.mk
         (update_docs i (AppointmentRequest.schedule_patch d slot
                           (trim (Doctor.medication st)))
            (Firestore.appointmentRequests (db e)))
         (Firestore.appointments (db e)
          ++ [(newId, newAppointment format_PPP st e request d slot)])
         (Firestore.users (db e))
    /\ toasts e' = toasts e ++ [scheduledToast format_PPP d slot; schedulingFailed].
Proof.
  intros H Hdoc H0 H1 H2. pass_guard H.
  assert (F : exists rest, faults e = false :: false :: true :: rest).
  { revert H0 H1 H2. unfold served.
    destruct (faults e) as [|[] [|[] [|[] rest]]]; simpl; try discriminate; eauto. }
  destruct F as [rest F].
  repeat (rewrite ?F, ?Hdoc; simpl).
  do 2 eexists. split; [reflexivity|]. simpl. split; [reflexivity|].
  rewrite <- app_assoc. reflexivity.
Qed.

(** The update is served, the Appointment's [addDoc] is rejected. *)
Lemma confirm_addDoc_rejected (format_PPP : Instant -> jsstring)
    (st : Doctor.State) (e : Env) (request : AppointmentRequest.t)
    (i : DocId) (d : Instant) (slot : jsstring) :
  readyToSchedule st request i d slot ->
  has_doc i (Firestore.appointmentRequests (db e)) = true ->
  served 0 e = true -> served 1 e = false ->
  exists e',
    Doctor.confirmScheduling format_PPP (st, e) = (Ok tt, (st, e'))
    /\ db e' = Firestore.mk
         (update_docs i (AppointmentRequest.schedule_patch d slot
                           (trim (Doctor.medication st)))
            (Firestore.appointmentRequests (db e)))
         (Firestore.appointments (db e))
         (Firestore.users (db e))
    /\ toasts e' = toasts e ++ [schedulingFailed].
Proof.
  intros H Hdoc H0 H1. pass_guard H.
  assert (F : exists rest, faults e = false :: true :: rest).
  { revert H0 H1. unfold served.
    destruct (faults e) as [|[] [|[] rest]]; simpl; try discriminate; eauto. }
  destruct F as [rest F].
  repeat (rewrite ?F, ?Hdoc; simpl).
  eexists. split; [reflexivity|]. simpl. auto.
Qed.


(** With no request selected the guard stops the run. *)
Lemma confirm_without_request (format_PPP : Instant -> jsstring)
    (st : Doctor.State) (e : Env) :
  Doctor.selectedRequest st = None ->
  Doctor.confirmScheduling format_PPP (st, e)
  = (Ok tt, (st, add_toast selectDateAndSlot e)).
Proof.
  intros H. unfold Doctor.confirmScheduling. rewrite bind_getState, H. reflexivity.
Qed.

Ltac ready_to_schedule :=
  unfold readyToSchedule; repeat split; try reflexivity; vm_compute; congruence.

(** X8. Scheduling is two writes, not one transaction: when the request's
    update is served and the Appointment's [addDoc] is rejected, the stored
    request is left scheduled with no Appointment created; the page state
    is untouched (the modal stays open) and the only toast is the
    scheduling-failed error. *)
Theorem scheduling_can_leave_request_scheduled_without_appointment
    (format_PPP : Instant -> jsstring)
    (st : Doctor.State) (e : Env) (request stored : AppointmentRequest.t)
    (i : DocId) (d : Instant) (slot : jsstring) :
  readyToSchedule st request i d slot ->
  In (i, stored) (Firestore.appointmentRequests (db e)) ->
  served 0 e = true -> served 1 e = false ->
  let st' := state_after (Doctor.confirmScheduling format_PPP) st e in
  let e' := env_after (Doctor.confirmScheduling format_PPP) st e in
  st' = st
  /\ In (i, AppointmentRequest.schedule_patch d slot (trim (Doctor.medication st)) stored)
        (Firestore.appointmentRequests (db e'))
  /\ Firestore.appointments (db e') = Firestore.appointments (db e)
  /\ toasts e' = toasts e ++ [schedulingFailed].
Proof.
  intros H Hin H0 H1 st' e'.
  destruct (confirm_addDoc_rejected format_PPP e H (has_doc_In _ _ _ Hin) H0 H1)
    as (e1 & Hrun & Hdb & Ht).
  unfold st', e', state_after, env_after, after. rewrite Hrun. simpl.
  rewrite Hdb. simpl. repeat split; [|assumption].
  now apply update_docs_In.
Qed.

Lemma scheduling_can_leave_request_scheduled_without_appointment_witness :
  let st := Sample.modal "aspirin" in
  let e := with_faults [false; true] (Sample.env (Sample.store pending None)) in
  let st' := state_after (Doctor.confirmScheduling Sample.format_PPP) st e in
  let e' := env_after (Doctor.confirmScheduling Sample.format_PPP) st e in
  (served 0 e = true /\ served 1 e = false)
  /\ st' = st
  /\ In (js "req1",
         AppointmentRequest.schedule_patch 1760000000000%Z (js "9:00 AM")
           (trim (Doctor.medication st)) (Sample.stored pending None))
        (Firestore.appointmentRequests (db e'))
  /\ Firestore.appointments (db e') = Firestore.appointments (db e)
  /\ toasts e' = toasts e ++ [schedulingFailed].
Proof.
  intros st e st' e'. split; [split; reflexivity|].
  apply (@scheduling_can_leave_request_scheduled_without_appointment
           Sample.format_PPP st e (Sample.fetched pending None)
           (Sample.stored pending None) (js "req1") 1760000000000%Z (js "9:00 AM")).
  - ready_to_schedule.
  - left. reflexivity.
  - reflexivity.
  - reflexivity.
Defined.



(** X10. After a run of [confirmScheduling] whose three requests are
    served, the modal is closed and its fields are reset, the only toast
    is the success message, and the queue is the refreshed one, in which
    no request carries the scheduled request's id. *)
Theorem scheduled_request_leaves_the_queue
    (format_PPP : Instant -> jsstring)
    (st : Doctor.State) (e : Env) (request : AppointmentRequest.t)
    (i : DocId) (d : Instant) (slot : jsstring) :
  readyToSchedule st request i d slot ->
  has_doc i (Firestore.appointmentRequests (db e)) = true ->
  served 0 e = true -> served 1 e = true -> served 2 e = true ->
  let st' := state_after (Doctor.confirmScheduling format_PPP) st e in
  let e' := env_after (Doctor.confirmScheduling format_PPP) st e in
  st' = modalClosed st (pendingQueue (db e'))
  /\ (forall r, In r (Doctor.appointmentRequests st') ->
                AppointmentRequest.id r <> Some i)
  /\ toasts e' = toasts e ++ [scheduledToast format_PPP d slot].
Proof.
  intros H Hdoc H0 H1 H2 st' e'.
  destruct (confirm_all_served format_PPP e H Hdoc H0 H1 H2)
    as (e1 & newId & q & Hrun & -> & Hdb & Ht & _).
  unfold st', e', state_after, env_after, after. rewrite Hrun. simpl.
  split; [reflexivity|]. split; [|assumption].
  apply pendingQueue_excludes_id. intros r Hr. left.
  rewrite Hdb in Hr. simpl in Hr.
  apply update_docs_inv in Hr as (r0 & _ & ->); reflexivity.
Qed.

Lemma scheduled_request_leaves_the_queue_witness :
  let st := Sample.modal "aspirin" in
  let e := Sample.env (Sample.store pending None) in
  let st' := state_after (Doctor.confirmScheduling Sample.format_PPP) st e in
  let e' := env_after (Doctor.confirmScheduling Sample.format_PPP) st e in
  (has_doc (js "req1") (Firestore.appointmentRequests (db e)) = true
   /\ served 0 e = true /\ served 1 e = true /\ served 2 e = true)
  /\ st' = modalClosed st (pendingQueue (db e'))
  /\ (forall r, In r (Doctor.appointmentRequests st') ->
                AppointmentRequest.id r <> Some (js "req1"))
  /\ toasts e' = toasts e
       ++ [scheduledToast Sample.format_PPP 1760000000000%Z (js "9:00 AM")].
Proof.
  intros st e st' e'. split; [repeat split|].
  apply (@scheduled_request_leaves_the_queue Sample.format_PPP st e
           (Sample.fetched pending None) (js "req1") 1760000000000%Z (js "9:00 AM"));
    try reflexivity.
  ready_to_schedule.
Defined.

(** X11. When both writes are served and the refresh that follows is
    rejected, the request is scheduled and the Appointment created all the
    same, yet the success toast is followed by the scheduling-failed
    error; the modal is closed and the queue still shows what it showed
    before. *)
Theorem scheduling_reports_failure_after_both_writes
    (format_PPP : Instant -> jsstring)
    (st : Doctor.State) (e : Env) (request stored : AppointmentRequest.t)
    (i : DocId) (d : Instant) (slot : jsstring) :
  readyToSchedule st request i d slot ->
  In (i, stored) (Firestore.appointmentRequests (db e)) ->
  served 0 e = true -> served 1 e = true -> served 2 e = false ->
  let st' := state_after (Doctor.confirmScheduling format_PPP) st e in
  let e' := env_after (Doctor.confirmScheduling format_PPP) st e in
  st' = modalClosed st (Doctor.appointmentRequests st)
  /\ In (i, AppointmentRequest.schedule_patch d slot (trim (Doctor.medication st)) stored)
        (Firestore.appointmentRequests (db e'))
  /\ (exists newId,
        Firestore.appointments (db e')
        = Firestore.appointments (db e)
          ++ [(newId, newAppointment format_PPP st e request d slot)])
  /\ toasts e' = toasts e ++ [scheduledToast format_PPP d slot; schedulingFailed].
Proof.
  intros H Hin H0 H1 H2 st' e'.
  destruct (confirm_refresh_rejected format_PPP e H (has_doc_In _ _ _ Hin) H0 H1 H2)
    as (e1 & newId & Hrun & Hdb & Ht).
  unfold st', e', state_after, env_after, after. rewrite Hrun. simpl.
  rewrite Hdb. simpl. split; [reflexivity|]. split; [now apply update_docs_In|].
  split; [eauto | assumption].
Qed.

Lemma scheduling_reports_failure_after_both_writes_witness :
  let st := Sample.modal "aspirin" in
  let e := with_faults [false; false; true] (Sample.env (Sample.store pending None)) in
  let st' := state_after (Doctor.confirmScheduling Sample.format_PPP) st e in
  let e' := env_after (Doctor.confirmScheduling Sample.format_PPP) st e in
  (served 0 e = true /\ served 1 e = true /\ served 2 e = false)
  /\ st' = modalClosed st (Doctor.appointmentRequests st)
  /\ In (js "req1",
         AppointmentRequest.schedule_patch 1760000000000%Z (js "9:00 AM")
           (trim (Doctor.medication st)) (Sample.stored pending None))
        (Firestore.appointmentRequests (db e'))
  /\ (exists newId,
        Firestore.appointments (db e')
        = Firestore.appointments (db e)
          ++ [(newId, newAppointment Sample.format_PPP st e
                        (Sample.fetched pending None) 1760000000000%Z (js "9:00 AM"))])
  /\ toasts e' = toasts e
       ++ [scheduledToast Sample.format_PPP 1760000000000%Z (js "9:00 AM");
           schedulingFailed].
Proof.
  intros st e st' e'. split; [repeat split|].
  apply (@scheduling_reports_failure_after_both_writes Sample.format_PPP st e
           (Sample.fetched pending None) (Sample.stored pending None)
           (js "req1") 1760000000000%Z (js "9:00 AM")); try reflexivity.
  - ready_to_schedule.
  - left. reflexivity.
Defined.

Lemma served_when_quiet (n : nat) (e : Env) : faults e = [] -> served n e = true.
Proof. unfold served. intros ->. now destruct n. Qed.

(** X12. Scheduling is not idempotent: run twice from the same page state
    (two doctors holding the same request, or one stale page), on a
    working network, [confirmScheduling] goes through both times and
    leaves two Appointments with the same fields for the one request. *)
Theorem scheduling_twice_duplicates_the_appointment
    (format_PPP : Instant -> jsstring)
    (st : Doctor.State) (e : Env) (request : AppointmentRequest.t)
    (i : DocId) (d : Instant) (slot : jsstring) :
  readyToSchedule st request i d slot ->
  has_doc i (Firestore.appointmentRequests (db e)) = true ->
  faults e = [] ->
  let e1 := env_after (Doctor.confirmScheduling format_PPP) st e in
  let e2 := env_after (Doctor.confirmScheduling format_PPP) st e1 in
  exists id1 id2,
    Firestore.appointments (db e2)
    = Firestore.appointments (db e)
      ++ [(id1, newAppointment format_PPP st e request d slot);
          (id2, newAppointment format_PPP st e request d slot)].
Proof.
  intros H Hdoc Hq e1 e2.
  destruct (confirm_all_served format_PPP e H Hdoc
              (served_when_quiet 0 e Hq) (served_when_quiet 1 e Hq)
              (served_when_quiet 2 e Hq))
    as (x1 & id1 & q1 & Hrun1 & _ & Hdb1 & _ & Hu1 & Hf1).
  assert (E1 : e1 = x1) by (unfold e1, env_after, after; now rewrite Hrun1).
  rewrite Hq in Hf1. simpl in Hf1.
  assert (Hdoc1 : has_doc i (Firestore.appointmentRequests (db x1)) = true).
  { rewrite Hdb1. simpl. now rewrite has_doc_update. }
  destruct (confirm_all_served format_PPP x1 H Hdoc1
              (served_when_quiet 0 x1 Hf1) (served_when_quiet 1 x1 Hf1)
              (served_when_quiet 2 x1 Hf1))
    as (x2 & id2 & q2 & Hrun2 & _ & Hdb2 & _).
  assert (E2 : e2 = x2) by (unfold e2, env_after, after; now rewrite E1, Hrun2).
  exists id1, id2. rewrite E2, Hdb2, Hdb1. simpl. rewrite <- app_assoc. simpl.
  unfold newAppointment, Doctor.currentDoctor. now rewrite Hu1.
Qed.

Lemma scheduling_twice_duplicates_the_appointment_witness :
  let st := Sample.modal "aspirin" in
  let e := Sample.env (Sample.store pending None) in
  let e1 := env_after (Doctor.confirmScheduling Sample.format_PPP) st e in
  let e2 := env_after (Doctor.confirmScheduling Sample.format_PPP) st e1 in
  (has_doc (js "req1") (Firestore.appointmentRequests (db e)) = true
   /\ faults e = [])
  /\ exists id1 id2,
    Firestore.appointments (db e2)
    = Firestore.appointments (db e)
      ++ [(id1, newAppointment Sample.format_PPP st e (Sample.fetched pending None)
                  1760000000000%Z (js "9:00 AM"));
          (id2, newAppointment Sample.format_PPP st e (Sample.fetched pending None)
                  1760000000000%Z (js "9:00 AM"))].
Proof.
  intros st e e1 e2. split; [split; reflexivity|].
  apply (@scheduling_twice_duplicates_the_appointment Sample.format_PPP st e
           (Sample.fetched pending None) (js "req1") 1760000000000%Z (js "9:00 AM"));
    try reflexivity.
  ready_to_schedule.
Defined.

(** X13. On the page as a served scheduling leaves it, a further click on
    Confirm is stopped by the guard: nothing is sent, the store is
    unchanged, and the toast asks for a date and a time slot. *)
Theorem confirm_again_after_success_is_blocked
    (format_PPP : Instant -> jsstring)
    (st : Doctor.State) (e : Env) (request : AppointmentRequest.t)
    (i : DocId) (d : Instant) (slot : jsstring) :
  readyToSchedule st request i d slot ->
  has_doc i (Firestore.appointmentRequests (db e)) = true ->
  served 0 e = true -> served 1 e = true -> served 2 e = true ->
  let s1 := after (Doctor.confirmScheduling format_PPP) st e in
  Doctor.confirmScheduling format_PPP s1
  = (Ok tt, (fst s1, add_toast selectDateAndSlot (snd s1))).
Proof.
  intros H Hdoc H0 H1 H2 s1.
  destruct (confirm_all_served format_PPP e H Hdoc H0 H1 H2)
    as (e1 & newId & q & Hrun & _).
  unfold s1, after. rewrite Hrun. cbn [fst snd].
  now apply confirm_without_request.
Qed.

Lemma confirm_again_after_success_is_blocked_witness :
  let st := Sample.modal "aspirin" in
  let e := Sample.env (Sample.store pending None) in
  let s1 := after (Doctor.confirmScheduling Sample.format_PPP) st e in
  (has_doc (js "req1") (Firestore.appointmentRequests (db e)) = true
   /\ served 0 e = true /\ served 1 e = true /\ served 2 e = true)
  /\ Doctor.confirmScheduling Sample.format_PPP s1
     = (Ok tt, (fst s1, add_toast selectDateAndSlot (snd s1))).
Proof.
  intros st e s1. split; [repeat split|].
  apply (@confirm_again_after_success_is_blocked Sample.format_PPP st e
           (Sample.fetched pending None) (js "req1") 1760000000000%Z (js "9:00 AM"));
    try reflexivity.
  ready_to_schedule.
Defined.

(** X14. Cancel closes the modal and clears the selected request, the
    date, the time slot and the medication, keeps both lists and sends
    nothing; a click on Confirm on the page it leaves is stopped by the
    guard. *)
Theorem cancel_clears_the_modal (format_PPP : Instant -> jsstring)
    (st : Doctor.State) (e : Env) :
  Doctor.cancel (st, e)
  = (Ok tt, (modalClosed st (Doctor.appointmentRequests st), e))
  /\ Doctor.confirmScheduling format_PPP
       (modalClosed st (Doctor.appointmentRequests st), e)
     = (Ok tt, (modalClosed st (Doctor.appointmentRequests st),
                add_toast selectDateAndSlot e)).
Proof.
  split.
  - unfold Doctor.cancel, Doctor.setShowCalendar, Doctor.setDate,
      Doctor.setSelectedTimeSlot, Doctor.setSelectedRequest, Doctor.setMedication.
    unfold_monad. reflexivity.
  - now apply confirm_without_request.
Qed.


(** ** Flagging *)




(** X16. When the flag's update is rejected, or the request has no id or
    no document, [handleFlagForReview] changes neither the store nor the
    page (the request stays in the queue) and shows the flagging-failed
    error alone. *)
Theorem flag_failure_changes_nothing
    (request : AppointmentRequest.t) (st : Doctor.State) (e : Env) :
  match AppointmentRequest.id request with
  | None => True
  | Some i =>
      served 0 e = false
      \/ has_doc i (Firestore.appointmentRequests (db e)) = false
  end ->
  let st' := state_after (Doctor.handleFlagForReview request) st e in
  let e' := env_after (Doctor.handleFlagForReview request) st e in
  st' = st
  /\ db e' = db e
  /\ toasts e' = toasts e ++ [flaggingFailed].
Proof.
  unfold Doctor.handleFlagForReview, Doctor.refreshAppointmentRequests,
    Doctor.setAppointmentRequests, served.
  unfold_monad. intros H.
  destruct (AppointmentRequest.id request) as [i|]; simpl; [|auto].
  destruct (faults e) as [|[] rest] eqn:F; simpl in H.
  - destruct H as [H|H]; [discriminate|]. repeat (rewrite ?H; simpl). auto.
  - simpl. auto.
  - destruct H as [H|H]; [discriminate|]. repeat (rewrite ?H; simpl). auto.
Qed.

Lemma flag_failure_changes_nothing_witness :
  let request := Sample.fetched pending None in
  let st := Doctor.mkState [request] [] None false None None [] in
  let e := with_faults [true] (Sample.env (Sample.store pending None)) in
  let st' := state_after (Doctor.handleFlagForReview request) st e in
  let e' := env_after (Doctor.handleFlagForReview request) st e in
  served 0 e = false
  /\ st' = st
  /\ db e' = db e
  /\ toasts e' = toasts e ++ [flaggingFailed].
Proof.
  intros request st e st' e'. split; [reflexivity|].
  apply (@flag_failure_changes_nothing request st e). left. reflexivity.
Defined.

(** ** Flagged requests, seen from both pages *)

(** X18. For a stored pending request, the patient page offers the
    resubmission widget exactly when the doctor's queue does not show the
    request: every pending request is in one of the two places, never in
    both. *)
Theorem pending_request_is_queued_or_awaits_resubmission
    (fs : Firestore.t) (i : DocId) (r : AppointmentRequest.t) :
  In (i, r) (Firestore.appointmentRequests fs) ->
  AppointmentRequest.status r = pending ->
  (Resubmission.rendered (AppointmentRequest.with_id i r) = true
   <-> ~ In (AppointmentRequest.with_id i r) (pendingQueue fs)).
Proof.
  intros Hin Hst. unfold Resubmission.rendered. simpl. rewrite Hst. simpl.
  destruct (AppointmentRequest.flaggedForReview r) as [[|]|] eqn:Hf.
  - split; [|reflexivity]. intros _ Hq.
    pose proof (pendingQueue_unflagged fs) as Hu. unfold unflagged in Hu.
    rewrite Forall_forall in Hu. apply (Hu _ Hq). unfold flagged. simpl. exact Hf.
  - split; [discriminate|]. intros Hq. exfalso. apply Hq.
    unfold pendingQueue, Doctor.withIds. apply filter_In. split.
    + apply in_map_iff. exists (i, r). split; [reflexivity|].
      apply filter_In. split; [assumption|]. unfold Doctor.isPending. simpl.
      now rewrite Hst.
    + unfold AppointmentRequest.notFlagged. simpl. now rewrite Hf.
  - split; [discriminate|]. intros Hq. exfalso. apply Hq.
    unfold pendingQueue, Doctor.withIds. apply filter_In. split.
    + apply in_map_iff. exists (i, r). split; [reflexivity|].
      apply filter_In. split; [assumption|]. unfold Doctor.isPending. simpl.
      now rewrite Hst.
    + unfold AppointmentRequest.notFlagged. simpl. now rewrite Hf.
Qed.

Lemma pending_request_is_queued_or_awaits_resubmission_witness :
  let fs := Sample.store pending (Some true) in
  let r := Sample.stored pending (Some true) in
  Resubmission.rendered (AppointmentRequest.with_id (js "req1") r) = true
  <-> ~ In (AppointmentRequest.with_id (js "req1") r) (pendingQueue fs).
Proof.
  intros fs r.
  apply (@pending_request_is_queued_or_awaits_resubmission fs (js "req1") r).
  - left. reflexivity.
  - reflexivity.
Defined.

(** X17. A served resubmission puts a pending request back in front of the
    doctor: whatever its flag was, the request, with the new symptoms and
    the comment, is in the queue the pending query and filter yield on the
    store afterwards. *)
Theorem resubmission_returns_request_to_the_queue
    (pst : Patient.State) (w : Resubmission.State) (e : Env) (i : DocId)
    (stored : AppointmentRequest.t) :
  AppointmentRequest.id (Resubmission.request w) = Some i ->
  In (i, stored) (Firestore.appointmentRequests (db e)) ->
  AppointmentRequest.status stored = pending ->
  served 0 e = true ->
  let e' := env_after resubmit (pst, w) e in
  In (AppointmentRequest.with_id i
        (AppointmentRequest.resubmit_patch (Resubmission.symptoms w)
           (Resubmission.comment w) stored))
     (pendingQueue (db e')).
Proof.
  intros Hid Hin Hst H0 e'.
  destruct (resubmit_success pst w e Hid (has_doc_In _ _ _ Hin) H0) as (Hr & _).
  fold e' in Hr. unfold pendingQueue, Doctor.withIds. apply filter_In. split.
  - apply in_map_iff. eexists (i, _). split; [reflexivity|].
    apply filter_In. split.
    + rewrite Hr. apply update_docs_In. exact Hin.
    + unfold Doctor.isPending. simpl. now rewrite Hst.
  - reflexivity.
Qed.

Lemma resubmission_returns_request_to_the_queue_witness :
  let w := Resubmission.mkState (Sample.fetched pending (Some true))
             (js "cough, fever and headache") (js "headache since monday") false in
  let e := with_user (Some Sample.alice) (Sample.env (Sample.store pending (Some true))) in
  let e' := env_after resubmit (Patient.initial, w) e in
  (pendingQueue (db e) = [] /\ served 0 e = true)
  /\ In (AppointmentRequest.with_id (js "req1")
        (AppointmentRequest.resubmit_patch (js "cough, fever and headache")
           (js "headache since monday") (Sample.stored pending (Some true))))
     (pendingQueue (db e')).
Proof.
  intros w e e'. split; [split; reflexivity|].
  apply (@resubmission_returns_request_to_the_queue Patient.initial w e (js "req1")
           (Sample.stored pending (Some true))); try reflexivity.
  left. reflexivity.
Defined.

(** ** Resubmission, run by run *)

(** X22. When the resubmission's update is rejected, or the request has no
    id or no document, [handleResubmit] leaves the store and the patient
    page as they were, does not refresh the list, shows the
    resubmit-failed error alone, and ends with loading false. *)
Theorem resubmit_failure_changes_nothing
    (pst : Patient.State) (w : Resubmission.State) (e : Env) :
  match AppointmentRequest.id (Resubmission.request w) with
  | None => True
  | Some i =>
      served 0 e = false
      \/ has_doc i (Firestore.appointmentRequests (db e)) = false
  end ->
  let s' := state_after resubmit (pst, w) e in
  let e' := env_after resubmit (pst, w) e in
  fst s' = pst
  /\ Resubmission.loading (snd s') = false
  /\ Resubmission.symptoms (snd s') = Resubmission.symptoms w
  /\ Resubmission.comment (snd s') = Resubmission.comment w
  /\ db e' = db e
  /\ filter (fun r => negb (isWrite r)) (sent e') = filter (fun r => negb (isWrite r)) (sent e)
  /\ toasts e' = toasts e ++ [resubmitFailed].
Proof.
  unfold resubmit, Resubmission.handleResubmit, Resubmission.setLoading,
    Resubmission.inParent, Patient.fetchAppointmentRequests,
    Patient.setAppointmentRequests, served.
  unfold_monad. intros H.
  destruct (AppointmentRequest.id (Resubmission.request w)) as [i|]; simpl;
    [|repeat split].
  destruct (faults e) as [|[] rest] eqn:F; simpl in H.
  - destruct H as [H|H]; [discriminate|]. repeat (rewrite ?H; simpl).
    repeat split. rewrite filter_app. simpl. apply app_nil_r.
  - simpl. repeat split. rewrite filter_app. simpl. apply app_nil_r.
  - destruct H as [H|H]; [discriminate|]. repeat (rewrite ?H; simpl).
    repeat split. rewrite filter_app. simpl. apply app_nil_r.
Qed.

Lemma resubmit_failure_changes_nothing_witness :
  let w := Resubmission.mkState (Sample.fetched pending (Some true))
             (js "cough, fever and headache") (js "headache since monday") false in
  let e := with_faults [true]
             (with_user (Some Sample.alice) (Sample.env (Sample.store pending (Some true)))) in
  let s' := state_after resubmit (Patient.initial, w) e in
  let e' := env_after resubmit (Patient.initial, w) e in
  served 0 e = false
  /\ fst s' = Patient.initial
  /\ Resubmission.loading (snd s') = false
  /\ Resubmission.symptoms (snd s') = Resubmission.symptoms w
  /\ Resubmission.comment (snd s') = Resubmission.comment w
  /\ db e' = db e
  /\ filter (fun r => negb (isWrite r)) (sent e') = filter (fun r => negb (isWrite r)) (sent e)
  /\ toasts e' = toasts e ++ [resubmitFailed].
Proof.
  intros w e s' e'. split; [reflexivity|].
  apply (@resubmit_failure_changes_nothing Patient.initial w e). left. reflexivity.
Defined.

(** A served resubmission followed by a served refresh of the patient's
    list. *)
Lemma resubmit_served (pst : Patient.State) (w : Resubmission.State) (e : Env)
    (i : DocId) (user : User) :
  AppointmentRequest.id (Resubmission.request w) = Some i ->
  has_doc i (Firestore.appointmentRequests (db e)) = true ->
  currentUser e = Some user ->
  served 0 e = true -> served 1 e = true ->
  exists e' l,
    resubmit ((pst, w), e)
    = (Ok tt,
       ((Patient.mkState (Patient.isRecording pst) (Patient.audioData pst)
           (Patient.isDialogOpen pst) (Patient.isProcessing pst)
           (Patient.reportReady pst) (Patient.medicalReport pst) l,
         Resubmission.mkState (Resubmission.request w) (Resubmission.symptoms w)
           (Resubmission.comment w) false), e'))
    /\ l = ownRequests (uid user) (db e')
    /\ Firestore.appointmentRequests (db e')
       = update_docs i
           (AppointmentRequest.resubmit_patch (Resubmission.symptoms w)
              (Resubmission.comment w))
           (Firestore.appointmentRequests (db e)).
Proof.
  intros Hid Hdoc Hu H0 H1.
  unfold resubmit, Resubmission.handleResubmit, Resubmission.setLoading,
    Resubmission.inParent, Patient.fetchAppointmentRequests,
    Patient.setAppointmentRequests, ownRequests.
  unfold_monad. rewrite Hid. simpl.
  destruct (served_cons 0 e H0 H1) as [F|[F|[rest F]]];
    repeat (rewrite ?F, ?Hdoc, ?Hu; simpl);
    do 2 eexists; (split; [reflexivity|]); simpl; auto.
Qed.

(** X23. After a served resubmission and the served refresh it triggers,
    the patient page lists the signed-in user's requests as the store now
    has them, and none of the listed requests with the resubmitted id
    shows the resubmission widget any more; the widget ends with loading
    false. *)
Theorem resubmission_prompt_disappears
    (pst : Patient.State) (w : Resubmission.State) (e : Env)
    (i : DocId) (user : User) :
  AppointmentRequest.id (Resubmission.request w) = Some i ->
  has_doc i (Firestore.appointmentRequests (db e)) = true ->
  currentUser e = Some user ->
  served 0 e = true -> served 1 e = true ->
  let s' := state_after resubmit (pst, w) e in
  let e' := env_after resubmit (pst, w) e in
  Patient.appointmentRequests (fst s') = ownRequests (uid user) (db e')
  /\ (forall r, In r (Patient.appointmentRequests (fst s')) ->
                AppointmentRequest.id r = Some i ->
                Resubmission.rendered r = false)
  /\ Resubmission.loading (snd s') = false.
Proof.
  intros Hid Hdoc Hu H0 H1 s' e'.
  destruct (resubmit_served pst w e Hid Hdoc Hu H0 H1) as (e1 & l & Hrun & -> & Hr).
  unfold s', e', state_after, env_after, after. rewrite Hrun. simpl.
  repeat split.
  intros r Hin Hrid. unfold ownRequests in Hin.
  apply in_map_iff in Hin as ([j d] & <- & Hin).
  apply filter_In in Hin as [Hin _]. simpl in *. injection Hrid as ->.
  rewrite Hr in Hin. apply update_docs_inv in Hin as (d0 & _ & ->); reflexivity.
Qed.

Lemma resubmission_prompt_disappears_witness :
  let w := Resubmission.mkState (Sample.fetched pending (Some true))
             (js "cough, fever and headache") (js "headache since monday") false in
  let e := with_user (Some Sample.alice) (Sample.env (Sample.store pending (Some true))) in
  let s' := state_after resubmit (Patient.initial, w) e in
  let e' := env_after resubmit (Patient.initial, w) e in
  (Resubmission.rendered (Resubmission.request w) = true
   /\ served 0 e = true /\ served 1 e = true)
  /\ Patient.appointmentRequests (fst s') = ownRequests (uid Sample.alice) (db e')
  /\ (forall r, In r (Patient.appointmentRequests (fst s')) ->
                AppointmentRequest.id r = Some (js "req1") ->
                Resubmission.rendered r = false)
  /\ Resubmission.loading (snd s') = false.
Proof.
  intros w e s' e'. split; [repeat split|].
  apply (@resubmission_prompt_disappears Patient.initial w e (js "req1") Sample.alice);
    reflexivity.
Defined.

(** ** The assigned appointments *)

(** X19. A served fetch of the assigned appointments shows exactly the
    stored appointments whose assignedDoctor is the current doctor's name,
    each once and with its document id (the sort only reorders them), and
    adds no toast; a rejected fetch keeps the list and shows the
    fetch-failed error.  Neither touches the store or the pending queue. *)
Theorem assigned_list_is_the_doctors_appointments
    (Date_getTime : jsstring -> number) (st : Doctor.State) (e : Env) :
  let st' := state_after (Doctor.fetchAssignedAppointments Date_getTime) st e in
  let e' := env_after (Doctor.fetchAssignedAppointments Date_getTime) st e in
  db e' = db e
  /\ Doctor.appointmentRequests st' = Doctor.appointmentRequests st
  /\ if served 0 e then
       Permutation (Doctor.assignedAppointments st') (assignedDocs e)
       /\ Forall (fun a => Appointment.assignedDoctor a = Doctor.currentDoctor e
                           /\ Appointment.id a <> None)
                 (Doctor.assignedAppointments st')
       /\ toasts e' = toasts e
     else
       Doctor.assignedAppointments st' = Doctor.assignedAppointments st
       /\ toasts e' = toasts e ++ [fetchAssignedFailed].
Proof.
  intros st' e'.
  assert (Hframe : db e' = db e
                   /\ Doctor.appointmentRequests st' = Doctor.appointmentRequests st).
  { unfold st', e', Doctor.fetchAssignedAppointments, Doctor.setAssignedAppointments.
    run_handler; auto. }
  destruct Hframe as [Hdb Hq]. split; [assumption|]. split; [assumption|].
  destruct (served 0 e) eqn:H0.
  - assert (Hp : Permutation (Doctor.assignedAppointments st') (assignedDocs e)).
    { unfold st'. rewrite fetchAssigned_result by assumption. apply Array_sort_perm. }
    split; [assumption|]. split.
    + apply Forall_forall. intros a Ha.
      apply (Permutation_in _ Hp) in Ha. unfold assignedDocs in Ha.
      apply in_map_iff in Ha as ([i d] & <- & Hin).
      apply filter_In in Hin as [_ Hd]. simpl in *.
      apply jsstring_eqb_eq in Hd. split; [assumption | discriminate].
    + unfold e', Doctor.fetchAssignedAppointments, Doctor.setAssignedAppointments.
      unfold served in H0. unfold_monad. simpl.
      destruct (faults e) as [|[] rest]; simpl in *; try discriminate; reflexivity.
  - unfold st', e', Doctor.fetchAssignedAppointments, Doctor.setAssignedAppointments.
    unfold served in H0. unfold_monad. simpl.
    destruct (faults e) as [|[] rest]; simpl in *; try discriminate. auto.
Qed.

(** X20. When the engine's [Date] reads every stored date text of the
    doctor's appointments, a served fetch shows them in ascending
    chronological order: each appointment is not later than the next. *)
Theorem assigned_list_sorted_when_every_date_parses
    (Date_getTime : jsstring -> number) (st : Doctor.State) (e : Env) :
  served 0 e = true ->
  (forall a, In a (assignedDocs e) -> Doctor.instant Date_getTime a <> None) ->
  chronological Date_getTime
    (Doctor.assignedAppointments
       (state_after (Doctor.fetchAssignedAppointments Date_getTime) st e)).
Proof.
  intros H0 Hvalid. rewrite fetchAssigned_result by assumption.
  now apply Array_sort_chronological.
Qed.

Lemma assigned_list_sorted_when_every_date_parses_witness :
  let engine := Sample.reads [(js "2025-04-30 9:00 AM", 1746003600000%Z);
                              (js "2025-04-29 9:00 AM", 1745917200000%Z)] in
  let fs := Firestore.mk []
              [(js "apt1", Sample.on "2025-04-30"); (js "apt2", Sample.on "2025-04-29")] [] in
  let e := with_user (Some Sample.drSmith) (Sample.env fs) in
  let shown := Doctor.assignedAppointments
                 (state_after (Doctor.fetchAssignedAppointments engine)
                              (Doctor.initial 0%Z) e) in
  map Appointment.appointmentDate shown = [js "2025-04-29"; js "2025-04-30"]
  /\ chronological engine shown.
Proof.
  intros engine fs e shown. split; [vm_compute; reflexivity|].
  apply (@assigned_list_sorted_when_every_date_parses engine (Doctor.initial 0%Z) e).
  - reflexivity.
  - intros a Ha. vm_compute in Ha.
    destruct Ha as [<-|[<-|[]]]; vm_compute; discriminate.
Defined.

(** X24. The assigned list is keyed by display name, not by account: for
    two users with the same displayName (two doctors who gave none both
    count as "Doctor") the same fetch, on the same store, shows the same
    appointments. *)
Theorem assigned_list_depends_on_display_name_only
    (Date_getTime : jsstring -> number) (st : Doctor.State) (e : Env)
    (u1 u2 : User) :
  or_default (displayName u1) (js "Doctor") = or_default (displayName u2) (js "Doctor") ->
  Doctor.assignedAppointments
    (state_after (Doctor.fetchAssignedAppointments Date_getTime) st
                 (with_user (Some u1) e))
  = Doctor.assignedAppointments
      (state_after (Doctor.fetchAssignedAppointments Date_getTime) st
                   (with_user (Some u2) e)).
Proof.
  intros H.
  unfold Doctor.fetchAssignedAppointments, Doctor.setAssignedAppointments,
    Doctor.currentDoctor.
  unfold_monad. simpl. rewrite H.
  destruct (faults e) as [|[] rest]; reflexivity.
Qed.

Lemma assigned_list_depends_on_display_name_only_witness :
  let u1 := mkUser (js "uid-d7") None in
  let u2 := mkUser (js "uid-d8") (Some []) in
  let fs := Firestore.mk []
              [(js "apt1",
                Appointment.mk None (js "April 30th, 2025") (js "9:00 AM") (js "Doctor")
                  (js "alice") None None None)] [] in
  uid u1 <> uid u2
  /\ Doctor.assignedAppointments
       (state_after (Doctor.fetchAssignedAppointments Sample.unreadable)
                    (Doctor.initial 0%Z) (with_user (Some u1) (Sample.env fs)))
     = Doctor.assignedAppointments
         (state_after (Doctor.fetchAssignedAppointments Sample.unreadable)
                      (Doctor.initial 0%Z) (with_user (Some u2) (Sample.env fs))).
Proof.
  intros u1 u2 fs. split; [vm_compute; congruence|].
  apply (@assigned_list_depends_on_display_name_only Sample.unreadable
           (Doctor.initial 0%Z) (Sample.env fs) u1 u2).
  reflexivity.
Defined.

(** X25. What a doctor schedules shows up in that doctor's assigned list:
    on a working network, after a run of [confirmScheduling] and a fetch
    of the assigned appointments, the list contains the new Appointment
    with its document id. *)
Theorem scheduled_appointment_appears_in_assigned_list
    (format_PPP : Instant -> jsstring) (Date_getTime : jsstring -> number)
    (st : Doctor.State) (e : Env) (request : AppointmentRequest.t)
    (i : DocId) (d : Instant) (slot : jsstring) :
  readyToSchedule st request i d slot ->
  has_doc i (Firestore.appointmentRequests (db e)) = true ->
  faults e = [] ->
  let s1 := after (Doctor.confirmScheduling format_PPP) st e in
  let st2 := state_after (Doctor.fetchAssignedAppointments Date_getTime)
               (fst s1) (snd s1) in
  exists newId,
    In (Appointment.with_id newId (newAppointment format_PPP st e request d slot))
       (Doctor.assignedAppointments st2).
Proof.
  intros H Hdoc Hq s1 st2.
  destruct (confirm_all_served format_PPP e H Hdoc
              (served_when_quiet 0 e Hq) (served_when_quiet 1 e Hq)
              (served_when_quiet 2 e Hq))
    as (e1 & newId & q & Hrun & _ & Hdb & _ & Hu & Hf).
  rewrite Hq in Hf. simpl in Hf.
  exists newId. unfold st2, s1, after. rewrite Hrun. cbn [fst snd].
  rewrite fetchAssigned_result by (now apply served_when_quiet).
  eapply Permutation_in; [symmetry; apply Array_sort_perm|].
  unfold assignedDocs. apply in_map_iff.
  exists (newId, newAppointment format_PPP st e request d slot). split; [reflexivity|].
  apply filter_In. split.
  - rewrite Hdb. simpl. apply in_or_app. right. now left.
  - simpl. unfold Doctor.currentDoctor. rewrite Hu. apply jsstring_eqb_refl.
Qed.

Lemma scheduled_appointment_appears_in_assigned_list_witness :
  let st := Sample.modal "aspirin" in
  let e := with_user (Some Sample.drSmith) (Sample.env (Sample.store pending None)) in
  let s1 := after (Doctor.confirmScheduling Sample.format_PPP) st e in
  let st2 := state_after (Doctor.fetchAssignedAppointments Sample.unreadable)
               (fst s1) (snd s1) in
  (has_doc (js "req1") (Firestore.appointmentRequests (db e)) = true /\ faults e = [])
  /\ exists newId,
    In (Appointment.with_id newId
          (newAppointment Sample.format_PPP st e (Sample.fetched pending None)
             1760000000000%Z (js "9:00 AM")))
       (Doctor.assignedAppointments st2).
Proof.
  intros st e s1 st2. split; [split; reflexivity|].
  apply (@scheduled_appointment_appears_in_assigned_list Sample.format_PPP
           Sample.unreadable st e (Sample.fetched pending None) (js "req1")
           1760000000000%Z (js "9:00 AM")); try reflexivity.
  ready_to_schedule.
Defined.

(** ** Accounts and profiles *)

Lemma find_set_doc {T} (i : DocId) (d : T) (l : list (DocId * T)) :
  option_map snd (find (fun p => jsstring_eqb (fst p) i) (set_doc i d l)) = Some d.
Proof.
  unfold set_doc, has_doc, update_docs.
  induction l as [|[j x] l IH]; simpl.
  - now rewrite jsstring_eqb_refl.
  - destruct (jsstring_eqb j i) eqn:E; simpl.
    + now rewrite E.
    + destruct (existsb (fun p => jsstring_eqb (fst p) i) l); simpl; now rewrite E.
Qed.

Ltac read_back_profile account values e :=
  let Hfind := fresh "Hfind" in
  pose proof (find_set_doc (uid account) (profileOf values) (Firestore.users (db e)))
    as Hfind;
  cbv beta delta [fst snd] in Hfind; rewrite Hfind; clear Hfind.

(** A sign-up on a working network. *)
Lemma signup_served (st : AuthForm.State) (e : Env) (account : User)
    (values : AuthForm.Values) :
  faults e = [] ->
  exists e',
    AuthForm.onSubmit false true account values (st, e)
    = (Ok tt, (AuthForm.mkState false (Some (js "/login")), e'))
    /\ db e' = Firestore.mk (Firestore.appointmentRequests (db e))
                 (Firestore.appointments (db e))
                 (set_doc (uid account) (profileOf values) (Firestore.users (db e)))
    /\ currentUser e'
       = Some (mkUser (uid account)
                 (if truthy_opt (AuthForm.username values)
                  then AuthForm.username values else None))
    /\ faults e' = [].
Proof.
  intros Hq. unfold AuthForm.onSubmit, AuthForm.setIsLoading, AuthForm.router_push,
    profileOf.
  unfold_monad. simpl.
  destruct (truthy_opt (AuthForm.username values));
    repeat (rewrite ?Hq; simpl); eexists; (split; [reflexivity|]); simpl; auto.
Qed.

(** X26. Sign-up and the pages that read the profile agree: on a working
    network, after a sign-up the form points to /login, the new user is
    signed in, the welcome page reads back the chosen user type and
    renders that type's page, and the landing page routes to /welcome. *)
Theorem signup_then_welcome_renders_the_chosen_page
    (st : AuthForm.State) (e : Env) (account : User) (values : AuthForm.Values) :
  faults e = [] ->
  let s1 := after (AuthForm.onSubmit false true account values) st e in
  let welcome := state_after Welcome.fetchUserType None (snd s1) in
  let home := state_after (Home.onAuthStateChanged (currentUser (snd s1)))
                Home.initial (snd s1) in
  AuthForm.route (fst s1) = Some (js "/login")
  /\ (exists name, currentUser (snd s1) = Some (mkUser (uid account) name))
  /\ welcome = Some (AuthForm.userType values)
  /\ Welcome.render welcome = pageOf (AuthForm.userType values)
  /\ Home.route home = Some (js "/welcome").
Proof.
  intros Hq s1 welcome home.
  destruct (signup_served st e account values Hq) as (e1 & Hrun & Hdb & Hu & Hf).
  assert (Hw : welcome = Some (AuthForm.userType values)).
  { unfold welcome, s1, after. rewrite Hrun. cbn [fst snd].
    unfold Welcome.fetchUserType, Welcome.setUserType, getDoc.
    unfold_monad. simpl. rewrite Hu, Hf. simpl. rewrite Hdb. simpl.
    read_back_profile account values e. reflexivity. }
  assert (Hh : Home.route home = Some (js "/welcome")).
  { unfold home, s1, after. rewrite Hrun. cbn [fst snd]. rewrite Hu.
    unfold Home.onAuthStateChanged, Home.setUserType, Home.router_push, getDoc.
    unfold_monad. simpl. rewrite Hf. simpl. rewrite Hdb. simpl.
    read_back_profile account values e. simpl.
    destruct (AuthForm.userType values); reflexivity. }
  unfold s1 at 1 2, after. rewrite Hrun. cbn [fst snd].
  split; [reflexivity|]. split; [eauto|]. split; [assumption|].
  split; [|assumption]. rewrite Hw. now destruct (AuthForm.userType values).
Qed.

Lemma signup_then_welcome_renders_the_chosen_page_witness :
  let values := AuthForm.mkValues (js "house@example.org") (js "vicodin")
                  (Some (js "Dr House")) doctor in
  let account := mkUser (js "uid-d2") None in
  let e := Sample.env Firestore.empty in
  let s1 := after (AuthForm.onSubmit false true account values)
              (AuthForm.mkState false None) e in
  let welcome := state_after Welcome.fetchUserType None (snd s1) in
  let home := state_after (Home.onAuthStateChanged (currentUser (snd s1)))
                Home.initial (snd s1) in
  faults e = []
  /\ AuthForm.route (fst s1) = Some (js "/login")
  /\ (exists name, currentUser (snd s1) = Some (mkUser (uid account) name))
  /\ welcome = Some doctor
  /\ Welcome.render welcome = Welcome.DoctorPage
  /\ Home.route home = Some (js "/welcome").
Proof.
  intros values account e s1 welcome home. split; [reflexivity|].
  apply (@signup_then_welcome_renders_the_chosen_page
           (AuthForm.mkState false None) e account values).
  reflexivity.
Defined.

Lemma find_missing_doc {T} (i : DocId) (l : list (DocId * T)) :
  has_doc i l = false -> find (fun p => jsstring_eqb (fst p) i) l = None.
Proof.
  unfold has_doc. induction l as [|[j x] l IH]; simpl; [reflexivity|].
  destruct (jsstring_eqb j i); simpl; [discriminate | exact IH].
Qed.

(** X27. Sign-up is not atomic either: when the account is created (and
    the display name set) but the profile's [setDoc] is rejected, the user
    is left signed in with no profile document; the form shows the
    authentication-failed toast and does not navigate; the welcome page
    then stays on "Loading..." and the landing page routes to /login. *)
Theorem signup_can_leave_an_account_without_profile
    (st : AuthForm.State) (e : Env) (account : User) (values : AuthForm.Values) :
  faults e = repeat false (profileWrite values) ++ [true] ->
  has_doc (uid account) (Firestore.users (db e)) = false ->
  let s1 := after (AuthForm.onSubmit false true account values) st e in
  let welcome := state_after Welcome.fetchUserType None (snd s1) in
  let home := state_after (Home.onAuthStateChanged (currentUser (snd s1)))
                Home.initial (snd s1) in
  db (snd s1) = db e
  /\ (exists name, currentUser (snd s1) = Some (mkUser (uid account) name))
  /\ fst s1 = AuthForm.mkState false (AuthForm.route st)
  /\ (exists t, toasts (snd s1) = toasts e ++ [t]
                /\ title t = js "Authentication Failed")
  /\ Welcome.render welcome = Welcome.Loading
  /\ Home.route home = Some (js "/login").
Proof.
  intros Hf Hdoc s1 welcome home.
  assert (Hrun : exists e1 name t,
    AuthForm.onSubmit false true account values (st, e)
    = (Ok tt, (AuthForm.mkState false (AuthForm.route st), e1))
    /\ db e1 = db e
    /\ currentUser e1 = Some (mkUser (uid account) name)
    /\ faults e1 = []
    /\ toasts e1 = toasts e ++ [t] /\ title t = js "Authentication Failed").
  { unfold AuthForm.onSubmit, AuthForm.setIsLoading, AuthForm.router_push.
    unfold profileWrite in Hf. unfold_monad. simpl.
    destruct (truthy_opt (AuthForm.username values)); simpl in Hf;
      repeat (rewrite ?Hf; simpl);
      do 3 eexists; (split; [reflexivity|]); simpl; auto 6. }
  destruct Hrun as (e1 & name & t & Hrun & Hdb & Hu & Hf1 & Ht & Htitle).
  assert (Hfind : find (fun p : jsstring * UserProfile.t =>
                          jsstring_eqb (let (x, _) := p in x) (uid account))
                       (Firestore.users (db e)) = None).
  { exact (find_missing_doc _ _ Hdoc). }
  unfold welcome, home, s1, after. rewrite Hrun. cbn [fst snd]. rewrite Hu.
  split; [assumption|]. split; [eauto|]. split; [reflexivity|]. split; [eauto|].
  unfold Welcome.fetchUserType, Welcome.setUserType,
    Home.onAuthStateChanged, Home.setUserType, Home.router_push, getDoc.
  unfold_monad. simpl. rewrite Hu, Hf1. simpl. rewrite Hdb, Hfind. simpl.
  split; reflexivity.
Qed.

Lemma signup_can_leave_an_account_without_profile_witness :
  let values := AuthForm.mkValues (js "alice@example.org") (js "secret1")
                  (Some (js "alice")) patient in
  let account := mkUser (js "uid-p1") None in
  let e := with_faults [false; false; true] (Sample.env Firestore.empty) in
  let s1 := after (AuthForm.onSubmit false true account values)
              (AuthForm.mkState false None) e in
  let welcome := state_after Welcome.fetchUserType None (snd s1) in
  let home := state_after (Home.onAuthStateChanged (currentUser (snd s1)))
                Home.initial (snd s1) in
  faults e = repeat false (profileWrite values) ++ [true]
  /\ db (snd s1) = db e
  /\ (exists name, currentUser (snd s1) = Some (mkUser (uid account) name))
  /\ fst s1 = AuthForm.mkState false None
  /\ (exists t, toasts (snd s1) = toasts e ++ [t]
                /\ title t = js "Authentication Failed")
  /\ Welcome.render welcome = Welcome.Loading
  /\ Home.route home = Some (js "/login").
Proof.
  intros values account e s1 welcome home. split; [reflexivity|].
  apply (@signup_can_leave_an_account_without_profile
           (AuthForm.mkState false None) e account values); reflexivity.
Defined.

(** X28. A login never touches the store and always ends with isLoading
    false.  When Firebase is configured and the sign-in is served, the
    account becomes the current user, the form shows the welcome-back toast
    and goes to /welcome; otherwise the current user and the route are as
    before and the one toast added is the authentication-failed one, and
    without configuration nothing is even sent. *)
Theorem login_signs_in_or_changes_nothing
    (st : AuthForm.State) (e : Env) (configured : bool) (account : User)
    (values : AuthForm.Values) :
  let s1 := after (AuthForm.onSubmit true configured account values) st e in
  db (snd s1) = db e
  /\ AuthForm.isLoading (fst s1) = false
  /\ (configured = false -> sent (snd s1) = sent e)
  /\ if configured && served 0 e then
       currentUser (snd s1) = Some account
       /\ AuthForm.route (fst s1) = Some (js "/welcome")
       /\ toasts (snd s1) = toasts e ++ [toast_of "Login Successful" "Welcome back!"]
     else
       currentUser (snd s1) = currentUser e
       /\ AuthForm.route (fst s1) = AuthForm.route st
       /\ exists t, toasts (snd s1) = toasts e ++ [t]
                    /\ title t = js "Authentication Failed".
Proof.
  unfold AuthForm.onSubmit, AuthForm.setIsLoading, AuthForm.router_push, served.
  unfold_monad. simpl.
  destruct configured; simpl.
  - destruct (faults e) as [|[] rest]; simpl; repeat split; try discriminate;
      eexists; split; reflexivity.
  - repeat split. eexists; split; reflexivity.
Qed.

(** ** The navigation bar *)

(** X29. Whenever a user is signed in the navigation bar shows a name that
    is not empty: the display name, else the part of the e-mail address
    before the '@', else "User" (also when that part is empty or there is
    no address), and this holds even if the profile read that follows is
    rejected.  Signed out, it shows no name and no user type. *)
Theorem navbar_name_is_never_empty
    (user : option User) (email : option jsstring) (st : Navbar.State) (e : Env) :
  let st' := state_after (Navbar.onAuthStateChanged user email) st e in
  match user with
  | Some u =>
      Navbar.loggedIn st' = true
      /\ Navbar.username st' = Some (Navbar.shownName u email)
      /\ Navbar.shownName u email <> []
      /\ (truthy_opt (displayName u) = false ->
          truthy (narrowed (option_map Navbar.beforeAt email)) = false ->
          Navbar.shownName u email = js "User")
  | None =>
      st' = Navbar.mkState false None None
  end.
Proof.
  unfold Navbar.onAuthStateChanged, Navbar.setLoggedIn, Navbar.setUsername,
    Navbar.setUserType, getDoc.
  unfold_monad. simpl.
  destruct user as [u|]; [|reflexivity].
  assert (Hne : Navbar.shownName u email <> []).
  { unfold Navbar.shownName, or_default.
    destruct (displayName u) as [[|c n]|]; simpl;
      destruct (narrowed (option_map Navbar.beforeAt email)); simpl;
      try discriminate; vm_compute; discriminate. }
  assert (Huser : truthy_opt (displayName u) = false ->
                  truthy (narrowed (option_map Navbar.beforeAt email)) = false ->
                  Navbar.shownName u email = js "User").
  { unfold Navbar.shownName, or_default.
    destruct (displayName u) as [[|c n]|]; simpl; try discriminate;
      intros _ H; rewrite H; reflexivity. }
  destruct (faults e) as [|[] rest]; simpl;
    try (destruct (option_map _ (find _ _))); simpl; auto.
Qed.

(** The part before the '@' can be empty: such an address alone gives
    "User". *)
Example navbar_name_for_an_address_without_local_part :
  Navbar.shownName (mkUser (js "uid-p9") None) (Some (js "@example.org")) = js "User"
  /\ Navbar.shownName (mkUser (js "uid-p9") None) (Some (js "bob@example.org")) = js "bob"
  /\ Navbar.shownName (mkUser (js "uid-p9") (Some (js "Bobby")))
       (Some (js "bob@example.org")) = js "Bobby".
Proof. repeat split; vm_compute; reflexivity. Qed.

(** ** From the patient to the doctor *)

Lemma doctor_fetch_served (st : Doctor.State) (e : Env) :
  served 0 e = true ->
  Doctor.appointmentRequests (state_after Doctor.fetchAppointmentRequests st e)
  = pendingQueue (db e).
Proof.
  intros H0. unfold Doctor.fetchAppointmentRequests,
    Doctor.refreshAppointmentRequests, Doctor.setAppointmentRequests, pendingQueue.
  unfold_monad.
  destruct (served_first e H0) as [F|[rest F]]; rewrite F; reflexivity.
Qed.

(** X30. What a patient submits reaches the doctor: on a working network,
    after a served [handleContinue] the doctor page's fetch puts the new
    request, with its document id, in the pending queue. *)
Theorem submitted_request_reaches_the_doctors_queue
    (pst : Patient.State) (dst : Doctor.State) (e : Env) (t d : jsstring)
    (user : User) :
  Patient.medicalReport pst = MedicalReport.mk (Some t) (Some d) ->
  t <> [] -> d <> [] ->
  currentUser e = Some user ->
  faults e = [] ->
  let e1 := env_after Patient.handleContinue pst e in
  let dst' := state_after Doctor.fetchAppointmentRequests dst e1 in
  exists newId,
    In (AppointmentRequest.mk (Some newId) (uid user)
          (or_default (displayName user) (js "Anonymous")) t d
          None pending (now e) None None None None)
       (Doctor.appointmentRequests dst').
Proof.
  intros Hr Ht Hd Hu Hq e1 dst'.
  destruct (handleContinue_served pst e Hr Ht Hd Hu (served_when_quiet 0 e Hq))
    as (x1 & Hrun & Hreq & _ & _ & _ & Hf).
  rewrite Hq in Hf. simpl in Hf.
  assert (E1 : e1 = x1) by (unfold e1, env_after, after; now rewrite Hrun).
  exists (autoId e (List.length (sent e))). unfold dst'. rewrite E1.
  rewrite doctor_fetch_served by (now apply served_when_quiet).
  unfold pendingQueue, Doctor.withIds. apply filter_In. split; [|reflexivity].
  apply in_map_iff.
  exists (autoId e (List.length (sent e)),
          AppointmentRequest.mk None (uid user)
            (or_default (displayName user) (js "Anonymous")) t d
            None pending (now e) None None None None).
  split; [reflexivity|].
  apply filter_In. split; [|reflexivity].
  rewrite Hreq. apply in_or_app. right. left. reflexivity.
Qed.

Lemma submitted_request_reaches_the_doctors_queue_witness :
  let pst := Patient.mkState false None true false true
               (MedicalReport.mk (Some (js "cough")) (Some (js "Likely viral infection")))
               [] in
  let e := with_user (Some Sample.alice) (Sample.env Firestore.empty) in
  let e1 := env_after Patient.handleContinue pst e in
  let dst' := state_after Doctor.fetchAppointmentRequests (Doctor.initial 0%Z) e1 in
  (js "cough" <> [] /\ js "Likely viral infection" <> [] /\ faults e = [])
  /\ exists newId,
    In (AppointmentRequest.mk (Some newId) (uid Sample.alice)
          (or_default (displayName Sample.alice) (js "Anonymous"))
          (js "cough") (js "Likely viral infection")
          None pending (now e) None None None None)
       (Doctor.appointmentRequests dst').
Proof.
  intros pst e e1 dst'.
  split; [repeat split; vm_compute; congruence|].
  apply (@submitted_request_reaches_the_doctors_queue pst (Doctor.initial 0%Z) e
           (js "cough") (js "Likely viral infection") Sample.alice);
    try reflexivity; vm_compute; congruence.
Defined.
